(** * Pakpay: ledger engine, limit tracker and transaction monitoring

    A shallow embedding of three services of the backend:

    - [services/ledgerService.js]   (class [LedgerService]),
    - [services/kycLimitsService.js] (class [KYCLimitsService]),
    - [services/transactionMonitoringService.js]
      (class [TransactionMonitoringService]).

    Conventions of the embedding.

    - Money.  Every monetary column is [DECIMAL(19,4)]; an amount is the
      integer number of ten-thousandths of a rupee it denotes, so
      [PKR 1 = 10000] and the JavaScript literal [0.01] is [100].  The code
      reads such a column with [parseFloat] and computes on doubles, the
      embedding computes on the decimals themselves.  The two agree where a
      double holds the fourth decimal with room to spare, which is what
      [precise] says of an amount: up to ten thousand million rupees
      [parseFloat] keeps different amounts different and in their order, and
      the sum or difference of two amounts, computed on doubles and written
      to a [DECIMAL(19,4)] column, is stored as the exact sum or difference.
      They differ above that range; where a computed sum is compared with an
      amount it equals ([0.1 + 0.2 > 0.3] holds on doubles); and on the
      computed number itself where the code returns it ([0.3 - 0.1] is
      returned as [0.19999999999999998] and stored as [0.2000]).  A theorem
      with the hypothesis [precise] is stated for that range, and says
      nothing of a sum that equals the amount it is compared with nor of a
      computed number the code returns.
    - Asynchronous code.  Every [await] is sequenced; a service method is a
      computation in the monad [M S], which threads the store [S] and either
      returns a value or throws.  The store survives a throw: whatever was
      written before the exception is still there, unless a surrounding
      database transaction rolls it back.
    - Environment.  The clock, the random transaction reference and the
      availability of the database are inputs: [Env] carries the value of
      [new Date()], the value returned by [generateTRN()] and, for every
      database statement of the code, whether it throws. *)

From Stdlib Require Import ZArith List Ascii String Bool Lia Permutation Sorted.
Import ListNotations.
Open Scope string_scope.
Open Scope list_scope.
Open Scope Z_scope.

(** ** Money *)

Definition Money := Z.

Definition scale : Z := 10000.

(** [PKR n] is the amount of [n] rupees. *)
Definition PKR (n : Z) : Money := n * scale.

(** The amounts on which the doubles of the code and the decimals of the
    database agree: at most 10,000,000,000 rupees in absolute value. *)
Definition precise (m : Money) : Prop := Z.abs m <= PKR 10000000000.

(** ** Dates

    A JavaScript [Date] and an SQL timestamp are the number of milliseconds
    since 1 January 1970, 00:00, read in the time zone of the server (a
    fixed offset from UTC: Pakistan has no daylight saving time).  The
    getters are those of [Date]; [getMonth] is zero-based. *)

Definition JSDate := Z.

Definition msPerDay : Z := 86400000.

(** SQL [DATE(t)]: the number of the calendar day. *)
Definition dayNumber (t : JSDate) : Z := t / msPerDay.

Definition msOfDay (t : JSDate) : Z := t mod msPerDay.

(** Year, month (1-12) and day of the month of a day number, in the
    proleptic Gregorian calendar. *)
Definition civil (day : Z) : Z * Z * Z :=
  let z := day + 719468 in
  let era := z / 146097 in
  let doe := z mod 146097 in
  let yoe := (doe - doe / 1460 + doe / 36524 - doe / 146096) / 365 in
  let doy := doe - (365 * yoe + yoe / 4 - yoe / 100) in
  let mp := (5 * doy + 2) / 153 in
  let d := doy - (153 * mp + 2) / 5 + 1 in
  let m := if mp <? 10 then mp + 3 else mp - 9 in
  let y := yoe + era * 400 + (if m <=? 2 then 1 else 0) in
  (y, m, d).

Definition getFullYear (t : JSDate) : Z := fst (fst (civil (dayNumber t))).

Definition getMonth (t : JSDate) : Z := snd (fst (civil (dayNumber t))) - 1.

Definition getDate (t : JSDate) : Z := snd (civil (dayNumber t)).

Definition getHours (t : JSDate) : Z := msOfDay t / 3600000.

(** [setHours(0, 0, 0, 0)] and [setHours(23, 59, 59, 999)]. *)
Definition startOfDay (d : JSDate) : JSDate := d - msOfDay d.

Definition endOfDay (d : JSDate) : JSDate := d - msOfDay d + 86399999.

(** SQL [BETWEEN lo AND hi] on timestamps (both ends included). *)
Definition whereBetween (lo hi t : JSDate) : bool :=
  (lo <=? t) && (t <=? hi).

(** The calendar day of [a] is strictly before the calendar day of [b]. *)
Definition day_before (a b : JSDate) : Prop := dayNumber a < dayNumber b.

(** ** Database statements, exceptions and the service monad *)

(** One label per database statement of the modelled methods.  A label names
    a statement of the code, not one of its runs: the runs of a statement
    inside a loop share the label. *)
Inductive Stmt :=
  (* LedgerService *)
  | SelectFromAccount | InsertFromAccount
  | SelectToAccount | InsertToAccount
  | LockFromAccount | LockToAccount
  | InsertTransaction | InsertDebitEntry | InsertCreditEntry
  | UpdateFromBalance | UpdateToBalance | CompleteTransaction
  | Commit
  | SelectDayTransactions | SelectDayTotals
  (* KYCLimitsService *)
  | SelectLimits | InitializeLimits | ResetDaily | ResetMonthly
  (* TransactionMonitoringService *)
  | SelectRiskProfile | SelectHourlyStats | SelectDailyStats
  | SelectSimilarTransactions | SelectRapidMovement | SelectRoundAmounts
  | SelectLastActivity | SelectSanctions | SelectPEP
  | InsertCTR | InsertSTR | SelectComplianceTeam
  | InsertAlert | InsertBlocked
  | InsertMonitoringLog | InsertMonitoringError
  (* NotificationService *)
  | SelectDeviceTokens | InsertNotificationHistory.

(** What a JavaScript [throw] carries: [new Error(message)], the [TypeError]
    of a property read on [undefined], or the failure of a database
    statement. *)
Inductive Exception :=
  | Error (message : string)
  | TypeError
  | DatabaseError (s : Stmt).

Inductive Result (A : Type) :=
  | Returned (a : A)
  | Thrown (e : Exception).
Arguments Returned {A} a.
Arguments Thrown {A} e.

Record Env := mkEnv {
  trn : string;          (* the value of generateTRN() *)
  now : JSDate;          (* the value of new Date() / CURRENT_TIMESTAMP *)
  faults : Stmt -> bool  (* does this statement throw? *)
}.

(** The environment of a healthy database. *)
Definition reliable (ref : string) (t : JSDate) : Env :=
  mkEnv ref t (fun _ => false).

Definition M (S A : Type) : Type := S -> S * Result A.

Definition ret {S A} (a : A) : M S A := fun s => (s, Returned a).

Definition throw {S A} (e : Exception) : M S A := fun s => (s, Thrown e).

Definition bind {S A B} (m : M S A) (f : A -> M S B) : M S B :=
  fun s =>
    match m s with
    | (s', Returned a) => f a s'
    | (s', Thrown e) => (s', Thrown e)
    end.

Definition get {S} : M S S := fun s => (s, Returned s).

Definition modify {S} (f : S -> S) : M S unit := fun s => (f s, Returned tt).

(** [try { m } catch (error) { handler error }]. *)
Definition try_catch {S A} (m : M S A) (handler : Exception -> M S A) : M S A :=
  fun s =>
    match m s with
    | (s', Returned a) => (s', Returned a)
    | (s', Thrown e) => handler e s'
    end.

(** [await <statement s>]: throws when the environment says so. *)
Definition statement {S} (env : Env) (s : Stmt) : M S unit :=
  fun st => if faults env s then (st, Thrown (DatabaseError s)) else (st, Returned tt).

Declare Scope monad_scope.
Delimit Scope monad_scope with monad.
Notation "x <- m ;; k" := (bind m (fun x => k))
  (at level 61, m at next level, right associativity) : monad_scope.
Notation "m ;;; k" := (bind m (fun _ => k))
  (at level 61, right associativity) : monad_scope.
Open Scope monad_scope.

Definition thrown {A} (r : Result A) : Prop :=
  match r with Returned _ => False | Thrown _ => True end.

(** * The ledger engine ([services/ledgerService.js]) *)

Module Ledger.

(** ** Tables

    [accounts], [transactions] and [ledger_entries] as created by
    [database/fresh-start.js].  A table is the list of its rows in insertion
    order.  Identifiers are database-generated UUIDs; here the identifier of
    a new row is one more than the largest identifier of its table.

    Constraints of the schema are not rows of a table: a statement the
    database rejects is a statement that throws, which is what [faults]
    decides.  ([transactions.transaction_ref] is UNIQUE, so
    [InsertTransaction] throws on a reference already used; the two other
    schema files of the repository, [database/init-ledger.js] and the
    migration [create_ledger_tables.js], also declare
    [ledger_entries.transaction_ref] UNIQUE, under which [InsertCreditEntry]
    always throws.) *)

Definition AccountId := Z.
Definition UserId := Z.

Inductive AccountType := customer_wallet | company_operational | settlement.

Inductive AccountStatus := active | frozen | closed.

Inductive EntryType := debit | credit.

Inductive TransactionType := transfer | deposit_type | withdrawal | remittance.

Inductive TransactionStatus := pending | completed | failed | reversed.

(** Values stored in a [metadata] JSON object.  [TransferTo a] and
    [TransferFrom a] stand for the template strings
    [`Transfer to account ${a}`] and [`Transfer from account ${a}`]. *)
Inductive MetaValue :=
  | MString (s : string)
  | MNumber (z : Z)
  | MDate (d : JSDate)
  | TransferTo (a : AccountId)
  | TransferFrom (a : AccountId).

(** A JSON object as the list of its bindings; a later binding of a key
    shadows an earlier one, so [{...m, k: v}] is [m ++ [(k, v)]]. *)
Definition Metadata := list (string * MetaValue).

Record Account := mkAccount {
  acc_id : AccountId;
  acc_user_id : UserId;
  account_type : AccountType;
  balance : Money;
  status : AccountStatus;
  acc_updated_at : JSDate
}.

Record Transaction := mkTransaction {
  tx_id : Z;
  tx_transaction_ref : string;
  tx_type : TransactionType;
  from_account_id : option AccountId;
  to_account_id : option AccountId;
  tx_amount : Money;
  tx_status : TransactionStatus;
  tx_metadata : Metadata;
  tx_created_at : JSDate;
  tx_updated_at : JSDate
}.

Record LedgerEntry := mkLedgerEntry {
  transaction_ref : string;
  account_id : AccountId;
  entry_type : EntryType;
  amount : Money;
  balance_after : Money;
  metadata : Metadata;
  created_at : JSDate
}.

Record DB := mkDB {
  accounts : list Account;
  transactions : list Transaction;
  ledger_entries : list LedgerEntry
}.

Definition account_type_eqb (a b : AccountType) : bool :=
  match a, b with
  | customer_wallet, customer_wallet
  | company_operational, company_operational
  | settlement, settlement => true
  | _, _ => false
  end.

Definition status_eqb (a b : AccountStatus) : bool :=
  match a, b with
  | active, active | frozen, frozen | closed, closed => true
  | _, _ => false
  end.

Definition entry_type_eqb (a b : EntryType) : bool :=
  match a, b with
  | debit, debit | credit, credit => true
  | _, _ => false
  end.

Definition tx_status_eqb (a b : TransactionStatus) : bool :=
  match a, b with
  | pending, pending | completed, completed
  | failed, failed | reversed, reversed => true
  | _, _ => false
  end.

Definition fresh_id (used : list Z) : Z := 1 + fold_right Z.max 0 used.

(** ** Database transactions

    [knex.transaction(async (trx) => ...)] runs its callback on a connection
    of its own.  Statements issued through [trx] are pending until the
    callback returns (COMMIT) and are dropped when it throws (ROLLBACK);
    statements issued through the global [knex] inside the callback run on
    another connection and are durable at once.  [trx] reads the durable
    rows with its own pending writes applied to them (READ COMMITTED). *)

Inductive Pending :=
  | InsertTransactionRow (t : Transaction)
  | InsertLedgerEntry (e : LedgerEntry)
  | UpdateBalance (a : AccountId) (b : Money) (t : JSDate)
  | UpdateStatus (tx : Z) (s : TransactionStatus) (t : JSDate).

Definition apply_pending (db : DB) (w : Pending) : DB :=
  match w with
  | InsertTransactionRow t =>
      mkDB (accounts db) (transactions db ++ [t]) (ledger_entries db)
  | InsertLedgerEntry e =>
      mkDB (accounts db) (transactions db) (ledger_entries db ++ [e])
  | UpdateBalance a b t =>
      mkDB (map (fun r => if acc_id r =? a
                          then mkAccount (acc_id r) (acc_user_id r) (account_type r)
                                         b (status r) t
                          else r) (accounts db))
           (transactions db) (ledger_entries db)
  | UpdateStatus tx s t =>
      mkDB (accounts db)
           (map (fun r => if tx_id r =? tx
                          then mkTransaction (tx_id r) (tx_transaction_ref r) (tx_type r)
                                 (from_account_id r) (to_account_id r) (tx_amount r)
                                 s (tx_metadata r) (tx_created_at r) t
                          else r) (transactions db))
           (ledger_entries db)
  end.

Record TrxState := mkTrx {
  durable : DB;             (* what every connection sees *)
  writes : list Pending;    (* the writes of this transaction, oldest first *)
  held : list AccountId     (* rows locked FOR UPDATE, in acquisition order *)
}.

(** What the transaction's own connection reads. *)
Definition view (st : TrxState) : DB :=
  fold_left apply_pending (writes st) (durable st).

(** A statement issued through [trx]. *)
Definition trx_write (env : Env) (s : Stmt) (w : Pending) : M TrxState unit :=
  statement env s ;;;
  modify (fun st => mkTrx (durable st) (writes st ++ [w]) (held st)).

(** A computation issued through the global [knex] from inside the callback. *)
Definition knex {A} (m : M DB A) : M TrxState A :=
  fun st =>
    let '(db, r) := m (durable st) in
    (mkTrx db (writes st) (held st), r).

(** [trx('accounts').where('id', id).forUpdate().select('*')]. *)
Definition forUpdate (env : Env) (s : Stmt) (id : AccountId)
  : M TrxState (list Account) :=
  statement env s ;;;
  st <- get ;;
  let rows := filter (fun r => acc_id r =? id) (accounts (view st)) in
  modify (fun st => mkTrx (durable st) (writes st) (held st ++ map acc_id rows)) ;;;
  ret rows.

Definition knex_transaction {A} (env : Env) (callback : M TrxState A) : M DB A :=
  fun db =>
    match callback (mkTrx db [] []) with
    | (st, Returned a) =>
        if faults env Commit
        then (durable st, Thrown (DatabaseError Commit))
        else (view st, Returned a)
    | (st, Thrown e) => (durable st, Thrown e)
    end.

(** ** [getOrCreateAccount(userId, accountType = 'customer_wallet')]

    [sel] and [ins] name its two statements at the call site. *)
Definition getOrCreateAccount (env : Env) (sel ins : Stmt)
    (userId : UserId) (accountType : AccountType) : M DB Account :=
  statement env sel ;;;
  db <- get ;;
  match find (fun r => (acc_user_id r =? userId)
                       && account_type_eqb (account_type r) accountType)
             (accounts db) with
  | Some account => ret account
  | None =>
      statement env ins ;;;
      let account := mkAccount (fresh_id (map acc_id (accounts db)))
                               userId accountType 0 active (now env) in
      modify (fun db => mkDB (accounts db ++ [account])
                             (transactions db) (ledger_entries db)) ;;;
      ret account
  end.

(** ** [recordTransfer(fromUserId, toUserId, amount, metadata = {})] *)

Record TransferResult := mkTransferResult {
  transactionRef : string;
  fromNewBalance : Money;
  toNewBalance : Money;
  timestamp : JSDate
}.

(** The callback handed to [knex.transaction] (lines 54-171). *)
Definition recordTransfer_callback (env : Env) (fromUserId toUserId : UserId)
    (amount : Money) (metadata : Metadata) : M TrxState TransferResult :=
  (* Generate unique transaction reference *)
  let transactionRef := trn env in
  (* Get accounts (create if don't exist) *)
  fromAccount <- knex (getOrCreateAccount env SelectFromAccount InsertFromAccount
                         fromUserId customer_wallet) ;;
  toAccount <- knex (getOrCreateAccount env SelectToAccount InsertToAccount
                       toUserId customer_wallet) ;;
  (* Lock accounts to prevent race conditions *)
  lockedFromRows <- forUpdate env LockFromAccount (acc_id fromAccount) ;;
  lockedToRows <- forUpdate env LockToAccount (acc_id toAccount) ;;
  match hd_error lockedFromRows with
  | None => throw TypeError
  | Some lockedFromAccount =>
      (* Check sufficient balance: [parseFloat(balance) < amount] on
         doubles, the comparison of the decimals on [precise] amounts *)
      if balance lockedFromAccount <? amount
      then throw (Error "Insufficient balance")
      (* Check account status *)
      else if negb (status_eqb (status lockedFromAccount) active)
      then throw (Error "Source account is not active")
      else
        match hd_error lockedToRows with
        | None => throw TypeError
        | Some lockedToAccount =>
            if negb (status_eqb (status lockedToAccount) active)
            then throw (Error "Destination account is not active")
            else
              (* Calculate new balances: doubles in the code, which the
                 database rounds to these decimals when it stores them *)
              let fromNewBalance := balance lockedFromAccount - amount in
              let toNewBalance := balance lockedToAccount + amount in
              (* Create transaction record *)
              st <- get ;;
              let transaction :=
                mkTransaction (fresh_id (map tx_id (transactions (view st))))
                  transactionRef transfer
                  (Some (acc_id fromAccount)) (Some (acc_id toAccount))
                  amount pending
                  (metadata ++ [("from_user_id", MNumber fromUserId);
                                ("to_user_id", MNumber toUserId);
                                ("timestamp_pst", MDate (now env))])
                  (now env) (now env) in
              trx_write env InsertTransaction (InsertTransactionRow transaction) ;;;
              (* Debit entry (money going out) *)
              trx_write env InsertDebitEntry
                (InsertLedgerEntry
                   (mkLedgerEntry transactionRef (acc_id fromAccount) debit amount
                      fromNewBalance
                      [("description", TransferTo (acc_id toAccount));
                       ("user_id", MNumber fromUserId);
                       ("counterparty_user_id", MNumber toUserId)]
                      (now env))) ;;;
              (* Credit entry (money coming in) *)
              trx_write env InsertCreditEntry
                (InsertLedgerEntry
                   (mkLedgerEntry transactionRef (acc_id toAccount) credit amount
                      toNewBalance
                      [("description", TransferFrom (acc_id fromAccount));
                       ("user_id", MNumber toUserId);
                       ("counterparty_user_id", MNumber fromUserId)]
                      (now env))) ;;;
              (* Update account balances *)
              trx_write env UpdateFromBalance
                (UpdateBalance (acc_id fromAccount) fromNewBalance (now env)) ;;;
              trx_write env UpdateToBalance
                (UpdateBalance (acc_id toAccount) toNewBalance (now env)) ;;;
              (* Mark transaction as completed *)
              trx_write env CompleteTransaction
                (UpdateStatus (tx_id transaction) completed (now env)) ;;;
              ret (mkTransferResult transactionRef fromNewBalance toNewBalance
                     (now env))
        end
  end.

Definition recordTransfer (env : Env) (fromUserId toUserId : UserId)
    (amount : Money) (metadata : Metadata) : M DB TransferResult :=
  try_catch
    (knex_transaction env
       (recordTransfer_callback env fromUserId toUserId amount metadata))
    (fun error => (* console.error('Transfer failed:', error) *) throw error).

(** The order in which a call takes its row locks. *)
Definition lock_order (env : Env) (fromUserId toUserId : UserId)
    (amount : Money) (metadata : Metadata) (db : DB) : list AccountId :=
  held (fst (recordTransfer_callback env fromUserId toUserId amount metadata
               (mkTrx db [] []))).

(** ** [getBalance(userId)] *)

Record BalanceView := mkBalanceView {
  bv_balance : Money;
  bv_status : AccountStatus
}.

Definition getBalance (env : Env) (userId : UserId) : M DB BalanceView :=
  account <- getOrCreateAccount env SelectFromAccount InsertFromAccount
               userId customer_wallet ;;
  ret (mkBalanceView (balance account) (status account)).

(** ** [deposit(userId, amount, metadata = {})] *)

Record DepositResult := mkDepositResult {
  dep_transactionRef : string;
  newBalance : Money;
  dep_timestamp : JSDate
}.

Definition deposit_callback (env : Env) (userId : UserId) (amount : Money)
    (metadata : Metadata) : M TrxState DepositResult :=
  let transactionRef := trn env in
  account <- knex (getOrCreateAccount env SelectToAccount InsertToAccount
                     userId customer_wallet) ;;
  (* Lock account *)
  lockedRows <- forUpdate env LockToAccount (acc_id account) ;;
  match hd_error lockedRows with
  | None => throw TypeError
  | Some lockedAccount =>
      (* a double in the code, which the database rounds to this decimal
         when it stores it *)
      let newBalance := balance lockedAccount + amount in
      (* Create transaction record *)
      st <- get ;;
      trx_write env InsertTransaction
        (InsertTransactionRow
           (mkTransaction (fresh_id (map tx_id (transactions (view st))))
              transactionRef deposit_type None (Some (acc_id account))
              amount completed
              (metadata ++ [("source", MString "manual_deposit")])
              (now env) (now env))) ;;;
      (* Create ledger entry *)
      trx_write env InsertCreditEntry
        (InsertLedgerEntry
           (mkLedgerEntry transactionRef (acc_id account) credit amount newBalance
              (("description", MString "Deposit to wallet") :: metadata)
              (now env))) ;;;
      (* Update balance *)
      trx_write env UpdateToBalance
        (UpdateBalance (acc_id account) newBalance (now env)) ;;;
      ret (mkDepositResult transactionRef newBalance (now env))
  end.

Definition deposit (env : Env) (userId : UserId) (amount : Money)
    (metadata : Metadata) : M DB DepositResult :=
  knex_transaction env (deposit_callback env userId amount metadata).

(** ** [generateDailyReport(date = new Date())] *)

(** SQL [SUM] over the selected rows: NULL when no row is selected. *)
Definition sql_sum (xs : list Z) : option Z :=
  match xs with
  | [] => None
  | _ => Some (fold_right Z.add 0 xs)
  end.

(** [parseFloat(x || 0)] on a nullable numeric column. *)
Definition or_zero (x : option Z) : Z :=
  match x with Some z => z | None => 0 end.

Record DailyReport := mkDailyReport {
  report_date : JSDate;
  transactionCount : Z;
  totalDebits : Money;
  totalCredits : Money;
  totalEntries : Z;
  isBalanced : bool;
  generatedAt : JSDate
}.

Definition generateDailyReport (env : Env) (date : JSDate) : M DB DailyReport :=
  let startOfDay := startOfDay date in
  let endOfDay := endOfDay date in
  (* Get all transactions for the day *)
  statement env SelectDayTransactions ;;;
  db <- get ;;
  let transactions :=
    filter (fun t => whereBetween startOfDay endOfDay (tx_created_at t)
                     && tx_status_eqb (tx_status t) completed)
           (transactions db) in
  (* Get total debits and credits *)
  statement env SelectDayTotals ;;;
  let rows := filter (fun e => whereBetween startOfDay endOfDay (created_at e))
                     (ledger_entries db) in
  let total_debits :=
    sql_sum (map (fun e => if entry_type_eqb (entry_type e) debit
                           then amount e else 0) rows) in
  let total_credits :=
    sql_sum (map (fun e => if entry_type_eqb (entry_type e) credit
                           then amount e else 0) rows) in
  let total_entries := Z.of_nat (List.length rows) in
  (* Check if books balance (they should!): parseFloat(null) is NaN, and no
     comparison with NaN holds; the difference is one of doubles in the
     code, of decimals here, and the two tests agree on [precise] sums whose
     difference is not exactly 0.01 *)
  let isBalanced :=
    match total_debits, total_credits with
    | Some d, Some c => Z.abs (d - c) <? 100
    | _, _ => false
    end in
  ret (mkDailyReport date (Z.of_nat (List.length transactions))
         (or_zero total_debits) (or_zero total_credits)
         total_entries isBalanced (now env)).

End Ledger.

(** * The limit tracker ([services/kycLimitsService.js], class [KYCLimitsService]) *)

Module Limits.

Definition UserId := Z.

Record KycTier := mkTier {
  daily : Money;
  monthly : Money;
  perTransaction : Money;
  name : string
}.

(** [KYC_LIMITS[level]]; [None] is JavaScript's [undefined]. *)
Definition KYC_LIMITS (level : Z) : option KycTier :=
  if level =? 0 then Some (mkTier 0 0 0 "Unverified")
  else if level =? 1
  then Some (mkTier (PKR 25000) (PKR 200000) (PKR 10000) "Basic (Asaan Level 0)")
  else if level =? 2
  then Some (mkTier (PKR 100000) (PKR 1000000) (PKR 50000) "Enhanced (Asaan Level 1)")
  else if level =? 3
  then Some (mkTier (PKR 500000) (PKR 5000000) (PKR 200000) "Full KYC")
  else None.

(** The tables read by [limitsQuery]. *)
Record User := mkUser {
  u_id : UserId;
  u_kyc_level : Z
}.

Record UserLimitsRow := mkUserLimitsRow {
  ul_user_id : UserId;
  ul_daily_limit : Money;
  ul_monthly_limit : Money;
  ul_per_transaction_limit : Money;
  ul_daily_spent : Money;
  ul_monthly_spent : Money;
  ul_daily_reset_at : JSDate;
  ul_monthly_reset_at : JSDate
}.

Record DB := mkDB {
  users : list User;
  user_limits : list UserLimitsRow
}.

(** A row of [SELECT ul.*, u.kyc_level, ... FROM user_limits ul JOIN users u];
    it is the object the method keeps in [userLimits] and mutates. *)
Record UserLimits := mkUserLimits {
  kyc_level : Z;
  daily_limit : Money;
  monthly_limit : Money;
  per_transaction_limit : Money;
  daily_spent : Money;
  monthly_spent : Money;
  daily_reset_at : JSDate;
  monthly_reset_at : JSDate
}.

Definition limitsQuery (userId : UserId) (db : DB) : list UserLimits :=
  flat_map
    (fun ul =>
       if ul_user_id ul =? userId
       then map (fun u => mkUserLimits (u_kyc_level u)
                            (ul_daily_limit ul) (ul_monthly_limit ul)
                            (ul_per_transaction_limit ul)
                            (ul_daily_spent ul) (ul_monthly_spent ul)
                            (ul_daily_reset_at ul) (ul_monthly_reset_at ul))
                (filter (fun u => u_id u =? ul_user_id ul) (users db))
       else [])
    (user_limits db).

(** [UPDATE user_limits SET daily_spent = 0, daily_reset_at = CURRENT_TIMESTAMP
     WHERE user_id = $1] and its monthly twin. *)
Definition reset_daily (userId : UserId) (t : JSDate) (db : DB) : DB :=
  mkDB (users db)
       (map (fun ul => if ul_user_id ul =? userId
                       then mkUserLimitsRow (ul_user_id ul) (ul_daily_limit ul)
                              (ul_monthly_limit ul) (ul_per_transaction_limit ul)
                              0 (ul_monthly_spent ul) t (ul_monthly_reset_at ul)
                       else ul) (user_limits db)).

Definition reset_monthly (userId : UserId) (t : JSDate) (db : DB) : DB :=
  mkDB (users db)
       (map (fun ul => if ul_user_id ul =? userId
                       then mkUserLimitsRow (ul_user_id ul) (ul_daily_limit ul)
                              (ul_monthly_limit ul) (ul_per_transaction_limit ul)
                              (ul_daily_spent ul) 0 (ul_daily_reset_at ul) t
                       else ul) (user_limits db)).

Record LimitsResponse := mkLimitsResponse {
  kycLevel : Z;
  kycName : string;
  limit_daily : Money;
  limit_monthly : Money;
  limit_perTransaction : Money;
  spent_daily : Money;
  spent_monthly : Money;
  remaining_daily : Money;
  remaining_monthly : Money;
  resetTimes_daily : JSDate;
  resetTimes_monthly : JSDate
}.

(** [formatLimitsResponse(limits)]; reading [.name] of an unknown tier is a
    [TypeError]. *)
Definition formatLimitsResponse {S} (limits : UserLimits) : M S LimitsResponse :=
  match KYC_LIMITS (kyc_level limits) with
  | None => throw TypeError
  | Some tier =>
      ret (mkLimitsResponse (kyc_level limits) (name tier)
             (daily_limit limits) (monthly_limit limits)
             (per_transaction_limit limits)
             (daily_spent limits) (monthly_spent limits)
             (daily_limit limits - daily_spent limits)
             (monthly_limit limits - monthly_spent limits)
             (daily_reset_at limits) (monthly_reset_at limits))
  end.

(** The [reason] of a refusal; the amounts are those interpolated in the
    message. *)
Inductive Reason :=
  | KycRequired
  | PerTransactionExceeded (limit : Money)
  | DailyExceeded (remainingDaily : Money)
  | MonthlyExceeded (remainingMonthly : Money).

Record LimitCheck := mkLimitCheck {
  allowed : bool;
  reason : option Reason;
  limits : LimitsResponse;
  newDailyTotal : option Money;
  newMonthlyTotal : option Money
}.

Section CheckLimits.

(** The stored procedure [initialize_user_limits] is not part of the
    repository's JavaScript; it is taken as given. *)
Variable initialize_user_limits : UserId -> DB -> DB.

Definition initializeUserLimits (env : Env) (userId : UserId) : M DB bool :=
  statement env InitializeLimits ;;;
  modify (initialize_user_limits userId) ;;;
  ret true.

(** [checkTransactionLimits(userId, amount, transactionType = 'transfer')] *)
Definition checkTransactionLimits (env : Env) (userId : UserId) (amount : Money)
  : M DB LimitCheck :=
  (* Get user's current limits and usage *)
  statement env SelectLimits ;;;
  db <- get ;;
  rows <- (match limitsQuery userId db with
           | [] =>
               (* Initialize limits if not exists *)
               initializeUserLimits env userId ;;;
               statement env SelectLimits ;;;
               db <- get ;;
               ret (limitsQuery userId db)
           | rows => ret rows
           end) ;;
  match hd_error rows with
  | None => throw TypeError
  | Some userLimits =>
      (* Reset daily limit if needed *)
      let now := now env in
      let dailyReset := daily_reset_at userLimits in
      userLimits <-
        (if negb (getDate now =? getDate dailyReset)
         then
           statement env ResetDaily ;;;
           modify (reset_daily userId now) ;;;
           ret (mkUserLimits (kyc_level userLimits) (daily_limit userLimits)
                  (monthly_limit userLimits) (per_transaction_limit userLimits)
                  0 (monthly_spent userLimits)
                  (daily_reset_at userLimits) (monthly_reset_at userLimits))
         else ret userLimits) ;;
      (* Reset monthly limit if needed *)
      let monthlyReset := monthly_reset_at userLimits in
      userLimits <-
        (if negb (getMonth now =? getMonth monthlyReset)
            || negb (getFullYear now =? getFullYear monthlyReset)
         then
           statement env ResetMonthly ;;;
           modify (reset_monthly userId now) ;;;
           ret (mkUserLimits (kyc_level userLimits) (daily_limit userLimits)
                  (monthly_limit userLimits) (per_transaction_limit userLimits)
                  (daily_spent userLimits) 0
                  (daily_reset_at userLimits) (monthly_reset_at userLimits))
         else ret userLimits) ;;
      (* Check KYC Level 0 *)
      if kyc_level userLimits =? 0
      then
        limits <- formatLimitsResponse userLimits ;;
        ret (mkLimitCheck false (Some KycRequired) limits None None)
      (* Check per transaction limit *)
      else if per_transaction_limit userLimits <? amount
      then
        limits <- formatLimitsResponse userLimits ;;
        ret (mkLimitCheck false
               (Some (PerTransactionExceeded (per_transaction_limit userLimits)))
               limits None None)
      else
        (* Check daily limit: a sum of doubles in the code, of decimals
           here; the two tests agree on [precise] amounts unless the sum
           equals the limit *)
        let newDailyTotal := daily_spent userLimits + amount in
        if daily_limit userLimits <? newDailyTotal
        then
          let remainingDaily := daily_limit userLimits - daily_spent userLimits in
          limits <- formatLimitsResponse userLimits ;;
          ret (mkLimitCheck false (Some (DailyExceeded remainingDaily)) limits
                 None None)
        else
          (* Check monthly limit: as for the daily limit *)
          let newMonthlyTotal := monthly_spent userLimits + amount in
          if monthly_limit userLimits <? newMonthlyTotal
          then
            let remainingMonthly :=
              monthly_limit userLimits - monthly_spent userLimits in
            limits <- formatLimitsResponse userLimits ;;
            ret (mkLimitCheck false (Some (MonthlyExceeded remainingMonthly))
                   limits None None)
          else
            (* All checks passed *)
            limits <- formatLimitsResponse userLimits ;;
            ret (mkLimitCheck true None limits
                   (Some newDailyTotal) (Some newMonthlyTotal))
  end.

End CheckLimits.

End Limits.

(** * Transaction monitoring
      ([services/transactionMonitoringService.js],
       class [TransactionMonitoringService]) *)

Module Monitoring.

Definition UserId := Z.

(** ** Alerts and transactions *)

(** A field an alert carries besides its type, severity and description. *)
Inductive Field :=
  | Num (z : Z)
  | Str (s : string).

(** An alert object.  [type] and [severity] are JavaScript strings. *)
Record Alert := mkAlert {
  type : string;
  severity : string;
  description : string;
  details : list (string * Field)
}.

(** The transaction handed to the pipeline. *)
Record Transaction := mkTransaction {
  transactionRef : string;
  userId : UserId;
  accountId : Z;
  amount : Money;                   (* parseFloat(transaction.amount) *)
  timestamp : JSDate;
  receiver_name : option string;    (* transaction.metadata?.receiver_name *)
  country : option string           (* transaction.metadata?.country *)
}.

Record RiskProfile := mkRiskProfile {
  profile_type : string;
  riskLevel : string
}.

(** ** [loadMonitoringRules()] *)

Record LargeTransactionRules := mkLargeTransactionRules {
  personal : Money;
  business : Money;
  ctr_threshold : Money
}.

Record VelocityRule := mkVelocityRule {
  max_count : Z;
  max_amount : Money
}.

Record StructuringRules := mkStructuringRules {
  threshold : Money;
  timeWindow : Z;
  minTransactions : Z
}.

Record DormancyRules := mkDormancyRules {
  inactivePeriod : Z;
  suspiciousAmount : Money
}.

Definition largeTransaction : LargeTransactionRules :=
  mkLargeTransactionRules (PKR 500000) (PKR 2000000) (PKR 2000000).

Definition velocity_hourly : VelocityRule := mkVelocityRule 10 (PKR 200000).

Definition velocity_daily : VelocityRule := mkVelocityRule 50 (PKR 1000000).

Definition velocity_weekly : VelocityRule := mkVelocityRule 200 (PKR 5000000).

Definition structuring : StructuringRules :=
  mkStructuringRules (PKR 490000) 86400000 3.

Definition dormancy : DormancyRules := mkDormancyRules 90 (PKR 100000).

(** ** Tables *)

Record SanctionsEntry := mkSanctionsEntry {
  sl_name : string;
  list_type : string
}.

Record CustomerRiskProfile := mkCustomerRiskProfile {
  crp_user_id : UserId;
  crp_type : string;
  crp_riskLevel : string;
  pep_status : bool
}.

Record AdminUser := mkAdminUser {
  admin_user_id : UserId;
  role : string
}.

Record CTR := mkCTR {
  ctr_transaction_ref : string;
  ctr_user_id : UserId;
  ctr_amount : Money;
  ctr_report_threshold : Money
}.

Record STR := mkSTR {
  str_transaction_ref : string;
  str_user_id : UserId;
  str_amount : Money;
  str_alerts : list Alert
}.

Record SavedAlert := mkSavedAlert {
  sa_transaction_ref : string;
  sa_user_id : UserId;
  sa_alert_type : string;
  sa_severity : string;
  sa_description : string
}.

Record BlockedTransaction := mkBlocked {
  bt_transaction_ref : string;
  bt_user_id : UserId;
  bt_amount : Money;
  bt_reason : string;
  bt_alerts : list Alert
}.

Record MonitoringLog := mkLog {
  log_transaction_ref : string;
  log_user_id : UserId;
  log_alerts : list Alert;
  alerts_generated : Z
}.

Record MonitoringError := mkMonitoringError {
  err_transaction_ref : string;
  err_error : Exception
}.

(** The [userId] a notification is sent to: the identifier of a user, or
    [undefined] where [process.env.COMPLIANCE_OFFICER_ID] is not set. *)
Definition Recipient := option UserId.

(** A row of [device_tokens]. *)
Record DeviceToken := mkDeviceToken {
  dt_user : UserId;
  dt_token : string;
  is_active : bool
}.

(** [user_id = $1], which no row satisfies when the parameter is NULL. *)
Definition token_of (to : Recipient) (d : DeviceToken) : bool :=
  match to with
  | Some u => dt_user d =? u
  | None => false
  end.

(** A row of [notification_history]. *)
Record Notification := mkNotification {
  recipient : Recipient;
  title : string
}.

Record Store := mkStore {
  (* read *)
  ledger : Ledger.DB;
  sanctions_lists : list SanctionsEntry;
  customer_risk_profiles : list CustomerRiskProfile;
  admin_users : list AdminUser;
  COMPLIANCE_OFFICER_ID : Recipient;      (* process.env *)
  device_tokens : list DeviceToken;
  (* written *)
  currency_transaction_reports : list CTR;
  suspicious_transaction_reports : list STR;
  monitoring_alerts : list SavedAlert;
  blocked_transactions : list BlockedTransaction;
  transaction_monitoring_logs : list MonitoringLog;
  monitoring_errors : list MonitoringError;
  notification_history : list Notification
}.

(** The inserts, one per written table. *)
Definition insert_ctr (r : CTR) (st : Store) : Store :=
  mkStore (ledger st) (sanctions_lists st) (customer_risk_profiles st)
    (admin_users st) (COMPLIANCE_OFFICER_ID st) (device_tokens st)
    (currency_transaction_reports st ++ [r])
    (suspicious_transaction_reports st) (monitoring_alerts st)
    (blocked_transactions st) (transaction_monitoring_logs st)
    (monitoring_errors st) (notification_history st).

Definition insert_str (r : STR) (st : Store) : Store :=
  mkStore (ledger st) (sanctions_lists st) (customer_risk_profiles st)
    (admin_users st) (COMPLIANCE_OFFICER_ID st) (device_tokens st)
    (currency_transaction_reports st)
    (suspicious_transaction_reports st ++ [r]) (monitoring_alerts st)
    (blocked_transactions st) (transaction_monitoring_logs st)
    (monitoring_errors st) (notification_history st).

Definition insert_alert (r : SavedAlert) (st : Store) : Store :=
  mkStore (ledger st) (sanctions_lists st) (customer_risk_profiles st)
    (admin_users st) (COMPLIANCE_OFFICER_ID st) (device_tokens st)
    (currency_transaction_reports st)
    (suspicious_transaction_reports st) (monitoring_alerts st ++ [r])
    (blocked_transactions st) (transaction_monitoring_logs st)
    (monitoring_errors st) (notification_history st).

Definition insert_blocked (r : BlockedTransaction) (st : Store) : Store :=
  mkStore (ledger st) (sanctions_lists st) (customer_risk_profiles st)
    (admin_users st) (COMPLIANCE_OFFICER_ID st) (device_tokens st)
    (currency_transaction_reports st)
    (suspicious_transaction_reports st) (monitoring_alerts st)
    (blocked_transactions st ++ [r]) (transaction_monitoring_logs st)
    (monitoring_errors st) (notification_history st).

Definition insert_log (r : MonitoringLog) (st : Store) : Store :=
  mkStore (ledger st) (sanctions_lists st) (customer_risk_profiles st)
    (admin_users st) (COMPLIANCE_OFFICER_ID st) (device_tokens st)
    (currency_transaction_reports st)
    (suspicious_transaction_reports st) (monitoring_alerts st)
    (blocked_transactions st) (transaction_monitoring_logs st ++ [r])
    (monitoring_errors st) (notification_history st).

Definition insert_error (r : MonitoringError) (st : Store) : Store :=
  mkStore (ledger st) (sanctions_lists st) (customer_risk_profiles st)
    (admin_users st) (COMPLIANCE_OFFICER_ID st) (device_tokens st)
    (currency_transaction_reports st)
    (suspicious_transaction_reports st) (monitoring_alerts st)
    (blocked_transactions st) (transaction_monitoring_logs st)
    (monitoring_errors st ++ [r]) (notification_history st).

Definition insert_notification (r : Notification) (st : Store) : Store :=
  mkStore (ledger st) (sanctions_lists st) (customer_risk_profiles st)
    (admin_users st) (COMPLIANCE_OFFICER_ID st) (device_tokens st)
    (currency_transaction_reports st)
    (suspicious_transaction_reports st) (monitoring_alerts st)
    (blocked_transactions st) (transaction_monitoring_logs st)
    (monitoring_errors st) (notification_history st ++ [r]).

(** ** SQL fragments *)

(** [FROM ledger_entries le JOIN accounts a ON a.id = le.account_id
     WHERE a.user_id = $1] *)
Definition entries_of_user (userId : UserId) (st : Store)
  : list Ledger.LedgerEntry :=
  flat_map
    (fun le =>
       map (fun _ => le)
         (filter (fun a => (Ledger.acc_id a =? Ledger.account_id le)
                           && (Ledger.acc_user_id a =? userId))
                 (Ledger.accounts (ledger st))))
    (Ledger.ledger_entries (ledger st)).

(** [COUNT( * )] and [COALESCE(SUM(amount), 0)] *)
Definition sql_count {A} (rows : list A) : Z := Z.of_nat (List.length rows).

Definition sql_total (rows : list Ledger.LedgerEntry) : Money :=
  fold_right Z.add 0 (map Ledger.amount rows).

(** [LOWER] on the letters A-Z. *)
Definition lower_ascii (c : Ascii.ascii) : Ascii.ascii :=
  let n := Ascii.nat_of_ascii c in
  if (Nat.leb 65 n && Nat.leb n 90)%bool
  then Ascii.ascii_of_nat (n + 32)
  else c.

Fixpoint LOWER (s : string) : string :=
  match s with
  | EmptyString => EmptyString
  | String c rest => String (lower_ascii c) (LOWER rest)
  end.

(** [s LIKE pattern]: [%] matches any run of characters, [_] any one
    character, and a backslash takes the next character literally (the
    patterns built below end in [%], so none ends in a lone backslash). *)
Fixpoint LIKE (pattern s : string) {struct pattern} : bool :=
  match pattern with
  | EmptyString =>
      match s with EmptyString => true | String _ _ => false end
  | String "%"%char rest =>
      (fix any (s : string) : bool :=
         LIKE rest s
         || match s with
            | EmptyString => false
            | String _ s' => any s'
            end) s
  | String "_"%char rest =>
      match s with EmptyString => false | String _ s' => LIKE rest s' end
  | String "\"%char (String c rest) =>
      match s with
      | EmptyString => false
      | String d s' => Ascii.eqb c d && LIKE rest s'
      end
  | String c rest =>
      match s with
      | EmptyString => false
      | String d s' => Ascii.eqb c d && LIKE rest s'
      end
  end.

(** [for (const x of xs) await f(x)] *)
Fixpoint forEach {S A} (xs : list A) (f : A -> M S unit) : M S unit :=
  match xs with
  | [] => ret tt
  | x :: rest => f x ;;; forEach rest f
  end.

(** [if (alert) alerts.push(alert)] *)
Definition push (alerts : list Alert) (alert : option Alert) : list Alert :=
  match alert with
  | Some a => alerts ++ [a]
  | None => alerts
  end.

Record MonitoringResult := mkResult {
  blocked : bool;
  alerts : list Alert;
  error : bool
}.

(** ** [shouldBlockTransaction(alerts)] *)
Definition shouldBlockTransaction (alerts : list Alert) : bool :=
  existsb (fun alert =>
             (severity alert =? "CRITICAL")%string
             && existsb (String.eqb (type alert))
                        ["SANCTIONS_HIT"; "STRUCTURING"; "DECEASED"])
          alerts.

Section Pipeline.

Variable env : Env.

(** [NotificationService.saveNotificationHistory(userId, title, body, data)]
    ([services/notificationService.js]): a failing insert is logged and
    swallowed. *)
Definition saveNotificationHistory (to : Recipient) (title : string)
  : M Store unit :=
  try_catch
    (statement env InsertNotificationHistory ;;;
     modify (insert_notification (mkNotification to title)))
    (fun error => (* console.error('Save notification history error:', error) *)
       ret tt).

(** [NotificationService.sendNotification(userId, title, body, data = {})]:
    nothing is sent or recorded for a recipient without an active device
    token; the push itself is commented out in the source. *)
Definition sendNotification (to : Recipient) (title : string) : M Store unit :=
  try_catch
    ((* Get user's device tokens *)
     statement env SelectDeviceTokens ;;;
     st <- get ;;
     let tokens :=
       map dt_token
         (filter (fun d => token_of to d && is_active d)
            (device_tokens st)) in
     if Z.of_nat (List.length tokens) =? 0
     then (* console.log('No active device tokens for user:', userId) *)
       ret tt
     else
       (* Save notification to database *)
       saveNotificationHistory to title)
    (fun error => (* console.error('Send notification error:', error) *)
       throw error).

(** [generateCTR(transaction)] *)
Definition generateCTR (transaction : Transaction) : M Store unit :=
  statement env InsertCTR ;;;
  modify (insert_ctr (mkCTR (transactionRef transaction) (userId transaction)
                        (amount transaction) (ctr_threshold largeTransaction))).

(** [getCustomerRiskProfile(userId)] *)
Definition getCustomerRiskProfile (userId : UserId) : M Store RiskProfile :=
  statement env SelectRiskProfile ;;;
  st <- get ;;
  match filter (fun r => crp_user_id r =? userId) (customer_risk_profiles st) with
  | [] =>
      (* Create default profile *)
      ret (mkRiskProfile "personal" "LOW")
  | r :: _ => ret (mkRiskProfile (crp_type r) (crp_riskLevel r))
  end.

(** [checkTransactionAmount(transaction, riskProfile)] *)
Definition checkTransactionAmount (transaction : Transaction)
    (riskProfile : RiskProfile) : M Store (option Alert) :=
  let amount := amount transaction in
  let threshold :=
    if (profile_type riskProfile =? "business")%string
    then business largeTransaction
    else personal largeTransaction in
  if ctr_threshold largeTransaction <=? amount
  then
    (* Generate CTR (Currency Transaction Report) *)
    generateCTR transaction ;;;
    ret (Some (mkAlert "CTR_REQUIRED" "HIGH"
                 "Transaction exceeds CTR threshold (2000000 PKR)"
                 [("amount", Num amount)]))
  else if threshold <=? amount
  then
    ret (Some (mkAlert "LARGE_TRANSACTION" "MEDIUM"
                 ("Large transaction for " ++ profile_type riskProfile
                  ++ " account")%string
                 [("amount", Num amount); ("threshold", Num threshold)]))
  else ret None.

(** [checkVelocity(userId, transaction)] *)
Definition checkVelocity (userId : UserId) (transaction : Transaction)
  : M Store (option Alert) :=
  let now := now env in
  (* Check hourly velocity *)
  statement env SelectHourlyStats ;;;
  st <- get ;;
  let hourlyStats :=
    filter (fun le => now - 3600000 <=? Ledger.created_at le)
           (entries_of_user userId st) in
  if (max_count velocity_hourly <? sql_count hourlyStats)
     || (max_amount velocity_hourly <? sql_total hourlyStats)
  then
    ret (Some (mkAlert "VELOCITY_HOURLY" "HIGH"
                 "Unusual transaction velocity in last hour"
                 [("count", Num (sql_count hourlyStats));
                  ("total", Num (sql_total hourlyStats))]))
  else
    (* Check daily velocity *)
    statement env SelectDailyStats ;;;
    st <- get ;;
    let dailyStats :=
      filter (fun le => now - 86400000 <=? Ledger.created_at le)
             (entries_of_user userId st) in
    if (max_count velocity_daily <? sql_count dailyStats)
       || (max_amount velocity_daily <? sql_total dailyStats)
    then
      ret (Some (mkAlert "VELOCITY_DAILY" "MEDIUM"
                   "High transaction velocity in last 24 hours"
                   [("count", Num (sql_count dailyStats));
                    ("total", Num (sql_total dailyStats))]))
    else ret None.

(** [detectStructuring(userId, transaction)] *)
Definition detectStructuring (userId : UserId) (transaction : Transaction)
  : M Store (option Alert) :=
  let amount := amount transaction in
  (* Check if amount is suspiciously close to threshold *)
  if (threshold structuring <=? amount) && (amount <? personal largeTransaction)
  then
    (* Check for multiple similar transactions *)
    statement env SelectSimilarTransactions ;;;
    st <- get ;;
    let similarTxns :=
      filter (fun le =>
                (threshold structuring <=? Ledger.amount le)
                && (Ledger.amount le <=? personal largeTransaction)
                && (now env - timeWindow structuring <=? Ledger.created_at le))
             (entries_of_user userId st) in
    if minTransactions structuring <=? sql_count similarTxns
    then
      ret (Some (mkAlert "STRUCTURING" "CRITICAL"
                   "Possible structuring detected - multiple transactions just below reporting threshold"
                   [("transactionCount", Num (sql_count similarTxns))]))
    else ret None
  else ret None.

(** [detectSuspiciousPatterns(userId, transaction)] *)
Definition detectSuspiciousPatterns (userId : UserId) (transaction : Transaction)
  : M Store (list Alert) :=
  let alerts := [] in
  (* Pattern 1: Rapid fund movement *)
  statement env SelectRapidMovement ;;;
  st <- get ;;
  let today ty :=
    sql_count
      (filter (fun le =>
                 Ledger.entry_type_eqb (Ledger.entry_type le) ty
                 && (Ledger.account_id le =? accountId transaction)
                 && (dayNumber (Ledger.created_at le) =? dayNumber (now env)))
              (Ledger.ledger_entries (ledger st))) in
  let deposits := today Ledger.credit in
  let withdrawals := today Ledger.debit in
  let alerts :=
    if (0 <? deposits) && (0 <? withdrawals)
    then
      let totalIn := deposits in
      let totalOut := withdrawals in
      if (2 <? totalIn) && (2 <? totalOut)
      then alerts ++ [mkAlert "RAPID_MOVEMENT" "HIGH"
                        "Rapid movement of funds through account"
                        [("deposits", Num totalIn); ("withdrawals", Num totalOut)]]
      else alerts
    else alerts in
  (* Pattern 2: Round amounts *)
  alerts <-
    (if (Z.rem (amount transaction) (PKR 10000) =? 0)
        && (PKR 50000 <=? amount transaction)
     then
       statement env SelectRoundAmounts ;;;
       st <- get ;;
       let roundAmountTxns :=
         filter (fun le =>
                   (Z.rem (Ledger.amount le) (PKR 10000) =? 0)
                   && (PKR 50000 <=? Ledger.amount le)
                   && ((dayNumber (now env) - 7) * msPerDay
                       <=? Ledger.created_at le))
                (entries_of_user userId st) in
       if 3 <=? sql_count roundAmountTxns
       then ret (alerts ++ [mkAlert "ROUND_AMOUNTS" "MEDIUM"
                              "Multiple round amount transactions detected"
                              [("count", Num (sql_count roundAmountTxns))]])
       else ret alerts
     else ret alerts) ;;
  (* Pattern 3: Unusual time transactions *)
  let hour := getHours (timestamp transaction) in
  let alerts :=
    if (0 <=? hour) && (hour <=? 4)
    then alerts ++ [mkAlert "UNUSUAL_TIME" "LOW" "Transaction at unusual hour"
                      [("hour", Num hour)]]
    else alerts in
  ret alerts.

(** A statement the database rejects whatever its tables hold. *)
Definition rejected {A} (s : Stmt) : M Store A := throw (DatabaseError s).

(** [checkDormantAccount(userId, transaction)].  Its query selects
    [MAX(created_at)] from [ledger_entries le JOIN accounts a] without
    naming the table, and both tables have a column [created_at] (in
    [database/fresh-start.js] as in the two other schemas of the
    repository): PostgreSQL rejects the statement, column reference
    "created_at" is ambiguous.  The method throws at its first statement on
    every call; the lines after it are kept as the source has them. *)
Definition checkDormantAccount (userId : UserId) (transaction : Transaction)
  : M Store (option Alert) :=
  lastActivity <- rejected (A := option JSDate) SelectLastActivity ;;
  match lastActivity with
  | Some last_transaction =>
      let daysSinceLastActivity :=
        (timestamp transaction - last_transaction) / (1000 * 60 * 60 * 24) in
      if (inactivePeriod dormancy <=? daysSinceLastActivity)
         && (suspiciousAmount dormancy <=? amount transaction)
      then
        ret (Some (mkAlert "DORMANT_REACTIVATION" "HIGH"
                     "Large transaction on previously dormant account"
                     [("daysInactive", Num daysSinceLastActivity);
                      ("amount", Num (amount transaction))]))
      else ret None
  | None => ret None
  end.

(** [checkSanctionsRealTime(transaction)]; the empty string is falsy. *)
Definition checkSanctionsRealTime (transaction : Transaction)
  : M Store (option Alert) :=
  match receiver_name transaction with
  | Some name =>
      if (name =? "")%string then ret None
      else
        statement env SelectSanctions ;;;
        st <- get ;;
        let sanctionsCheck :=
          filter (fun r => LIKE (LOWER ("%" ++ name ++ "%")%string)
                                (LOWER (sl_name r)))
                 (sanctions_lists st) in
        match sanctionsCheck with
        | r :: _ =>
            ret (Some (mkAlert "SANCTIONS_HIT" "CRITICAL"
                         "Transaction involves sanctioned entity"
                         [("entity", Str (sl_name r)); ("list", Str (list_type r))]))
        | [] => ret None
        end
  | None => ret None
  end.

Definition highRiskCountries : list string :=
  ["Iran"; "North Korea"; "Syria"; "Afghanistan";
   "Yemen"; "Somalia"; "Libya"; "Myanmar"].

(** [checkGeographicRisk(transaction)] *)
Definition checkGeographicRisk (transaction : Transaction)
  : M Store (option Alert) :=
  match country transaction with
  | Some c =>
      if negb (c =? "")%string && existsb (String.eqb c) highRiskCountries
      then
        ret (Some (mkAlert "HIGH_RISK_GEOGRAPHY" "HIGH"
                     "Transaction involves high-risk jurisdiction"
                     [("country", Str c)]))
      else ret None
  | None => ret None
  end.

(** [checkPEPTransaction(userId, transaction)] *)
Definition checkPEPTransaction (userId : UserId) (transaction : Transaction)
  : M Store (option Alert) :=
  statement env SelectPEP ;;;
  st <- get ;;
  let pepCheck :=
    filter (fun r => (crp_user_id r =? userId) && pep_status r)
           (customer_risk_profiles st) in
  if (0 <? sql_count pepCheck) && (PKR 100000 <=? amount transaction)
  then
    ret (Some (mkAlert "PEP_TRANSACTION" "MEDIUM" "Large transaction by PEP"
                 [("amount", Num (amount transaction))]))
  else ret None.

(** [generateSTR(transaction, alerts)] *)
Definition generateSTR (transaction : Transaction) (alerts : list Alert)
  : M Store unit :=
  statement env InsertSTR ;;;
  modify (insert_str (mkSTR (transactionRef transaction) (userId transaction)
                        (amount transaction) alerts)) ;;;
  (* Notify compliance officer immediately *)
  st <- get ;;
  sendNotification (COMPLIANCE_OFFICER_ID st) "Critical Alert: STR Generated".

(** [notifyComplianceTeam(transaction, alerts)] *)
Definition notifyComplianceTeam (transaction : Transaction) (alerts : list Alert)
  : M Store unit :=
  statement env SelectComplianceTeam ;;;
  st <- get ;;
  let complianceTeam :=
    filter (fun m => (role m =? "COMPLIANCE")%string) (admin_users st) in
  forEach complianceTeam
    (fun member =>
       sendNotification (Some (admin_user_id member))
         "Transaction Alert").

(** [saveAlert(transaction, alert)] *)
Definition saveAlert (transaction : Transaction) (alert : Alert) : M Store unit :=
  statement env InsertAlert ;;;
  modify (insert_alert
            (mkSavedAlert (transactionRef transaction) (userId transaction)
               (type alert) (severity alert) (description alert))).

(** [processAlerts(transaction, alerts)] *)
Definition processAlerts (transaction : Transaction) (alerts : list Alert)
  : M Store unit :=
  let criticalAlerts :=
    filter (fun a => (severity a =? "CRITICAL")%string) alerts in
  let highAlerts := filter (fun a => (severity a =? "HIGH")%string) alerts in
  (* Generate STR if critical alerts *)
  (if (0 <? Z.of_nat (List.length criticalAlerts))
   then generateSTR transaction alerts else ret tt) ;;;
  (* Notify compliance team for high severity *)
  (if (0 <? Z.of_nat (List.length highAlerts))
   then notifyComplianceTeam transaction alerts else ret tt) ;;;
  (* Save all alerts *)
  forEach alerts (saveAlert transaction).

(** [blockTransaction(transaction, alerts)] *)
Definition blockTransaction (transaction : Transaction) (alerts : list Alert)
  : M Store unit :=
  statement env InsertBlocked ;;;
  modify (insert_blocked
            (mkBlocked (transactionRef transaction) (userId transaction)
               (amount transaction) "Suspicious activity detected" alerts)) ;;;
  (* Notify user *)
  sendNotification (Some (userId transaction)) "Transaction Blocked".

(** [saveMonitoringResult(transaction, alerts)] *)
Definition saveMonitoringResult (transaction : Transaction) (alerts : list Alert)
  : M Store unit :=
  statement env InsertMonitoringLog ;;;
  modify (insert_log
            (mkLog (transactionRef transaction) (userId transaction)
               alerts (Z.of_nat (List.length alerts)))).

(** [logMonitoringError(transaction, error)] *)
Definition logMonitoringError (transaction : Transaction) (error : Exception)
  : M Store unit :=
  statement env InsertMonitoringError ;;;
  modify (insert_error (mkMonitoringError (transactionRef transaction) error)).

(** ** [monitorTransaction(transaction)]

    The body of the [try] block in two parts: the evaluation of the rules
    (lines 353-386) and the verdict on the alerts they produced
    (lines 388-403). *)
Definition evaluateRules (transaction : Transaction) : M Store (list Alert) :=
  let alerts := [] in
  let userId := userId transaction in
  (* Get customer risk profile *)
  riskProfile <- getCustomerRiskProfile userId ;;
  (* 1. Check transaction amount *)
  amountAlert <- checkTransactionAmount transaction riskProfile ;;
  let alerts := push alerts amountAlert in
  (* 2. Check velocity *)
  velocityAlert <- checkVelocity userId transaction ;;
  let alerts := push alerts velocityAlert in
  (* 3. Check for structuring (smurfing) *)
  structuringAlert <- detectStructuring userId transaction ;;
  let alerts := push alerts structuringAlert in
  (* 4. Check suspicious patterns *)
  patternAlerts <- detectSuspiciousPatterns userId transaction ;;
  let alerts := alerts ++ patternAlerts in
  (* 5. Check dormant account reactivation *)
  dormancyAlert <- checkDormantAccount userId transaction ;;
  let alerts := push alerts dormancyAlert in
  (* 6. Check sanctions hit *)
  sanctionsAlert <- checkSanctionsRealTime transaction ;;
  let alerts := push alerts sanctionsAlert in
  (* 7. Check geographic risk *)
  geoAlert <- checkGeographicRisk transaction ;;
  let alerts := push alerts geoAlert in
  (* 8. Check PEP transactions *)
  pepAlert <- checkPEPTransaction userId transaction ;;
  let alerts := push alerts pepAlert in
  ret alerts.

Definition verdict (transaction : Transaction) (alerts : list Alert)
  : M Store MonitoringResult :=
  let save :=
    (* Save monitoring result *)
    saveMonitoringResult transaction alerts ;;;
    ret (mkResult false alerts false) in
  (* Process alerts *)
  if 0 <? Z.of_nat (List.length alerts)
  then
    processAlerts transaction alerts ;;;
    (* Determine if transaction should be blocked *)
    let shouldBlock := shouldBlockTransaction alerts in
    if shouldBlock
    then
      blockTransaction transaction alerts ;;;
      ret (mkResult true alerts false)
    else save
  else save.

Definition monitorTransaction (transaction : Transaction)
  : M Store MonitoringResult :=
  try_catch
    (alerts <- evaluateRules transaction ;;
     verdict transaction alerts)
    (fun error =>
       (* Don't block transaction on monitoring error, but log it *)
       logMonitoringError transaction error ;;;
       ret (mkResult false [] true)).

End Pipeline.

End Monitoring.

(** * Vocabulary of the statements *)

Module LedgerSpec.
Import Ledger.

(** A row as [getOrCreateAccount] inserts it: empty and active. *)
Definition blank (a : Account) : Prop := balance a = 0 /\ status a = active.

(** [db'] is [db] with blank accounts added and nothing else changed. *)
Definition extends (db db' : DB) : Prop :=
  transactions db' = transactions db
  /\ ledger_entries db' = ledger_entries db
  /\ exists new, accounts db' = accounts db ++ new /\ Forall blank new.

(** What [getOrCreateAccount(userId)] returns and leaves in the store when
    its statements succeed at time [t]. *)
Definition opened (t : JSDate) (userId : UserId) (db : DB) : Account * DB :=
  match find (fun r => (acc_user_id r =? userId)
                       && account_type_eqb (account_type r) customer_wallet)
             (accounts db) with
  | Some account => (account, db)
  | None =>
      let account := mkAccount (fresh_id (map acc_id (accounts db)))
                               userId customer_wallet 0 active t in
      (account, mkDB (accounts db ++ [account]) (transactions db)
                     (ledger_entries db))
  end.

(** [acc_id] is the primary key of [accounts]. *)
Definition primary_key (db : DB) : Prop := NoDup (map acc_id (accounts db)).

(** The row of [accounts] with identifier [id]. *)
Definition row (id : AccountId) (db : DB) : option Account :=
  hd_error (filter (fun r => acc_id r =? id) (accounts db)).

(** Sum of the amounts of the entries of type [ty] under reference [ref]. *)
Definition sum_entries (ty : EntryType) (ref : string) (es : list LedgerEntry) : Z :=
  fold_right Z.add 0
    (map amount
       (filter (fun e => (transaction_ref e =? ref)%string
                         && entry_type_eqb (entry_type e) ty) es)).

Definition nonnegative (db : DB) : Prop :=
  Forall (fun a => 0 <= balance a) (accounts db).

(** The balance update of a committed transfer, in statement order. *)
Definition set_balance (id : AccountId) (b : Money) (t : JSDate) (r : Account)
  : Account :=
  if acc_id r =? id
  then mkAccount (acc_id r) (acc_user_id r) (account_type r) b (status r) t
  else r.

(** The six writes of a transfer, in statement order. *)
Definition transfer_writes (env : Env) (fromUserId toUserId : UserId)
    (amount : Money) (metadata : Metadata) (txid : Z)
    (fromAccount toAccount lockedFrom lockedTo : Account) : list Pending :=
  [ InsertTransactionRow
      (mkTransaction txid (trn env) transfer
         (Some (acc_id fromAccount)) (Some (acc_id toAccount)) amount pending
         (metadata ++ [("from_user_id", MNumber fromUserId);
                       ("to_user_id", MNumber toUserId);
                       ("timestamp_pst", MDate (now env))])
         (now env) (now env));
    InsertLedgerEntry
      (mkLedgerEntry (trn env) (acc_id fromAccount) debit amount
         (balance lockedFrom - amount)
         [("description", TransferTo (acc_id toAccount));
          ("user_id", MNumber fromUserId);
          ("counterparty_user_id", MNumber toUserId)]
         (now env));
    InsertLedgerEntry
      (mkLedgerEntry (trn env) (acc_id toAccount) credit amount
         (balance lockedTo + amount)
         [("description", TransferFrom (acc_id fromAccount));
          ("user_id", MNumber toUserId);
          ("counterparty_user_id", MNumber fromUserId)]
         (now env));
    UpdateBalance (acc_id fromAccount) (balance lockedFrom - amount) (now env);
    UpdateBalance (acc_id toAccount) (balance lockedTo + amount) (now env);
    UpdateStatus txid completed (now env) ].

(** Nothing a callback does through [trx] touches the durable rows; the only
    durable effect is the creation of blank accounts. *)
Definition keeps {A} (m : M TrxState A) : Prop :=
  forall st st' r, m st = (st', r) -> extends (durable st) (durable st').

(** A computation that takes no lock. *)
Definition holds {A} (m : M TrxState A) : Prop :=
  forall st st' r, m st = (st', r) -> held st' = held st.

(** The ledger entries in the window of [generateDailyReport(date)]. *)
Definition window (date : JSDate) (db : DB) : list LedgerEntry :=
  filter (fun e => whereBetween (startOfDay date) (endOfDay date) (created_at e))
         (ledger_entries db).

(** Sum of the amounts of the entries of type [ty]. *)
Definition sum_type (ty : EntryType) (es : list LedgerEntry) : Z :=
  fold_right Z.add 0
    (map amount (filter (fun e => entry_type_eqb (entry_type e) ty) es)).

End LedgerSpec.

Module MonitoringSpec.
Import Monitoring.

(** The alerts that halt settlement. *)
Definition blocking (a : Alert) : Prop :=
  severity a = "CRITICAL"
  /\ (type a = "SANCTIONS_HIT" \/ type a = "STRUCTURING" \/ type a = "DECEASED").

(** The account-type threshold of [checkTransactionAmount]. *)
Definition large_threshold (riskProfile : RiskProfile) : Money :=
  if (profile_type riskProfile =? "business")%string
  then business largeTransaction
  else personal largeTransaction.

Definition ctr_alert (transaction : Transaction) : Alert :=
  mkAlert "CTR_REQUIRED" "HIGH" "Transaction exceeds CTR threshold (2000000 PKR)"
    [("amount", Num (amount transaction))].

Definition large_alert (transaction : Transaction) (riskProfile : RiskProfile)
  : Alert :=
  mkAlert "LARGE_TRANSACTION" "MEDIUM"
    ("Large transaction for " ++ profile_type riskProfile ++ " account")%string
    [("amount", Num (amount transaction));
     ("threshold", Num (large_threshold riskProfile))].

(** The store after [logMonitoringError(transaction, error)]. *)
Definition logged (transaction : Transaction) (error : Exception) (st : Store)
  : Store :=
  insert_error (mkMonitoringError (transactionRef transaction) error) st.

End MonitoringSpec.

(** * Sample data *)

Module Sample.
Import Ledger.

(** 15 January 2024, noon: day 19737 of the epoch. *)
Definition noon : JSDate := 19737 * msPerDay + 43200000.

Definition env : Env := reliable "PK240115120000A1B2C3" noon.

(** User 10 holds account 1 with 10,000 rupees, user 20 holds account 2 with
    500 rupees. *)
Definition alice : Account :=
  mkAccount 1 10 customer_wallet (PKR 10000) active noon.

Definition bob : Account :=
  mkAccount 2 20 customer_wallet (PKR 500) active noon.

Definition db : DB := mkDB [alice; bob] [] [].

(** User 10, KYC tier 1, has used up the 25,000 rupees of the daily limit on
    15 January 2024; the next check comes on 15 February 2024 at 09:00. *)
Definition limits_row : Limits.UserLimitsRow :=
  Limits.mkUserLimitsRow 10 (PKR 25000) (PKR 200000) (PKR 10000)
    (PKR 25000) (PKR 25000) noon noon.

Definition limits_db : Limits.DB :=
  Limits.mkDB [Limits.mkUser 10 1] [limits_row].

(** 15 February 2024, 09:00: day 19768 of the epoch. *)
Definition a_month_later : Env :=
  reliable "PK240215090000D4E5F6" (19768 * msPerDay + 32400000).

(** The limits row exists, so the stored procedure is not called. *)
Definition no_initialization (_ : Limits.UserId) (d : Limits.DB) : Limits.DB := d.

(** The sanctions list has one entry; user 10 has no risk profile, and has
    made three payments of 495,000 rupees two, three and four hours before
    noon. *)
Definition structured (ref : string) (hoursAgo : Z) : LedgerEntry :=
  mkLedgerEntry ref 1 debit (PKR 495000) 0 [] (noon - hoursAgo * 3600000).

Definition store : Monitoring.Store :=
  Monitoring.mkStore
    (mkDB [alice; bob] []
       [structured "TXN1705305600000A7C2E9G4H" 4;
        structured "TXN1705309200000B8D3F1J5K" 3;
        structured "TXN1705312800000C9E4G2L6M" 2])
    [Monitoring.mkSanctionsEntry "Ahmed Khan Trading" "NACTA"]
    [] [] None [] [] [] [] [] [] [] [].

(** User 20 sends 1,000 rupees to a name on the sanctions list. *)
Definition listed_payment : Monitoring.Transaction :=
  Monitoring.mkTransaction "TXN1705312800001P8W4Z6T2R" 20 2 (PKR 1000) noon
    (Some "ahmed khan") None.

(** User 10 sends a fourth 495,000 rupees, to a name that is not listed. *)
Definition fourth_payment : Monitoring.Transaction :=
  Monitoring.mkTransaction "TXN1705312800000K3J9X2M1Q" 10 1 (PKR 495000) noon
    (Some "Bilal Traders") None.

(** User 10 sends 2,500,000 rupees. *)
Definition large_payment : Monitoring.Transaction :=
  Monitoring.mkTransaction "TXN1705312800002B7N5V3C9X" 10 1 (PKR 2500000) noon
    None None.

Definition sanctions_alert : Monitoring.Alert :=
  Monitoring.mkAlert "SANCTIONS_HIT" "CRITICAL"
    "Transaction involves sanctioned entity"
    [("entity", Monitoring.Str "Ahmed Khan Trading");
     ("list", Monitoring.Str "NACTA")].

Definition velocity_alert : Monitoring.Alert :=
  Monitoring.mkAlert "VELOCITY_DAILY" "MEDIUM"
    "High transaction velocity in last 24 hours"
    [("count", Monitoring.Num 3); ("total", Monitoring.Num (PKR 1485000))].

Definition structuring_alert : Monitoring.Alert :=
  Monitoring.mkAlert "STRUCTURING" "CRITICAL"
    "Possible structuring detected - multiple transactions just below reporting threshold"
    [("transactionCount", Monitoring.Num 3)].

End Sample.

(** * Vocabulary of the further statements *)

Module MonitoringMore.
Import Monitoring.

(** The type and severity of the alerts the rules build. *)
Definition produced : list (string * string) :=
  [ ("CTR_REQUIRED", "HIGH"); ("LARGE_TRANSACTION", "MEDIUM");
    ("VELOCITY_HOURLY", "HIGH"); ("VELOCITY_DAILY", "MEDIUM");
    ("STRUCTURING", "CRITICAL"); ("RAPID_MOVEMENT", "HIGH");
    ("ROUND_AMOUNTS", "MEDIUM"); ("UNUSUAL_TIME", "LOW");
    ("DORMANT_REACTIVATION", "HIGH"); ("SANCTIONS_HIT", "CRITICAL");
    ("HIGH_RISK_GEOGRAPHY", "HIGH"); ("PEP_TRANSACTION", "MEDIUM") ].

Definition known (a : Alert) : Prop := In (type a, severity a) produced.

(** A computation that leaves the store as it found it, whatever its
    outcome. *)
Definition readonly {A} (m : M Store A) : Prop :=
  forall st st' r, m st = (st', r) -> st' = st.

(** The row [generateCTR(transaction)] inserts. *)
Definition ctr_row (transaction : Transaction) : CTR :=
  mkCTR (transactionRef transaction) (userId transaction) (amount transaction)
    (ctr_threshold largeTransaction).

(** The entries [detectStructuring] counts at time [t]. *)
Definition similar (t : JSDate) (userId : UserId) (st : Store)
  : list Ledger.LedgerEntry :=
  filter (fun le =>
            (threshold structuring <=? Ledger.amount le)
            && (Ledger.amount le <=? personal largeTransaction)
            && (t - timeWindow structuring <=? Ledger.created_at le))
         (entries_of_user userId st).

(** Is there an alert of severity [sev]? *)
Definition any_of_severity (sev : string) (l : list Alert) : bool :=
  0 <? Z.of_nat (List.length (filter (fun a => (severity a =? sev)%string) l)).

Definition saved_alert (transaction : Transaction) (a : Alert) : SavedAlert :=
  mkSavedAlert (transactionRef transaction) (userId transaction)
    (type a) (severity a) (description a).

(** Has [to] an active device token? *)
Definition reachable (to : Recipient) (st : Store) : bool :=
  existsb (fun d => token_of to d && is_active d)
    (device_tokens st).

(** The rows [sendNotification(to, title)] leaves in [notification_history]
    once the device tokens are read: none for a recipient without an active
    token, none when the insert fails. *)
Definition notified (env : Env) (to : Recipient) (title : string) (st : Store)
  : list Notification :=
  if reachable to st && negb (faults env InsertNotificationHistory)
  then [mkNotification to title]
  else [].

Definition team_notifications (env : Env) (st : Store) : list Notification :=
  flat_map (fun m => notified env (Some (admin_user_id m)) "Transaction Alert" st)
    (filter (fun m => (role m =? "COMPLIANCE")%string) (admin_users st)).

Definition append_history (l : list Notification) (st : Store) : Store :=
  mkStore (ledger st) (sanctions_lists st) (customer_risk_profiles st)
    (admin_users st) (COMPLIANCE_OFFICER_ID st) (device_tokens st)
    (currency_transaction_reports st)
    (suspicious_transaction_reports st) (monitoring_alerts st)
    (blocked_transactions st) (transaction_monitoring_logs st)
    (monitoring_errors st) (notification_history st ++ l).

(** The store once [processAlerts(transaction, alerts)] has gone through. *)
Definition processed (env : Env) (transaction : Transaction)
    (found : list Alert) (st : Store) : Store :=
  mkStore (ledger st) (sanctions_lists st) (customer_risk_profiles st)
    (admin_users st) (COMPLIANCE_OFFICER_ID st) (device_tokens st)
    (currency_transaction_reports st)
    (suspicious_transaction_reports st
     ++ (if any_of_severity "CRITICAL" found
         then [mkSTR (transactionRef transaction) (userId transaction)
                 (amount transaction) found]
         else []))
    (monitoring_alerts st ++ map (saved_alert transaction) found)
    (blocked_transactions st) (transaction_monitoring_logs st)
    (monitoring_errors st)
    (notification_history st
     ++ (if any_of_severity "CRITICAL" found
         then notified env (COMPLIANCE_OFFICER_ID st)
                "Critical Alert: STR Generated" st
         else [])
     ++ (if any_of_severity "HIGH" found then team_notifications env st else [])).

(** The characters [LIKE] does not read as themselves. *)
Definition wildcard (c : ascii) : bool :=
  Ascii.eqb c "%" || Ascii.eqb c "_" || Ascii.eqb c "\".

Fixpoint literal (s : string) : bool :=
  match s with
  | EmptyString => true
  | String c rest => negb (wildcard c) && literal rest
  end.

(** [p] occurs in [s]. *)
Definition contains (s p : string) : Prop :=
  exists pre post, s = (pre ++ p ++ post)%string.

(** A run of [n] percent signs. *)
Fixpoint percents (n : nat) : string :=
  match n with
  | O => EmptyString
  | S k => String "%" (percents k)
  end.

End MonitoringMore.

Module SampleMore.

(** User 20 sends 1,000 rupees to a receiver whose name is a percent sign. *)
Definition percent_payment : Monitoring.Transaction :=
  Monitoring.mkTransaction "TXN1705312800003D5R8K1W7Y" 20 2 (PKR 1000)
    Sample.noon (Some "%") None.

(** The sample store with three administrators, two of them in compliance;
    of these only user 31 has an active device token, and the compliance
    officer, user 32, has none. *)
Definition staffed : Monitoring.Store :=
  Monitoring.mkStore
    (Monitoring.ledger Sample.store) (Monitoring.sanctions_lists Sample.store)
    []
    [Monitoring.mkAdminUser 31 "COMPLIANCE";
     Monitoring.mkAdminUser 32 "COMPLIANCE";
     Monitoring.mkAdminUser 33 "SUPPORT"]
    (Some 32)
    [Monitoring.mkDeviceToken 31 "fcm-31" true;
     Monitoring.mkDeviceToken 32 "fcm-32" false;
     Monitoring.mkDeviceToken 33 "fcm-33" true]
    [] [] [] [] [] [] [].

End SampleMore.

Module LedgerMore.
Import Ledger LedgerSpec.

(** The [WHERE] clause of [getOrCreateAccount(userId)]. *)
Definition wallet_of (u : UserId) (r : Account) : bool :=
  (acc_user_id r =? u) && account_type_eqb (account_type r) customer_wallet.

(** What [getBalance(userId)] reports on a healthy database: the first
    wallet of the user, or the blank one it opens. *)
Definition reported (u : UserId) (db : DB) : BalanceView :=
  match find (wallet_of u) (accounts db) with
  | Some a => mkBalanceView (balance a) (status a)
  | None => mkBalanceView 0 active
  end.


(** The change of a user's balance that a transfer of [amt] from
    [fromUserId] to [toUserId] stores. *)
Definition change (fromUserId toUserId : UserId) (amt : Money) (u : UserId) : Z :=
  if u =? toUserId then amt
  else if u =? fromUserId then - amt
  else 0.

(** The completed transactions [generateDailyReport(date)] counts. *)
Definition day_transactions (date : JSDate) (db : DB) : list Transaction :=
  filter (fun t => whereBetween (startOfDay date) (endOfDay date) (tx_created_at t)
                   && tx_status_eqb (tx_status t) completed)
         (transactions db).

(** The report [generateDailyReport(date)] builds at time [t]. *)
Definition report (t : JSDate) (date : JSDate) (db : DB) : DailyReport :=
  mkDailyReport date
    (Z.of_nat (List.length (day_transactions date db)))
    (sum_type debit (window date db))
    (sum_type credit (window date db))
    (Z.of_nat (List.length (window date db)))
    (match window date db with
     | [] => false
     | _ => Z.abs (sum_type debit (window date db)
                   - sum_type credit (window date db)) <? 100
     end)
    t.

End LedgerMore.

(** * Pooled clients ([pool.connect()])

    A client taken from the pool runs its statements one after the other on
    one connection.  Between [BEGIN] and [COMMIT] or [ROLLBACK] they work on
    the tables as the open transaction has them; outside, each statement is
    committed at once.  A method starts when it has its client: a failing
    [pool.connect()], which throws before the first statement, is not part
    of the model. *)

Module Pg.

(** What is committed, and the tables as the open transaction of the client
    has them, if it has one. *)
Record Client (T : Type) := mkClient {
  committed : T;
  working : option T
}.
Arguments mkClient {T} committed working.
Arguments committed {T} c.
Arguments working {T} c.

Definition begin {T} (c : Client T) : Client T :=
  match working c with
  | None => mkClient (committed c) (Some (committed c))
  | Some _ => c
  end.

Definition commit {T} (c : Client T) : Client T :=
  match working c with
  | Some w => mkClient w None
  | None => c
  end.

Definition rollback {T} (c : Client T) : Client T :=
  mkClient (committed c) None.

(** A statement that writes: inside the open transaction, or at once. *)
Definition exec {T} (f : T -> T) (c : Client T) : Client T :=
  match working c with
  | Some w => mkClient (committed c) (Some (f w))
  | None => mkClient (f (committed c)) None
  end.

End Pg.

Module LimitsMore.
Import Limits Pg.

(** The two tests that precede the checks of [checkTransactionLimits] at
    time [t]. *)
Definition daily_due (t : JSDate) (row : UserLimits) : bool :=
  negb (getDate t =? getDate (daily_reset_at row)).

Definition monthly_due (t : JSDate) (row : UserLimits) : bool :=
  negb (getMonth t =? getMonth (monthly_reset_at row))
  || negb (getFullYear t =? getFullYear (monthly_reset_at row)).

(** The counters the ceilings are compared with. *)
Definition daily_counter (t : JSDate) (row : UserLimits) : Money :=
  if daily_due t row then 0 else daily_spent row.

Definition monthly_counter (t : JSDate) (row : UserLimits) : Money :=
  if monthly_due t row then 0 else monthly_spent row.

(** The store once the resets that are due have been written. *)
Definition after_resets (t : JSDate) (userId : UserId) (row : UserLimits)
    (db : DB) : DB :=
  let db1 := if daily_due t row then reset_daily userId t db else db in
  if monthly_due t row then reset_monthly userId t db1 else db1.

(** A payment of [amount] passes the four checks. *)
Definition within_limits (amount : Money) (t : JSDate) (row : UserLimits)
  : Prop :=
  kyc_level row <> 0
  /\ amount <= per_transaction_limit row
  /\ daily_counter t row + amount <= daily_limit row
  /\ monthly_counter t row + amount <= monthly_limit row.

(** It passes them with room to spare under the two ceilings. *)
Definition strictly_within_limits (amount : Money) (t : JSDate)
    (row : UserLimits) : Prop :=
  kyc_level row <> 0
  /\ amount <= per_transaction_limit row
  /\ daily_counter t row + amount < daily_limit row
  /\ monthly_counter t row + amount < monthly_limit row.

(** The amount, the limits of the row and its counters are within
    [precise]. *)
Definition precise_row (amount : Money) (t : JSDate) (row : UserLimits)
  : Prop :=
  precise amount
  /\ precise (per_transaction_limit row)
  /\ precise (daily_limit row) /\ precise (monthly_limit row)
  /\ precise (daily_counter t row) /\ precise (monthly_counter t row).

(** ** [middleware/checkLimits.js] *)


Section Middleware.

Variable initialize_user_limits : UserId -> DB -> DB.


End Middleware.

(** ** Statements on a pooled client

    [updateSpentAmounts] and [upgradeKYCLevel] take a client from the pool
    and bracket their statements with [BEGIN] and [COMMIT], or [ROLLBACK]
    in the [catch].  The table [limit_transactions] is written and never
    read.  The columns [updated_at] and [kyc_level] of [user_limits] are
    written by these methods and read by none ([kyc_level] is hidden, in
    both queries of the service, by [u.kyc_level], which comes later in the
    select list): rows are modelled without them. *)

Inductive Query :=
  | Begin | CommitWork | Rollback
  (* updateSpentAmounts *)
  | UpdateSpent | InsertLimitTransaction
  (* getUserLimits *)
  | SelectUserLimits
  (* upgradeKYCLevel *)
  | UpdateKycLevel | UpdateLimits.

(** The connection: the environment of the service, and for each statement
    the error the database rejects it with, if it does. *)
Record Conn := mkConn {
  base : Env;
  rejects : Query -> option Exception
}.

Definition unbroken (e : Env) : Conn := mkConn e (fun _ => None).

Record LimitTransaction := mkLimitTransaction {
  lt_user_id : UserId;
  lt_transaction_ref : string;
  lt_amount : Money;
  lt_transaction_type : string;
  lt_transaction_date : Z           (* CURRENT_DATE *)
}.

Record Tables := mkTables {
  core : DB;
  limit_transactions : list LimitTransaction
}.

(** [await client.query(q)]: rejected, or carried out. *)
Definition query {S} (conn : Conn) (q : Query) (effect : S -> S) : M S unit :=
  match rejects conn q with
  | Some error => throw error
  | None => modify effect
  end.

(** ** [updateSpentAmounts(userId, amount, transactionRef, transactionType)] *)

(** [UPDATE user_limits SET daily_spent = daily_spent + $1,
     monthly_spent = monthly_spent + $1 WHERE user_id = $2]. *)
Definition add_spent (userId : UserId) (amount : Money) (t : Tables) : Tables :=
  mkTables
    (mkDB (users (core t))
       (map (fun ul => if ul_user_id ul =? userId
                       then mkUserLimitsRow (ul_user_id ul) (ul_daily_limit ul)
                              (ul_monthly_limit ul)
                              (ul_per_transaction_limit ul)
                              (ul_daily_spent ul + amount)
                              (ul_monthly_spent ul + amount)
                              (ul_daily_reset_at ul) (ul_monthly_reset_at ul)
                       else ul)
          (user_limits (core t))))
    (limit_transactions t).

Definition insert_limit_transaction (row : LimitTransaction) (t : Tables)
  : Tables :=
  mkTables (core t) (limit_transactions t ++ [row]).

Definition updateSpentAmounts (conn : Conn) (userId : UserId) (amount : Money)
    (transactionRef transactionType : string) : M (Client Tables) bool :=
  try_catch
    (query conn Begin begin ;;;
     (* Update spent amounts *)
     query conn UpdateSpent (exec (add_spent userId amount)) ;;;
     (* Record transaction for limits tracking *)
     query conn InsertLimitTransaction
       (exec (insert_limit_transaction
                (mkLimitTransaction userId transactionRef amount
                   transactionType (dayNumber (now (base conn)))))) ;;;
     query conn CommitWork commit ;;;
     ret true)
    (fun error =>
       query conn Rollback rollback ;;;
       throw error).

(** ** [getUserLimits(userId)]

    Its query is the join of [limitsQuery] with two computed columns more,
    which [formatLimitsResponse] does not read. *)

Section GetUserLimits.

Variable initialize_user_limits : UserId -> DB -> DB.


End GetUserLimits.

(** ** [upgradeKYCLevel(userId, newLevel)] *)

(** [UPDATE users SET kyc_level = $1 WHERE id = $2]. *)
Definition set_kyc_level (userId : UserId) (newLevel : Z) (t : Tables) : Tables :=
  mkTables
    (mkDB (map (fun u => if u_id u =? userId then mkUser (u_id u) newLevel
                         else u)
             (users (core t)))
       (user_limits (core t)))
    (limit_transactions t).

(** [UPDATE user_limits SET kyc_level = $1, daily_limit = $2,
     monthly_limit = $3, per_transaction_limit = $4 WHERE user_id = $5]. *)
Definition set_limits (userId : UserId) (tier : KycTier) (t : Tables) : Tables :=
  mkTables
    (mkDB (users (core t))
       (map (fun ul => if ul_user_id ul =? userId
                       then mkUserLimitsRow (ul_user_id ul) (daily tier)
                              (monthly tier) (perTransaction tier)
                              (ul_daily_spent ul) (ul_monthly_spent ul)
                              (ul_daily_reset_at ul) (ul_monthly_reset_at ul)
                       else ul)
          (user_limits (core t))))
    (limit_transactions t).

Definition upgradeKYCLevel (conn : Conn) (userId : UserId) (newLevel : Z)
  : M (Client Tables) bool :=
  try_catch
    (query conn Begin begin ;;;
     (* Update user's KYC level *)
     query conn UpdateKycLevel (exec (set_kyc_level userId newLevel)) ;;;
     (* Update limits *)
     match KYC_LIMITS newLevel with
     | None => throw TypeError
     | Some limits =>
         query conn UpdateLimits (exec (set_limits userId limits)) ;;;
         query conn CommitWork commit ;;;
         ret true
     end)
    (fun error =>
       query conn Rollback rollback ;;;
       throw error).

(** The limits object with [amount] more spent. *)
Definition spend (amount : Money) (r : UserLimits) : UserLimits :=
  mkUserLimits (kyc_level r) (daily_limit r) (monthly_limit r)
    (per_transaction_limit r)
    (daily_spent r + amount) (monthly_spent r + amount)
    (daily_reset_at r) (monthly_reset_at r).

(** The limits object at level [newLevel] with the limits of [tier]. *)
Definition upgraded (newLevel : Z) (tier : KycTier) (r : UserLimits)
  : UserLimits :=
  mkUserLimits newLevel (daily tier) (monthly tier) (perTransaction tier)
    (daily_spent r) (monthly_spent r) (daily_reset_at r) (monthly_reset_at r).

End LimitsMore.

Module SampleLimits.

(** User 10, KYC tier 1, has spent 5,000 rupees of the day and 60,000 of the
    month on 15 January 2024. *)
Definition spending_row : Limits.UserLimitsRow :=
  Limits.mkUserLimitsRow 10 (PKR 25000) (PKR 200000) (PKR 10000)
    (PKR 5000) (PKR 60000) Sample.noon Sample.noon.

Definition spending_db : Limits.DB :=
  Limits.mkDB [Limits.mkUser 10 1] [spending_row].

(** The row the join finds for user 10. *)
Definition spending : Limits.UserLimits :=
  Limits.mkUserLimits 1 (PKR 25000) (PKR 200000) (PKR 10000)
    (PKR 5000) (PKR 60000) Sample.noon Sample.noon.

Definition spending_tables : LimitsMore.Tables :=
  LimitsMore.mkTables spending_db [].

End SampleLimits.

(** * The transaction history ([services/ledgerService.js], [getTransactionHistory]) *)

Module History.
Import Ledger.

(** The connection of [getTransactionHistory]: the environment of the
    ledger, the error its query on [ledger_entries] is rejected with, if it
    is, and the choice the database makes between two rows with the same
    timestamp, which [ORDER BY created_at DESC] leaves open: [ties x y]
    says that it returns [x] before [y]. *)
Record Conn := mkConn {
  base : Env;
  rejected : option Exception;
  ties : LedgerEntry -> LedgerEntry -> bool
}.

(** [x] comes before [y] under [ORDER BY created_at DESC]. *)
Definition precedes (conn : Conn) (x y : LedgerEntry) : bool :=
  (created_at y <? created_at x)
  || ((created_at y =? created_at x) && ties conn x y).

Fixpoint place (conn : Conn) (x : LedgerEntry) (sorted : list LedgerEntry)
  : list LedgerEntry :=
  match sorted with
  | [] => [x]
  | y :: rest =>
      if precedes conn x y then x :: sorted else y :: place conn x rest
  end.

(** [.orderBy('created_at', 'desc')]: the rows by decreasing timestamp. *)
Definition orderBy_created_at_desc (conn : Conn) (rows : list LedgerEntry)
  : list LedgerEntry :=
  fold_right (place conn) [] rows.

(** [object.key] on a JSON object: the last binding of the key. *)
Fixpoint property (key : string) (o : Metadata) : option MetaValue :=
  match o with
  | [] => None
  | (k, v) :: rest =>
      if existsb (fun entry => (fst entry =? key)%string) rest
      then property key rest
      else if (k =? key)%string then Some v else None
  end.

(** [value || '']. *)
Definition or_empty (value : option MetaValue) : MetaValue :=
  match value with
  | None | Some (MString "") | Some (MNumber 0) => MString ""
  | Some v => v
  end.

Record HistoryItem := mkHistoryItem {
  h_transactionRef : string;
  h_type : EntryType;
  h_amount : Money;
  h_balanceAfter : Money;
  h_timestamp : JSDate;
  h_description : MetaValue
}.

Definition item (entry : LedgerEntry) : HistoryItem :=
  mkHistoryItem (transaction_ref entry) (entry_type entry) (amount entry)
    (balance_after entry) (created_at entry)
    (or_empty (property "description" (metadata entry))).

(** [getTransactionHistory(userId, limit = 20, offset = 0)], for a limit and
    an offset that are natural numbers. *)
Definition getTransactionHistory (conn : Conn) (userId : UserId)
    (limit offset : nat) : M DB (list HistoryItem) :=
  account <- getOrCreateAccount (base conn) SelectFromAccount InsertFromAccount
               userId customer_wallet ;;
  match rejected conn with
  | Some error => throw error
  | None =>
      db <- get ;;
      let entries :=
        firstn limit
          (skipn offset
             (orderBy_created_at_desc conn
                (filter (fun e => account_id e =? acc_id account)
                   (ledger_entries db)))) in
      ret (map item entries)
  end.

(** [sorted] is [l] in an order that [ORDER BY created_at DESC] allows. *)
Definition newest_first (l sorted : list LedgerEntry) : Prop :=
  Permutation l sorted
  /\ StronglySorted (fun a b => created_at b <= created_at a) sorted.

(** The entries of the wallet of [userId]. *)
Definition entries_of (userId : UserId) (db : DB) : list LedgerEntry :=
  match find (LedgerMore.wallet_of userId) (accounts db) with
  | Some account =>
      filter (fun e => account_id e =? acc_id account) (ledger_entries db)
  | None => []
  end.

End History.

Module SampleHistory.

(** A database that, of two rows with the same timestamp, returns first
    the one it met first. *)
Definition conn : History.Conn :=
  History.mkConn Sample.env None (fun _ _ => true).

(** The ledger of the monitoring samples: three debits of account 1, four,
    three and two hours before noon. *)
Definition db : Ledger.DB := Monitoring.ledger Sample.store.

(** The credit of a deposit of 3,000 rupees made by user 10 at noon. *)
Definition deposited : Ledger.LedgerEntry :=
  Ledger.mkLedgerEntry (trn Sample.env) 1 Ledger.credit (PKR 3000) (PKR 13000)
    [("description", Ledger.MString "Deposit to wallet")] Sample.noon.

End SampleHistory.

(** * Bill payments ([services/billPaymentService.js]) *)

Module Bills.
Import Pg.

Record Biller := mkBiller {
  biller_name : string;
  biller_type : string;
  active : bool
}.

(** [this.billers], in the order of the object literal. *)
Definition billers : list (string * Biller) :=
  [ (* Electricity *)
    ("KE", mkBiller "K-Electric" "electricity" true);
    ("LESCO", mkBiller "LESCO" "electricity" true);
    ("IESCO", mkBiller "Islamabad Electric" "electricity" true);
    (* Gas *)
    ("SSGC", mkBiller "Sui Southern Gas" "gas" true);
    ("SNGPL", mkBiller "Sui Northern Gas" "gas" true);
    (* Telecom *)
    ("JAZZ", mkBiller "Jazz" "mobile" true);
    ("ZONG", mkBiller "Zong" "mobile" true);
    ("TELENOR", mkBiller "Telenor" "mobile" true);
    ("UFONE", mkBiller "Ufone" "mobile" true);
    (* Internet *)
    ("PTCL", mkBiller "PTCL" "internet" true);
    ("NAYATEL", mkBiller "Nayatel" "internet" true);
    ("STORMFIBER", mkBiller "StormFiber" "internet" true) ].

(** The property names an object literal inherits from [Object.prototype]:
    [this.billers[code]] is not [undefined] for them. *)
Definition inherited : list string :=
  [ "constructor"; "hasOwnProperty"; "isPrototypeOf"; "propertyIsEnumerable";
    "toLocaleString"; "toString"; "valueOf"; "__proto__";
    "__defineGetter__"; "__defineSetter__";
    "__lookupGetter__"; "__lookupSetter__" ].

(** The value of [this.billers[code]]. *)
Inductive Property :=
  | Own (biller : Biller)
  | Inherited            (* a function or object without [type]; truthy *)
  | Undefined.

Definition lookup (code : string) : Property :=
  match find (fun entry => (fst entry =? code)%string) billers with
  | Some (_, biller) => Own biller
  | None => if existsb (String.eqb code) inherited then Inherited else Undefined
  end.

(** [biller.name]: the name of an own entry; the [name] of an inherited
    function ([constructor] is [Object]), which [__proto__], an object, does
    not have. *)
Definition name_of (code : string) (p : Property) : option string :=
  match p with
  | Own biller => Some (biller_name biller)
  | Inherited =>
      if (code =? "__proto__")%string then None
      else if (code =? "constructor")%string then Some "Object"
      else Some code
  | Undefined => None
  end.

(** A JSON object as the list of its bindings, a later binding of a key
    shadowing an earlier one; [None] is [undefined]. *)
Definition Details := list (string * option string).

Fixpoint property (key : string) (o : Details) : option string :=
  match o with
  | [] => None
  | (k, v) :: rest =>
      if existsb (fun entry => (fst entry =? key)%string) rest
      then property key rest
      else if (k =? key)%string then v else None
  end.

Record BillPayment := mkBillPayment {
  bp_id : string;
  bp_user_id : Ledger.UserId;
  bp_biller_code : string;
  bp_consumer_number : string;
  bp_amount : Money;
  bp_payment_ref : string;
  bp_status : string;
  bp_metadata : Details;
  bp_created_at : JSDate
}.

Record Store := mkStore {
  ledger : Ledger.DB;                       (* reached through [knex] *)
  bill_payments : Client (list BillPayment) (* reached through the client *)
}.

Inductive Query := Begin | InsertBillPayment | CommitWork | Rollback.

(** The connection: the environment of the ledger, the values of
    [uuidv4()] and of the generated payment reference, and for each
    statement the error the database rejects it with, if it does. *)
Record Conn := mkConn {
  base : Env;
  uuid : string;
  payment_ref : string;
  rejects : Query -> option Exception
}.

Definition unbroken (e : Env) (id ref : string) : Conn :=
  mkConn e id ref (fun _ => None).

Definition query (conn : Conn) (q : Query)
    (effect : Client (list BillPayment) -> Client (list BillPayment))
  : M Store unit :=
  match rejects conn q with
  | Some error => throw error
  | None => modify (fun st => mkStore (ledger st) (effect (bill_payments st)))
  end.

(** A method of [ledgerService], which works on the ledger's own
    connection. *)
Definition ledgerService {A} (m : M Ledger.DB A) : M Store A :=
  fun st =>
    let '(db, r) := m (ledger st) in
    (mkStore db (bill_payments st), r).

(** [ledgerService.withdraw(...)]: [LedgerService] has no such method, and
    calling [undefined] is a [TypeError]. *)
Definition withdraw : M Store unit := throw TypeError.

Record PayResult := mkPayResult {
  paymentRef : string;
  payment : BillPayment
}.

(** [payBill(userId, billerCode, consumerNumber, amount, billDetails = {})] *)
Definition payBill (conn : Conn) (userId : Ledger.UserId)
    (billerCode consumerNumber : string) (amount : Money)
    (billDetails : Details) : M Store PayResult :=
  try_catch
    (query conn Begin begin ;;;
     (* Validate biller *)
     let biller := lookup billerCode in
     match biller with
     | Undefined => throw (Error "Invalid biller")
     | _ =>
         (* Check user balance through ledger *)
         balance <- ledgerService (Ledger.getBalance (base conn) userId) ;;
         if Ledger.bv_balance balance <? amount
         then throw (Error "Insufficient balance")
         else
           (* Create bill payment record *)
           let paymentRef := payment_ref conn in
           let payment :=
             mkBillPayment (uuid conn) userId billerCode consumerNumber amount
               paymentRef "completed"
               ([("billerName", name_of billerCode biller);
                 ("billMonth", property "billMonth" billDetails)]
                ++ billDetails)
               (now (base conn)) in
           query conn InsertBillPayment (exec (fun rows => rows ++ [payment])) ;;;
           (* Record in ledger as a withdrawal *)
           withdraw ;;;
           query conn CommitWork commit ;;;
           ret (mkPayResult paymentRef payment)
     end)
    (fun error =>
       query conn Rollback rollback ;;;
       throw error).

(** [topupMobile(userId, mobileNumber, operator, amount)] *)
Definition topupMobile (conn : Conn) (userId : Ledger.UserId)
    (mobileNumber operator : string) (amount : Money) : M Store PayResult :=
  (* Validate operator *)
  let mobile :=
    match lookup operator with
    | Own biller => (biller_type biller =? "mobile")%string
    | Inherited | Undefined => false
    end in
  if negb mobile
  then throw (Error "Invalid mobile operator")
  else
    (* Process as a bill payment *)
    payBill conn userId operator mobileNumber amount
      [("type", Some "mobile_topup"); ("mobileNumber", Some mobileNumber)].

End Bills.

Module SampleBills.

Definition conn : Bills.Conn :=
  Bills.unbroken Sample.env "7c9e6679-7425-40de-944b-e07fc1f90ae7"
    "BILL-1705320000000-k3j9x2m1q".

(** The ledger of the samples; no bill was ever paid. *)
Definition store : Bills.Store :=
  Bills.mkStore Sample.db (Pg.mkClient [] None).

End SampleBills.

(** * Reasoning about service computations *)

Section MonadFacts.

Context {S A B : Type}.

Lemma bind_returned (m : M S A) (f : A -> M S B) s s' b :
  bind m f s = (s', Returned b) ->
  exists a s1, m s = (s1, Returned a) /\ f a s1 = (s', Returned b).
Proof.
  unfold bind. destruct (m s) as [s1 [a | e]]; intros H.
  - exists a, s1. auto.
  - discriminate.
Qed.

Lemma bind_thrown (m : M S A) (f : A -> M S B) s s' e :
  bind m f s = (s', Thrown e) ->
  m s = (s', Thrown e)
  \/ exists a s1, m s = (s1, Returned a) /\ f a s1 = (s', Thrown e).
Proof.
  unfold bind. destruct (m s) as [s1 [a | e1]]; intros H.
  - right. exists a, s1. auto.
  - left. inversion H. reflexivity.
Qed.

Lemma bind_ret (a : A) (f : A -> M S B) s : bind (ret a) f s = f a s.
Proof. reflexivity. Qed.

Lemma bind_value (m : M S A) (f : A -> M S B) s s1 a :
  m s = (s1, Returned a) -> bind m f s = f a s1.
Proof. unfold bind. intros ->. reflexivity. Qed.

Lemma bind_cases (m : M S A) (f : A -> M S B) s s' (r : Result B) :
  bind m f s = (s', r) ->
  (exists e, m s = (s', Thrown e))
  \/ exists a s1, m s = (s1, Returned a) /\ f a s1 = (s', r).
Proof.
  unfold bind. destruct (m s) as [s1 [a | e1]]; intros H.
  - right. exists a, s1. auto.
  - left. exists e1. inversion H. reflexivity.
Qed.

End MonadFacts.

Lemma statement_returned {S} env s (st st' : S) u :
  statement env s st = (st', Returned u) -> st' = st /\ faults env s = false.
Proof.
  unfold statement. destruct (faults env s); intros H; inversion H; auto.
Qed.

Lemma statement_thrown {S} env s (st st' : S) e :
  statement env s st = (st', Thrown e) -> st' = st.
Proof.
  unfold statement. destruct (faults env s); intros H; inversion H; auto.
Qed.

(** * Facts about the ledger engine *)

Section LedgerFacts.

Import Ledger LedgerSpec.

Lemma extends_refl db : extends db db.
Proof.
  repeat split. exists []. rewrite app_nil_r. split; [reflexivity | constructor].
Qed.

Lemma extends_trans a b c : extends a b -> extends b c -> extends a c.
Proof.
  intros (T1 & L1 & n1 & A1 & F1) (T2 & L2 & n2 & A2 & F2).
  repeat split; try congruence.
  exists (n1 ++ n2). rewrite A2, A1, app_assoc. split; [reflexivity |].
  apply Forall_app; auto.
Qed.

Lemma opened_extends t u db : extends db (snd (opened t u db)).
Proof.
  unfold opened. destruct (find _ _); simpl.
  - apply extends_refl.
  - repeat split. eexists. split; [reflexivity |].
    constructor; [split; reflexivity | constructor].
Qed.

Lemma opened_owner t u db :
  In (fst (opened t u db)) (accounts (snd (opened t u db)))
  /\ acc_user_id (fst (opened t u db)) = u
  /\ account_type (fst (opened t u db)) = customer_wallet.
Proof.
  unfold opened. destruct (find _ _) as [a |] eqn:F; simpl.
  - apply find_some in F. destruct F as [I E].
    apply andb_true_iff in E. destruct E as [E1 E2].
    apply Z.eqb_eq in E1. repeat split; auto.
    destruct (account_type a); simpl in E2; congruence.
  - split; [apply in_or_app; right; left; reflexivity | auto].
Qed.

Lemma fold_max_bound (l : list Z) x : In x l -> x <= fold_right Z.max 0 l.
Proof.
  induction l as [| y l IH]; simpl; [tauto |].
  intros [-> | I]; [lia | specialize (IH I); lia].
Qed.

Lemma fresh_id_new (l : list Z) : ~ In (fresh_id l) l.
Proof.
  unfold fresh_id. intros I. apply fold_max_bound in I. lia.
Qed.

Lemma NoDup_snoc (l : list Z) x : NoDup l -> ~ In x l -> NoDup (l ++ [x]).
Proof.
  induction l as [| y l IH]; simpl; intros N NI.
  - constructor; [tauto | constructor].
  - inversion N as [| ? ? NY N']; subst. constructor.
    + rewrite in_app_iff. simpl. intros [I | [E | []]]; [tauto |].
      apply NI. left. symmetry. exact E.
    + apply IH; tauto.
Qed.

Lemma opened_primary_key t u db :
  primary_key db -> primary_key (snd (opened t u db)).
Proof.
  unfold primary_key, opened. intros N. destruct (find _ _); simpl; auto.
  rewrite map_app. simpl. apply NoDup_snoc; [exact N | apply fresh_id_new].
Qed.

Lemma getOrCreateAccount_returned env sel ins u db db' a :
  getOrCreateAccount env sel ins u customer_wallet db = (db', Returned a) ->
  a = fst (opened (now env) u db) /\ db' = snd (opened (now env) u db).
Proof.
  unfold getOrCreateAccount, opened. intros H.
  apply bind_returned in H. destruct H as (? & s1 & H1 & H).
  apply statement_returned in H1. destruct H1 as [-> _].
  unfold bind, get in H. simpl in H.
  destruct (find _ _) as [found |].
  - inversion H. auto.
  - unfold statement, modify, ret in H. destruct (faults env ins); simpl in H.
    + discriminate.
    + inversion H. auto.
Qed.

Lemma getOrCreateAccount_thrown env sel ins u ty db db' e :
  getOrCreateAccount env sel ins u ty db = (db', Thrown e) -> db' = db.
Proof.
  unfold getOrCreateAccount. intros H.
  apply bind_thrown in H. destruct H as [H | (? & s1 & H1 & H)].
  - apply statement_thrown in H. exact H.
  - apply statement_returned in H1. destruct H1 as [-> _].
    unfold bind, get in H. simpl in H.
    destruct (find _ _).
    + discriminate.
    + unfold statement, modify, ret in H. destruct (faults env ins); simpl in H.
      * inversion H. reflexivity.
      * discriminate.
Qed.

Lemma knex_account_returned env sel ins u st st' a :
  knex (getOrCreateAccount env sel ins u customer_wallet) st = (st', Returned a) ->
  a = fst (opened (now env) u (durable st))
  /\ st' = mkTrx (snd (opened (now env) u (durable st))) (writes st) (held st).
Proof.
  unfold knex. destruct (getOrCreateAccount _ _ _ _ _ _) as [db r] eqn:G.
  intros H. inversion H; subst.
  apply getOrCreateAccount_returned in G. destruct G as [-> ->]. auto.
Qed.

Lemma knex_account_thrown env sel ins u st st' e :
  knex (getOrCreateAccount env sel ins u customer_wallet) st = (st', Thrown e) ->
  st' = mkTrx (durable st) (writes st) (held st).
Proof.
  unfold knex. destruct (getOrCreateAccount _ _ _ _ _ _) as [db r] eqn:G.
  intros H. inversion H; subst.
  apply getOrCreateAccount_thrown in G. subst. reflexivity.
Qed.

Lemma forUpdate_returned env s id st st' rows :
  forUpdate env s id st = (st', Returned rows) ->
  rows = filter (fun r => acc_id r =? id) (accounts (view st))
  /\ st' = mkTrx (durable st) (writes st) (held st ++ map acc_id rows).
Proof.
  unfold forUpdate, statement, bind, get, modify, ret.
  destruct (faults env s); intros H; inversion H. auto.
Qed.

Lemma forUpdate_thrown env s id st st' e :
  forUpdate env s id st = (st', Thrown e) -> st' = st.
Proof.
  unfold forUpdate, statement, bind, get, modify, ret.
  destruct (faults env s); intros H; inversion H. auto.
Qed.

Lemma trx_write_returned env s w st st' u :
  trx_write env s w st = (st', Returned u) ->
  st' = mkTrx (durable st) (writes st ++ [w]) (held st).
Proof.
  unfold trx_write, statement, bind, modify.
  destruct (faults env s); intros H; inversion H. auto.
Qed.

Lemma trx_write_thrown env s w st st' e :
  trx_write env s w st = (st', Thrown e) -> st' = st.
Proof.
  unfold trx_write, statement, bind, modify.
  destruct (faults env s); intros H; inversion H. auto.
Qed.

(** A callback that returns has gone through every statement. *)
Lemma recordTransfer_callback_returned env fromUserId toUserId amount metadata
    db st res :
  recordTransfer_callback env fromUserId toUserId amount metadata (mkTrx db [] [])
  = (st, Returned res) ->
  let fromAccount := fst (opened (now env) fromUserId db) in
  let db1 := snd (opened (now env) fromUserId db) in
  let toAccount := fst (opened (now env) toUserId db1) in
  let db2 := snd (opened (now env) toUserId db1) in
  exists lockedFrom lockedTo,
    row (acc_id fromAccount) db2 = Some lockedFrom
    /\ row (acc_id toAccount) db2 = Some lockedTo
    /\ amount <= balance lockedFrom
    /\ status lockedFrom = active
    /\ status lockedTo = active
    /\ st = mkTrx db2
             (transfer_writes env fromUserId toUserId amount metadata
                (fresh_id (map tx_id (transactions db2)))
                fromAccount toAccount lockedFrom lockedTo)
             (map acc_id (filter (fun r => acc_id r =? acc_id fromAccount)
                                 (accounts db2))
              ++ map acc_id (filter (fun r => acc_id r =? acc_id toAccount)
                                    (accounts db2)))
    /\ res = mkTransferResult (trn env) (balance lockedFrom - amount)
                (balance lockedTo + amount) (now env).
Proof.
  unfold recordTransfer_callback. intros H.
  apply bind_returned in H. destruct H as (fa & s1 & H1 & H).
  apply knex_account_returned in H1. simpl in H1. destruct H1 as [-> ->].
  apply bind_returned in H. destruct H as (ta & s2 & H2 & H).
  apply knex_account_returned in H2. simpl in H2. destruct H2 as [-> ->].
  apply bind_returned in H. destruct H as (rf & s3 & H3 & H).
  apply forUpdate_returned in H3. simpl in H3. destruct H3 as [-> ->].
  apply bind_returned in H. destruct H as (rt & s4 & H4 & H).
  apply forUpdate_returned in H4. simpl in H4. destruct H4 as [-> ->].
  unfold view in H. simpl in H.
  set (db1 := snd (opened (now env) fromUserId db)) in *.
  set (fa := fst (opened (now env) fromUserId db)) in *.
  set (db2 := snd (opened (now env) toUserId db1)) in *.
  set (ta := fst (opened (now env) toUserId db1)) in *.
  destruct (hd_error (filter (fun r => acc_id r =? acc_id fa) (accounts db2)))
    as [lf |] eqn:LF; [| discriminate].
  destruct (balance lf <? amount) eqn:B; [discriminate |].
  destruct (status_eqb (status lf) active) eqn:SF; simpl in H; [| discriminate].
  destruct (hd_error (filter (fun r => acc_id r =? acc_id ta) (accounts db2)))
    as [lt |] eqn:LT; [| discriminate].
  destruct (status_eqb (status lt) active) eqn:ST; simpl in H; [| discriminate].
  apply bind_returned in H. destruct H as (s5 & s5' & H5 & H).
  unfold get in H5. inversion H5; subst s5 s5'; clear H5.
  unfold view in H. simpl in H.
  repeat (apply bind_returned in H;
          let u := fresh "u" in let s := fresh "s" in let W := fresh "W" in
          destruct H as (u & s & W & H);
          apply trx_write_returned in W; simpl in W; subst s).
  unfold ret in H. inversion H; subst.
  exists lf, lt. unfold row. rewrite LF, LT.
  repeat split.
  - apply Z.ltb_ge in B. exact B.
  - destruct (status lf); simpl in SF; congruence.
  - destruct (status lt); simpl in ST; congruence.
Qed.

Lemma keeps_ret {A} (a : A) : keeps (ret a).
Proof. intros st st' r H. inversion H. apply extends_refl. Qed.

Lemma keeps_throw {A} e : keeps (@throw _ A e).
Proof. intros st st' r H. inversion H. apply extends_refl. Qed.

Lemma keeps_get : keeps get.
Proof. intros st st' r H. inversion H. apply extends_refl. Qed.

Lemma keeps_bind {A B} (m : M TrxState A) (f : A -> M TrxState B) :
  keeps m -> (forall a, keeps (f a)) -> keeps (bind m f).
Proof.
  intros Km Kf st st' r H. unfold bind in H.
  destruct (m st) as [s1 [a | e]] eqn:E.
  - eapply extends_trans; [eapply Km; exact E | eapply Kf; exact H].
  - inversion H; subst. eapply Km; exact E.
Qed.

Lemma keeps_trx_write env s w : keeps (trx_write env s w).
Proof.
  intros st st' [u | e] H.
  - apply trx_write_returned in H. subst. apply extends_refl.
  - apply trx_write_thrown in H. subst. apply extends_refl.
Qed.

Lemma keeps_forUpdate env s id : keeps (forUpdate env s id).
Proof.
  intros st st' [u | e] H.
  - apply forUpdate_returned in H. destruct H as [_ ->]. apply extends_refl.
  - apply forUpdate_thrown in H. subst. apply extends_refl.
Qed.

Lemma keeps_knex_account env sel ins u :
  keeps (knex (getOrCreateAccount env sel ins u customer_wallet)).
Proof.
  intros st st' [a | e] H.
  - apply knex_account_returned in H. destruct H as [_ ->]. simpl.
    apply opened_extends.
  - apply knex_account_thrown in H. subst. apply extends_refl.
Qed.

Ltac keeps_step :=
  first
    [ apply keeps_ret | apply keeps_throw | apply keeps_get
    | apply keeps_trx_write | apply keeps_forUpdate | apply keeps_knex_account
    | apply keeps_bind; [| intros ?]
    | match goal with
      | |- keeps (match ?x with _ => _ end) => destruct x
      end ].

Lemma keeps_recordTransfer_callback env fromUserId toUserId amount metadata :
  keeps (recordTransfer_callback env fromUserId toUserId amount metadata).
Proof. unfold recordTransfer_callback. repeat keeps_step. Qed.

Lemma keeps_deposit_callback env userId amount metadata :
  keeps (deposit_callback env userId amount metadata).
Proof. unfold deposit_callback. repeat keeps_step. Qed.

(** A transaction that does not commit leaves the durable rows. *)
Lemma knex_transaction_thrown {A} env (callback : M TrxState A) db db' e :
  keeps callback ->
  knex_transaction env callback db = (db', Thrown e) -> extends db db'.
Proof.
  intros K. unfold knex_transaction.
  destruct (callback (mkTrx db [] [])) as [st [a | e']] eqn:E; intros H.
  - destruct (faults env Commit); inversion H; subst.
    apply (K _ _ _ E).
  - inversion H; subst. apply (K _ _ _ E).
Qed.

Lemma knex_transaction_returned {A} env (callback : M TrxState A) db db' a :
  knex_transaction env callback db = (db', Returned a) ->
  exists st, callback (mkTrx db [] []) = (st, Returned a) /\ db' = view st.
Proof.
  unfold knex_transaction.
  destruct (callback (mkTrx db [] [])) as [st [a' | e']] eqn:E; intros H.
  - destruct (faults env Commit); inversion H; subst. exists st. auto.
  - discriminate.
Qed.

Lemma recordTransfer_unfold env fromUserId toUserId amount metadata db :
  recordTransfer env fromUserId toUserId amount metadata db
  = knex_transaction env
      (recordTransfer_callback env fromUserId toUserId amount metadata) db.
Proof.
  unfold recordTransfer, try_catch, throw.
  destruct (knex_transaction _ _ _) as [db' [a | e]]; reflexivity.
Qed.

(** ** Rows and their updates *)

Lemma extends_member db db' a :
  extends db db' -> In a (accounts db) -> In a (accounts db').
Proof.
  intros (_ & _ & new & -> & _) I. apply in_or_app. left. exact I.
Qed.

Lemma filter_primary_key db a :
  primary_key db -> In a (accounts db) ->
  filter (fun r => acc_id r =? acc_id a) (accounts db) = [a].
Proof.
  unfold primary_key. induction (accounts db) as [| b l IH]; simpl.
  - tauto.
  - intros N I. inversion N as [| ? ? NI N']; subst.
    destruct I as [-> | I].
    + rewrite Z.eqb_refl. f_equal.
      clear IH N. induction l as [| c l IH]; simpl; [reflexivity |].
      inversion N' as [| ? ? NC N'']; subst.
      destruct (acc_id c =? acc_id a) eqn:E.
      * apply Z.eqb_eq in E. exfalso. apply NI. left. exact E.
      * apply IH; [| exact N''].
        intros J. apply NI. right. exact J.
    + destruct (acc_id b =? acc_id a) eqn:E.
      * apply Z.eqb_eq in E. exfalso. apply NI. rewrite E.
        apply in_map. exact I.
      * apply IH; assumption.
Qed.

Lemma set_balance_id id b t r : acc_id (set_balance id b t r) = acc_id r.
Proof. unfold set_balance. destruct (acc_id r =? id); reflexivity. Qed.

Lemma set_balance_user id b t r :
  acc_user_id (set_balance id b t r) = acc_user_id r.
Proof. unfold set_balance. destruct (acc_id r =? id); reflexivity. Qed.

Lemma set_balance_nonnegative id b t l :
  0 <= b ->
  Forall (fun a => 0 <= balance a) l ->
  Forall (fun a => 0 <= balance a) (map (set_balance id b t) l).
Proof.
  intros B F. induction F as [| a l Ha F IH]; simpl; constructor; auto.
  unfold set_balance. destruct (acc_id a =? id); simpl; assumption.
Qed.

Lemma extends_nonnegative db db' :
  extends db db' -> nonnegative db -> nonnegative db'.
Proof.
  unfold nonnegative. intros (_ & _ & new & -> & F) N.
  apply Forall_app. split; [exact N |].
  eapply Forall_impl; [| exact F]. intros a [E _]. rewrite E. lia.
Qed.

Lemma row_member id db a : row id db = Some a -> In a (accounts db).
Proof.
  unfold row. intros H.
  destruct (filter _ _) as [| b l] eqn:F; simpl in H; [discriminate |].
  inversion H; subst.
  assert (I : In a (filter (fun r => acc_id r =? id) (accounts db)))
    by (rewrite F; left; reflexivity).
  apply filter_In in I. tauto.
Qed.

Lemma map_fixed {A} (f : A -> A) (l : list A) :
  (forall x, In x l -> f x = x) -> map f l = l.
Proof.
  induction l as [| a l IH]; simpl; intros H; [reflexivity |].
  rewrite H by (left; reflexivity). f_equal. apply IH.
  intros x I. apply H. right. exact I.
Qed.

(** What the transaction's connection sees once the six writes are made. *)
Lemma view_transfer env fromUserId toUserId amt md fa ta lf lt db2 locks :
  let txid := fresh_id (map tx_id (transactions db2)) in
  view (mkTrx db2
          (transfer_writes env fromUserId toUserId amt md txid fa ta lf lt) locks)
  = mkDB
      (map (set_balance (acc_id ta) (balance lt + amt) (now env))
         (map (set_balance (acc_id fa) (balance lf - amt) (now env))
            (accounts db2)))
      (transactions db2
       ++ [mkTransaction txid (trn env) transfer
             (Some (acc_id fa)) (Some (acc_id ta)) amt completed
             (md ++ [("from_user_id", MNumber fromUserId);
                     ("to_user_id", MNumber toUserId);
                     ("timestamp_pst", MDate (now env))])
             (now env) (now env)])
      (ledger_entries db2
       ++ [mkLedgerEntry (trn env) (acc_id fa) debit amt (balance lf - amt)
             [("description", TransferTo (acc_id ta));
              ("user_id", MNumber fromUserId);
              ("counterparty_user_id", MNumber toUserId)]
             (now env);
           mkLedgerEntry (trn env) (acc_id ta) credit amt (balance lt + amt)
             [("description", TransferFrom (acc_id fa));
              ("user_id", MNumber toUserId);
              ("counterparty_user_id", MNumber fromUserId)]
             (now env)]).
Proof.
  intros txid. unfold view, transfer_writes. simpl.
  rewrite <- app_assoc. simpl. f_equal.
  rewrite map_app. simpl. rewrite Z.eqb_refl. f_equal.
  apply map_fixed. intros x I.
  destruct (tx_id x =? txid) eqn:E; [| reflexivity].
  apply Z.eqb_eq in E. exfalso.
  apply (fresh_id_new (map tx_id (transactions db2))).
  fold txid. rewrite <- E. apply in_map. exact I.
Qed.

Lemma sum_entries_app ty ref l l' :
  sum_entries ty ref (l ++ l') = sum_entries ty ref l + sum_entries ty ref l'.
Proof.
  unfold sum_entries. rewrite filter_app, map_app.
  induction (map amount (filter _ l)) as [| x xs IH]; simpl; lia.
Qed.

Lemma sum_entries_fresh ty ref l :
  (forall e, In e l -> transaction_ref e <> ref) -> sum_entries ty ref l = 0.
Proof.
  unfold sum_entries. induction l as [| e l IH]; simpl; intros H; [reflexivity |].
  destruct (String.eqb_spec (transaction_ref e) ref) as [E | NE].
  - exfalso. apply (H e); [left; reflexivity | exact E].
  - simpl. apply IH. intros x I. apply H. right. exact I.
Qed.

(** A transfer that returns has committed exactly the view of its writes. *)
Lemma recordTransfer_returned env fromUserId toUserId amt md db db' res :
  recordTransfer env fromUserId toUserId amt md db = (db', Returned res) ->
  let fromAccount := fst (opened (now env) fromUserId db) in
  let db1 := snd (opened (now env) fromUserId db) in
  let toAccount := fst (opened (now env) toUserId db1) in
  let db2 := snd (opened (now env) toUserId db1) in
  exists lockedFrom lockedTo,
    row (acc_id fromAccount) db2 = Some lockedFrom
    /\ row (acc_id toAccount) db2 = Some lockedTo
    /\ amt <= balance lockedFrom
    /\ status lockedFrom = active
    /\ status lockedTo = active
    /\ res = mkTransferResult (trn env) (balance lockedFrom - amt)
                (balance lockedTo + amt) (now env)
    /\ db' = view (mkTrx db2
                     (transfer_writes env fromUserId toUserId amt md
                        (fresh_id (map tx_id (transactions db2)))
                        fromAccount toAccount lockedFrom lockedTo) []).
Proof.
  rewrite recordTransfer_unfold. intros H.
  apply knex_transaction_returned in H. destruct H as (st & C & ->).
  apply recordTransfer_callback_returned in C.
  destruct C as (lf & lt & RF & RT & B & SF & ST & -> & ->).
  exists lf, lt. repeat split; assumption.
Qed.

(** C1. Every call of [recordTransfer] that returns has appended exactly two
    ledger entries, both under the generated reference: a debit of [amt] on
    an account of the sender and a credit of [amt] on an account of the
    receiver, so the debits and the credits under that reference grow by the
    same amount; when the reference was unused they are the only entries
    under it, and both sums equal [amt]. *)
Theorem recordTransfer_double_entry env fromUserId toUserId amt md db db' res :
  recordTransfer env fromUserId toUserId amt md db = (db', Returned res) ->
  exists d c,
    ledger_entries db' = ledger_entries db ++ [d; c]
    /\ transactionRef res = trn env
    /\ transaction_ref d = trn env /\ transaction_ref c = trn env
    /\ entry_type d = debit /\ entry_type c = credit
    /\ amount d = amt /\ amount c = amt
    /\ (exists sender, In sender (accounts db')
                       /\ acc_id sender = account_id d
                       /\ acc_user_id sender = fromUserId)
    /\ (exists receiver, In receiver (accounts db')
                         /\ acc_id receiver = account_id c
                         /\ acc_user_id receiver = toUserId)
    /\ sum_entries debit (trn env) (ledger_entries db')
       = sum_entries debit (trn env) (ledger_entries db) + amt
    /\ sum_entries credit (trn env) (ledger_entries db')
       = sum_entries credit (trn env) (ledger_entries db) + amt
    /\ ((forall e, In e (ledger_entries db) -> transaction_ref e <> trn env) ->
        filter (fun e => (transaction_ref e =? trn env)%string) (ledger_entries db')
        = [d; c]
        /\ sum_entries debit (trn env) (ledger_entries db') = amt
        /\ sum_entries credit (trn env) (ledger_entries db') = amt).
Proof.
  intros H. apply recordTransfer_returned in H.
  destruct H as (lf & lt & RF & RT & B & SF & ST & -> & ->).
  rewrite view_transfer.
  set (db1 := snd (opened (now env) fromUserId db)) in *.
  set (fa := fst (opened (now env) fromUserId db)) in *.
  set (db2 := snd (opened (now env) toUserId db1)) in *.
  set (ta := fst (opened (now env) toUserId db1)) in *.
  assert (E1 : extends db db1) by apply opened_extends.
  assert (E2 : extends db1 db2) by apply opened_extends.
  assert (L : ledger_entries db2 = ledger_entries db).
  { destruct E1 as (_ & L1 & _), E2 as (_ & L2 & _). congruence. }
  destruct (opened_owner (now env) fromUserId db) as (IF & UF & _).
  destruct (opened_owner (now env) toUserId db1) as (IT & UT & _).
  fold fa db1 in IF, UF. fold ta db2 in IT, UT.
  apply (extends_member _ _ _ E2) in IF.
  eexists. eexists. simpl. rewrite L.
  split; [reflexivity |]. simpl.
  do 7 (split; [reflexivity |]).
  split.
  { eexists. split; [apply in_map, in_map; exact IF |].
    rewrite !set_balance_id, !set_balance_user. auto. }
  split.
  { eexists. split; [apply in_map, in_map; exact IT |].
    rewrite !set_balance_id, !set_balance_user. auto. }
  assert (SD : forall l, sum_entries debit (trn env)
             (l ++ [mkLedgerEntry (trn env) (acc_id fa) debit amt (balance lf - amt)
                      [("description", TransferTo (acc_id ta));
                       ("user_id", MNumber fromUserId);
                       ("counterparty_user_id", MNumber toUserId)] (now env);
                    mkLedgerEntry (trn env) (acc_id ta) credit amt (balance lt + amt)
                      [("description", TransferFrom (acc_id fa));
                       ("user_id", MNumber toUserId);
                       ("counterparty_user_id", MNumber fromUserId)] (now env)])
             = sum_entries debit (trn env) l + amt).
  { intros l. rewrite sum_entries_app. f_equal.
    unfold sum_entries. simpl. rewrite String.eqb_refl. simpl. lia. }
  assert (SC : forall l, sum_entries credit (trn env)
             (l ++ [mkLedgerEntry (trn env) (acc_id fa) debit amt (balance lf - amt)
                      [("description", TransferTo (acc_id ta));
                       ("user_id", MNumber fromUserId);
                       ("counterparty_user_id", MNumber toUserId)] (now env);
                    mkLedgerEntry (trn env) (acc_id ta) credit amt (balance lt + amt)
                      [("description", TransferFrom (acc_id fa));
                       ("user_id", MNumber toUserId);
                       ("counterparty_user_id", MNumber fromUserId)] (now env)])
             = sum_entries credit (trn env) l + amt).
  { intros l. rewrite sum_entries_app. f_equal.
    unfold sum_entries. simpl. rewrite String.eqb_refl. simpl. lia. }
  split; [apply SD |]. split; [apply SC |].
  intros Fresh. rewrite SD, SC.
  rewrite !sum_entries_fresh by exact Fresh.
  split; [| split; reflexivity].
  rewrite filter_app. simpl. rewrite String.eqb_refl.
  replace (filter _ (ledger_entries db)) with (@nil LedgerEntry); [reflexivity |].
  symmetry. clear - Fresh.
  induction (ledger_entries db) as [| e l IH]; simpl; [reflexivity |].
  destruct (String.eqb_spec (transaction_ref e) (trn env)) as [E | NE].
  - exfalso. apply (Fresh e); [left; reflexivity | exact E].
  - apply IH. intros x I. apply Fresh. right. exact I.
Qed.

Lemma find_app {A} (f : A -> bool) (l l' : list A) :
  find f (l ++ l')
  = match find f l with Some x => Some x | None => find f l' end.
Proof.
  induction l as [| a l IH]; simpl; [reflexivity |].
  destruct (f a); auto.
Qed.

(** Blank accounts do not show in what [getBalance] reports. *)
Lemma getBalance_extends ref t u db db' :
  extends db db' ->
  snd (getBalance (reliable ref t) u db') = snd (getBalance (reliable ref t) u db).
Proof.
  intros (_ & _ & new & E & F).
  unfold getBalance, getOrCreateAccount, bind, statement, get, modify, ret.
  simpl. rewrite E, find_app.
  destruct (find _ (accounts db)) as [a |]; simpl; [reflexivity |].
  destruct (find _ new) as [a |] eqn:N; simpl; [| reflexivity].
  apply find_some in N. destruct N as [I _].
  rewrite Forall_forall in F. destruct (F a I) as [B S]. rewrite B, S.
  reflexivity.
Qed.

(** C2. [recordTransfer] is all-or-nothing.  When the call throws, whatever
    the reason (insufficient balance, inactive account, a failing statement,
    a failing commit), no ledger entry and no transaction record is added or
    changed, every existing account row is as it was, and the only rows the
    call may leave behind are the blank accounts opened for the two users, so
    every balance reported by [getBalance] is unchanged.  When the call
    returns, both ledger entries, both balance updates and the completed
    transaction record are all in the store. *)
Theorem recordTransfer_atomic env fromUserId toUserId amt md db db' r :
  recordTransfer env fromUserId toUserId amt md db = (db', r) ->
  (thrown r ->
     ledger_entries db' = ledger_entries db
     /\ transactions db' = transactions db
     /\ (exists new, accounts db' = accounts db ++ new /\ Forall blank new)
     /\ forall ref t u,
          snd (getBalance (reliable ref t) u db')
          = snd (getBalance (reliable ref t) u db))
  /\ (forall res, r = Returned res ->
       exists base fromId toId d c tx,
         extends db base
         /\ accounts db'
            = map (set_balance toId (toNewBalance res) (now env))
                (map (set_balance fromId (fromNewBalance res) (now env))
                   (accounts base))
         /\ ledger_entries db' = ledger_entries db ++ [d; c]
         /\ transactions db' = transactions db ++ [tx]
         /\ account_id d = fromId /\ entry_type d = debit /\ amount d = amt
         /\ balance_after d = fromNewBalance res
         /\ account_id c = toId /\ entry_type c = credit /\ amount c = amt
         /\ balance_after c = toNewBalance res
         /\ tx_status tx = completed /\ tx_amount tx = amt
         /\ tx_transaction_ref tx = transactionRef res
         /\ transaction_ref d = transactionRef res
         /\ transaction_ref c = transactionRef res).
Proof.
  intros H. split.
  - destruct r as [res | e]; simpl; [tauto | intros _].
    rewrite recordTransfer_unfold in H.
    apply knex_transaction_thrown in H;
      [| apply keeps_recordTransfer_callback].
    destruct H as (T & L & N). repeat split; auto.
    intros ref t u. apply getBalance_extends. repeat split; auto.
  - intros res ->. apply recordTransfer_returned in H.
    destruct H as (lf & lt & RF & RT & B & SF & ST & -> & ->).
    rewrite view_transfer.
    set (db1 := snd (opened (now env) fromUserId db)) in *.
    set (db2 := snd (opened (now env) toUserId db1)) in *.
    assert (E : extends db db2).
    { eapply extends_trans; apply opened_extends. }
    exists db2. do 5 eexists. simpl.
    split; [exact E |]. split; [reflexivity |].
    destruct E as (T & L & _). rewrite T, L.
    repeat split; reflexivity.
Qed.

(** A deposit that returns has committed a credit and the new balance. *)
Lemma deposit_returned env userId amt md db db' res :
  deposit env userId amt md db = (db', Returned res) ->
  let account := fst (opened (now env) userId db) in
  let db1 := snd (opened (now env) userId db) in
  exists lockedAccount,
    row (acc_id account) db1 = Some lockedAccount
    /\ newBalance res = balance lockedAccount + amt
    /\ accounts db'
       = map (set_balance (acc_id account) (balance lockedAccount + amt) (now env))
           (accounts db1).
Proof.
  unfold deposit. intros H.
  apply knex_transaction_returned in H. destruct H as (st & C & ->).
  unfold deposit_callback in C.
  apply bind_returned in C. destruct C as (a & s1 & H1 & C).
  apply knex_account_returned in H1. simpl in H1. destruct H1 as [-> ->].
  apply bind_returned in C. destruct C as (rows & s2 & H2 & C).
  apply forUpdate_returned in H2. simpl in H2. destruct H2 as [-> ->].
  unfold view in C. simpl in C.
  set (db1 := snd (opened (now env) userId db)) in *.
  set (account := fst (opened (now env) userId db)) in *.
  destruct (hd_error (filter (fun r => acc_id r =? acc_id account) (accounts db1)))
    as [la |] eqn:LA; [| discriminate].
  apply bind_returned in C. destruct C as (s3 & s3' & H3 & C).
  unfold get in H3. inversion H3; subst s3 s3'; clear H3.
  repeat (apply bind_returned in C;
          let u := fresh "u" in let s := fresh "s" in let W := fresh "W" in
          destruct C as (u & s & W & C);
          apply trx_write_returned in W; simpl in W; subst s).
  unfold ret in C. inversion C; subst.
  exists la. unfold row. rewrite LA. repeat split.
Qed.

(** ** Runs on a healthy database *)

Lemma getOrCreateAccount_healthy env sel ins u db :
  faults env sel = false ->
  faults env ins = false ->
  getOrCreateAccount env sel ins u customer_wallet db
  = (snd (opened (now env) u db), Returned (fst (opened (now env) u db))).
Proof.
  intros F1 F2.
  unfold getOrCreateAccount, opened, bind, statement, get, modify, ret.
  rewrite F1. destruct (find _ _); [reflexivity |]. rewrite F2. reflexivity.
Qed.

(** The rows both calls of [getOrCreateAccount] return are there to lock. *)
Lemma opened_twice t fromUserId toUserId db :
  primary_key db ->
  let fromAccount := fst (opened t fromUserId db) in
  let db1 := snd (opened t fromUserId db) in
  let toAccount := fst (opened t toUserId db1) in
  let db2 := snd (opened t toUserId db1) in
  filter (fun r => acc_id r =? acc_id fromAccount) (accounts db2) = [fromAccount]
  /\ filter (fun r => acc_id r =? acc_id toAccount) (accounts db2) = [toAccount].
Proof.
  intros K fa db1 ta db2.
  assert (K2 : primary_key db2) by (do 2 apply opened_primary_key; exact K).
  destruct (opened_owner t fromUserId db) as (IF & _).
  destruct (opened_owner t toUserId db1) as (IT & _).
  split; apply filter_primary_key; auto.
  apply (extends_member db1); [apply opened_extends | exact IF].
Qed.

Lemma status_eqb_eq a b : status_eqb a b = true <-> a = b.
Proof. destruct a, b; simpl; split; intros H; congruence. Qed.

(** The outcome of [recordTransfer] on a healthy database, on the decimals
    of the embedding. *)
Lemma recordTransfer_decided env fromUserId toUserId amt md db :
  (forall s, faults env s = false) ->
  primary_key db ->
  let fromAccount := fst (opened (now env) fromUserId db) in
  let toAccount :=
    fst (opened (now env) toUserId (snd (opened (now env) fromUserId db))) in
  snd (recordTransfer env fromUserId toUserId amt md db)
  = (if balance fromAccount <? amt
     then Thrown (Error "Insufficient balance")
     else if negb (status_eqb (status fromAccount) active)
     then Thrown (Error "Source account is not active")
     else if negb (status_eqb (status toAccount) active)
     then Thrown (Error "Destination account is not active")
     else Returned (mkTransferResult (trn env) (balance fromAccount - amt)
                      (balance toAccount + amt) (now env))).
Proof.
  intros healthy K fa ta.
  destruct (opened_twice (now env) fromUserId toUserId db K) as [FF FT].
  fold fa ta in FF, FT.
  rewrite recordTransfer_unfold.
  unfold knex_transaction, recordTransfer_callback, bind, knex.
  rewrite !getOrCreateAccount_healthy by apply healthy. simpl.
  unfold forUpdate, trx_write, bind, statement, get, modify, ret, view.
  rewrite !healthy. simpl.
  fold fa. fold ta. rewrite FF, FT. simpl.
  destruct (balance fa <? amt); [reflexivity |].
  destruct (status_eqb (status fa) active); simpl; [| reflexivity].
  destruct (status_eqb (status ta) active); simpl; reflexivity.
Qed.

(** C5 (amended). [recordTransfer] has no check on the sign of [amt].  On a
    healthy database, for an amount and a source balance within [precise],
    its outcome is decided by three tests on the locked rows, in this order:
    it throws "Insufficient balance" exactly when the source balance is
    below [amt]; otherwise "Source account is not active" exactly when the
    source is not [active]; otherwise "Destination account is not active"
    exactly when the destination is not [active]; otherwise it returns,
    under the reference of the call and whatever the sign of [amt].  When it
    throws, no ledger entry, transaction record or balance is changed. *)
Theorem recordTransfer_outcome env fromUserId toUserId amt md db :
  (forall s, faults env s = false) ->
  primary_key db ->
  let fromAccount := fst (opened (now env) fromUserId db) in
  let toAccount :=
    fst (opened (now env) toUserId (snd (opened (now env) fromUserId db))) in
  let run := recordTransfer env fromUserId toUserId amt md db in
  precise amt ->
  precise (balance fromAccount) ->
  (snd run = Thrown (Error "Insufficient balance")
   <-> balance fromAccount < amt)
  /\ (snd run = Thrown (Error "Source account is not active")
      <-> amt <= balance fromAccount /\ status fromAccount <> active)
  /\ (snd run = Thrown (Error "Destination account is not active")
      <-> amt <= balance fromAccount /\ status fromAccount = active
          /\ status toAccount <> active)
  /\ ((exists res, snd run = Returned res)
      <-> amt <= balance fromAccount /\ status fromAccount = active
          /\ status toAccount = active)
  /\ (forall res, snd run = Returned res -> transactionRef res = trn env)
  /\ (thrown (snd run) -> extends db (fst run)).
Proof.
  intros healthy K fa ta run _ _.
  assert (D := recordTransfer_decided env fromUserId toUserId amt md db
                 healthy K).
  cbv zeta in D. fold fa ta run in D.
  assert (T : thrown (snd run) -> extends db (fst run)).
  { subst run. rewrite recordTransfer_unfold.
    destruct (knex_transaction _ _ _) as [db' [res | e]] eqn:H; simpl;
      [tauto | intros _].
    apply knex_transaction_thrown in H;
      [exact H | apply keeps_recordTransfer_callback]. }
  split; [| split; [| split; [| split; [| split; [| exact T]]]]];
    rewrite D; clear D T;
    (destruct (Z.ltb_spec (balance fa) amt) as [B | B];
     [| destruct (status_eqb (status fa) active) eqn:SF;
        [ apply status_eqb_eq in SF;
          destruct (status_eqb (status ta) active) eqn:ST;
          [ apply status_eqb_eq in ST
          | assert (NT : status ta <> active)
              by (intros C; apply status_eqb_eq in C; congruence) ]
        | assert (NF : status fa <> active)
            by (intros C; apply status_eqb_eq in C; congruence) ]]);
    simpl;
    try (intros res H; inversion H; reflexivity);
    (split;
     [ intros H; try discriminate H;
       try (destruct H as (res & H); discriminate H);
       repeat split; solve [lia | assumption]
     | intros H; try reflexivity; try (eexists; reflexivity);
       exfalso; solve [lia | tauto] ]).
Qed.

(** ** The order of the locks *)

Lemma holds_ret {A} (a : A) : holds (ret a).
Proof. intros st st' r H. inversion H. reflexivity. Qed.

Lemma holds_throw {A} e : holds (@throw _ A e).
Proof. intros st st' r H. inversion H. reflexivity. Qed.

Lemma holds_get : holds get.
Proof. intros st st' r H. inversion H. reflexivity. Qed.

Lemma holds_bind {A B} (m : M TrxState A) (f : A -> M TrxState B) :
  holds m -> (forall a, holds (f a)) -> holds (bind m f).
Proof.
  intros Hm Hf st st' r H. unfold bind in H.
  destruct (m st) as [s1 [a | e]] eqn:E.
  - rewrite (Hf _ _ _ _ H). apply (Hm _ _ _ E).
  - inversion H; subst. apply (Hm _ _ _ E).
Qed.

Lemma holds_trx_write env s w : holds (trx_write env s w).
Proof.
  intros st st' [u | e] H.
  - apply trx_write_returned in H. subst. reflexivity.
  - apply trx_write_thrown in H. subst. reflexivity.
Qed.

Ltac holds_step :=
  first
    [ apply holds_ret | apply holds_throw | apply holds_get
    | apply holds_trx_write
    | apply holds_bind; [| intros ?]
    | match goal with
      | |- holds (match ?x with _ => _ end) => destruct x
      end ].

Lemma recordTransfer_callback_locks env fromUserId toUserId amt md db st r :
  primary_key db ->
  recordTransfer_callback env fromUserId toUserId amt md (mkTrx db [] [])
  = (st, r) ->
  let sender := acc_id (fst (opened (now env) fromUserId db)) in
  let receiver :=
    acc_id (fst (opened (now env) toUserId
                   (snd (opened (now env) fromUserId db)))) in
  held st = [] \/ held st = [sender] \/ held st = [sender; receiver].
Proof.
  intros K C sender receiver.
  destruct (opened_twice (now env) fromUserId toUserId db K) as [FF FT].
  unfold recordTransfer_callback in C.
  apply bind_cases in C. destruct C as [(e & C) | (fa & s1 & C1 & C)].
  { apply knex_account_thrown in C. subst st. left. reflexivity. }
  apply knex_account_returned in C1. simpl in C1. destruct C1 as [-> ->].
  apply bind_cases in C. destruct C as [(e & C) | (ta & s2 & C2 & C)].
  { apply knex_account_thrown in C. subst st. left. reflexivity. }
  apply knex_account_returned in C2. simpl in C2. destruct C2 as [-> ->].
  apply bind_cases in C. destruct C as [(e & C) | (rf & s3 & C3 & C)].
  { apply forUpdate_thrown in C. subst st. left. reflexivity. }
  apply forUpdate_returned in C3. unfold view in C3. simpl in C3.
  destruct C3 as [-> ->]. rewrite FF in C.
  apply bind_cases in C. destruct C as [(e & C) | (rt & s4 & C4 & C)].
  { apply forUpdate_thrown in C. subst st. right. left. reflexivity. }
  apply forUpdate_returned in C4. unfold view in C4. simpl in C4.
  destruct C4 as [-> ->]. rewrite FT in C.
  right. right.
  match type of C with
  | ?k _ = _ => assert (H : holds k) by (repeat holds_step)
  end.
  apply H in C. exact C.
Qed.

(** C7 (amended). [recordTransfer] takes its row locks in request order: the
    sender's account first, the receiver's account second, whatever their
    identifiers.  A call that fails early holds none or only the sender's;
    on a healthy database it holds both. *)
Theorem recordTransfer_lock_order env fromUserId toUserId amt md db :
  primary_key db ->
  let sender := acc_id (fst (opened (now env) fromUserId db)) in
  let receiver :=
    acc_id (fst (opened (now env) toUserId
                   (snd (opened (now env) fromUserId db)))) in
  let locks := lock_order env fromUserId toUserId amt md db in
  (locks = [] \/ locks = [sender] \/ locks = [sender; receiver])
  /\ ((forall s, faults env s = false) -> locks = [sender; receiver]).
Proof.
  intros K sender receiver locks. split.
  - subst locks. unfold lock_order.
    destruct (recordTransfer_callback _ _ _ _ _ _) as [st r] eqn:C. simpl.
    apply (recordTransfer_callback_locks _ _ _ _ _ _ _ _ K C).
  - intros healthy.
    destruct (opened_twice (now env) fromUserId toUserId db K) as [FF FT].
    subst locks sender receiver. unfold lock_order.
    unfold recordTransfer_callback, bind, knex.
    rewrite !getOrCreateAccount_healthy by apply healthy. simpl.
    unfold forUpdate, trx_write, bind, statement, get, modify, ret, view.
    rewrite !healthy. simpl. rewrite FF, FT. simpl.
    destruct (balance _ <? amt); [reflexivity |].
    destruct (status_eqb (status _) active); simpl; [| reflexivity].
    destruct (status_eqb (status _) active); simpl; reflexivity.
Qed.

(** C4 (amended). For every amount that is not negative, [recordTransfer] and
    [deposit] keep every account balance at or above zero, whether they
    return or throw. *)
Theorem balances_stay_nonnegative env fromUserId toUserId userId amt md db :
  0 <= amt ->
  nonnegative db ->
  nonnegative (fst (recordTransfer env fromUserId toUserId amt md db))
  /\ nonnegative (fst (deposit env userId amt md db)).
Proof.
  intros A N. split.
  - destruct (recordTransfer _ _ _ _ _ _) as [db' [res | e]] eqn:H; simpl.
    + apply recordTransfer_returned in H.
      destruct H as (lf & lt & RF & RT & B & SF & ST & _ & ->).
      rewrite view_transfer. unfold nonnegative. simpl.
      assert (N2 : nonnegative
                     (snd (opened (now env) toUserId
                             (snd (opened (now env) fromUserId db))))).
      { do 2 (eapply extends_nonnegative; [apply opened_extends |]). exact N. }
      apply row_member in RT. unfold nonnegative in N2.
      rewrite Forall_forall in N2. pose proof (N2 lt RT) as BT.
      apply set_balance_nonnegative; [lia |].
      apply set_balance_nonnegative; [lia |].
      rewrite Forall_forall. exact N2.
    + rewrite recordTransfer_unfold in H.
      apply knex_transaction_thrown in H;
        [| apply keeps_recordTransfer_callback].
      eapply extends_nonnegative; eassumption.
  - destruct (deposit _ _ _ _ _) as [db' [res | e]] eqn:H; simpl.
    + apply deposit_returned in H. destruct H as (la & R & _ & E).
      unfold nonnegative. rewrite E.
      assert (N1 : nonnegative (snd (opened (now env) userId db))).
      { eapply extends_nonnegative; [apply opened_extends | exact N]. }
      apply row_member in R. unfold nonnegative in N1.
      rewrite Forall_forall in N1. pose proof (N1 la R) as BL.
      apply set_balance_nonnegative; [lia |].
      rewrite Forall_forall. exact N1.
    + unfold deposit in H.
      apply knex_transaction_thrown in H; [| apply keeps_deposit_callback].
      eapply extends_nonnegative; eassumption.
Qed.

Lemma sum_case_type ty (es : list LedgerEntry) :
  fold_right Z.add 0
    (map (fun e => if entry_type_eqb (entry_type e) ty then amount e else 0) es)
  = sum_type ty es.
Proof.
  unfold sum_type. induction es as [| e es IH]; simpl; [reflexivity |].
  destruct (entry_type_eqb (entry_type e) ty); simpl; lia.
Qed.


(** ** Runs on the sample data *)

Lemma recordTransfer_double_entry_witness :
  snd (recordTransfer Sample.env 10 20 (PKR 3000) [] Sample.db)
  = Returned (mkTransferResult (trn Sample.env) (PKR 7000) (PKR 3500) Sample.noon)
  /\ exists d c,
       ledger_entries (fst (recordTransfer Sample.env 10 20 (PKR 3000) [] Sample.db))
       = [d; c]
       /\ amount d = PKR 3000 /\ amount c = PKR 3000.
Proof.
  assert (E : recordTransfer Sample.env 10 20 (PKR 3000) [] Sample.db
              = (fst (recordTransfer Sample.env 10 20 (PKR 3000) [] Sample.db),
                 Returned (mkTransferResult (trn Sample.env) (PKR 7000) (PKR 3500)
                             Sample.noon)))
    by (vm_compute; reflexivity).
  split; [rewrite E; reflexivity |].
  destruct (recordTransfer_double_entry _ _ _ _ _ _ _ _ E)
    as (d & c & L & _ & _ & _ & _ & _ & AD & AC & _).
  exists d, c. auto.
Defined.

Lemma recordTransfer_atomic_witness :
  thrown (snd (recordTransfer Sample.env 10 20 (PKR 20000) [] Sample.db))
  /\ ledger_entries (fst (recordTransfer Sample.env 10 20 (PKR 20000) [] Sample.db))
     = ledger_entries Sample.db
  /\ transactions (fst (recordTransfer Sample.env 10 20 (PKR 20000) [] Sample.db))
     = transactions Sample.db.
Proof.
  assert (E : recordTransfer Sample.env 10 20 (PKR 20000) [] Sample.db
              = (fst (recordTransfer Sample.env 10 20 (PKR 20000) [] Sample.db),
                 Thrown (Error "Insufficient balance")))
    by (vm_compute; reflexivity).
  destruct (recordTransfer_atomic _ _ _ _ _ _ _ _ E) as [T _].
  rewrite E at 1. simpl. split; [exact I |].
  destruct (T I) as (L & X & _). auto.
Defined.

Lemma primary_key_sample : primary_key Sample.db.
Proof.
  unfold primary_key. simpl.
  constructor; [simpl; intros [H | []]; discriminate |].
  constructor; [simpl; tauto | constructor].
Defined.

Lemma recordTransfer_outcome_witness :
  (forall s, faults Sample.env s = false)
  /\ primary_key Sample.db
  /\ precise (PKR 20000)
  /\ precise (balance (fst (opened (now Sample.env) 10 Sample.db)))
  /\ balance (fst (opened (now Sample.env) 10 Sample.db)) < PKR 20000
  /\ snd (recordTransfer Sample.env 10 20 (PKR 20000) [] Sample.db)
     = Thrown (Error "Insufficient balance").
Proof.
  assert (P1 : precise (PKR 20000)) by (vm_compute; discriminate).
  assert (P2 : precise (balance (fst (opened (now Sample.env) 10 Sample.db))))
    by (vm_compute; discriminate).
  assert (B : balance (fst (opened (now Sample.env) 10 Sample.db)) < PKR 20000)
    by (vm_compute; reflexivity).
  split; [intros s; reflexivity |].
  split; [exact primary_key_sample |].
  split; [exact P1 |]. split; [exact P2 |]. split; [exact B |].
  destruct (recordTransfer_outcome Sample.env 10 20 (PKR 20000) [] Sample.db
              (fun _ => eq_refl) primary_key_sample P1 P2) as [H _].
  apply H. exact B.
Defined.

Lemma recordTransfer_lock_order_witness :
  primary_key Sample.db
  /\ (forall s, faults Sample.env s = false)
  /\ lock_order Sample.env 20 10 (PKR 100) [] Sample.db = [2; 1].
Proof.
  split; [exact primary_key_sample |].
  split; [intros s; reflexivity |].
  destruct (recordTransfer_lock_order Sample.env 20 10 (PKR 100) [] Sample.db
              primary_key_sample) as [_ H].
  rewrite (H (fun _ => eq_refl)). vm_compute. reflexivity.
Defined.

Lemma nonnegative_sample : nonnegative Sample.db.
Proof.
  unfold nonnegative. simpl.
  constructor; [simpl; discriminate |].
  constructor; [simpl; discriminate | constructor].
Defined.

Lemma balances_stay_nonnegative_witness :
  0 <= PKR 3000
  /\ nonnegative Sample.db
  /\ nonnegative (fst (recordTransfer Sample.env 10 20 (PKR 3000) [] Sample.db))
  /\ nonnegative (fst (deposit Sample.env 20 (PKR 3000) [] Sample.db)).
Proof.
  assert (P : 0 <= PKR 3000) by discriminate.
  split; [exact P |]. split; [exact nonnegative_sample |].
  exact (balances_stay_nonnegative Sample.env 10 20 20 (PKR 3000) [] Sample.db
           P nonnegative_sample).
Defined.


(** C4, as stated, fails: a negative amount passes the balance check of
    [recordTransfer] and takes the receiver from 500 rupees to -2,500;
    [deposit] has no check and does the same. *)
Lemma negative_amount_overdraws :
  nonnegative Sample.db
  /\ ~ nonnegative (fst (recordTransfer Sample.env 10 20 (PKR (-3000)) [] Sample.db))
  /\ ~ nonnegative (fst (deposit Sample.env 20 (PKR (-3000)) [] Sample.db)).
Proof.
  split; [exact nonnegative_sample |].
  split; intros N; unfold nonnegative in N; rewrite Forall_forall in N.
  - specialize (N (mkAccount 2 20 customer_wallet (PKR (-2500)) active Sample.noon)).
    apply N; [vm_compute; auto | reflexivity].
  - specialize (N (mkAccount 2 20 customer_wallet (PKR (-2500)) active Sample.noon)).
    apply N; [vm_compute; auto | reflexivity].
Qed.

(** C5, as stated, fails: calls with amount zero and with a negative amount
    return instead of throwing. *)
Lemma nonpositive_amount_accepted :
  snd (recordTransfer Sample.env 10 20 0 [] Sample.db)
  = Returned (mkTransferResult (trn Sample.env) (PKR 10000) (PKR 500) Sample.noon)
  /\ snd (recordTransfer Sample.env 10 20 (PKR (-3000)) [] Sample.db)
     = Returned (mkTransferResult (trn Sample.env) (PKR 13000) (PKR (-2500))
                  Sample.noon).
Proof. split; vm_compute; reflexivity. Qed.

(** C7, as stated, fails: the two directions of a transfer between accounts 1
    and 2 take the same two locks in opposite orders. *)
Lemma lock_order_follows_direction :
  lock_order Sample.env 10 20 (PKR 100) [] Sample.db = [1; 2]
  /\ lock_order Sample.env 20 10 (PKR 100) [] Sample.db = [2; 1].
Proof. split; vm_compute; reflexivity. Qed.


End LedgerFacts.

(** * Facts about the limit tracker *)

Section LimitsFacts.

Import Limits.

Variable initialize_user_limits : UserId -> DB -> DB.

(** The counter the daily ceiling is compared with: it is fresh exactly when
    the day of the month of the check differs from that of the stored reset
    timestamp. *)
Lemma checkTransactionLimits_daily_counter env userId amt db row rest st r :
  limitsQuery userId db = row :: rest ->
  checkTransactionLimits initialize_user_limits env userId amt db
  = (st, Returned r) ->
  spent_daily (limits r)
  = if getDate (now env) =? getDate (daily_reset_at row)
    then daily_spent row else 0.
Proof.
  intros Q H. unfold checkTransactionLimits in H.
  apply bind_returned in H. destruct H as (? & s1 & H1 & H).
  apply statement_returned in H1. destruct H1 as [-> _].
  apply bind_returned in H. destruct H as (d & s2 & H2 & H).
  unfold get in H2. inversion H2; subst d s2; clear H2.
  rewrite Q in H.
  apply bind_returned in H. destruct H as (rows & s2 & H2 & H).
  unfold ret in H2. inversion H2; subst rows s2; clear H2.
  simpl hd_error in H. cbv beta iota zeta in H.
  set (counter := if getDate (now env) =? getDate (daily_reset_at row)
                  then daily_spent row else 0).
  apply bind_returned in H. destruct H as (ul1 & s3 & H3 & H).
  assert (D : daily_spent ul1 = counter /\ kyc_level ul1 = kyc_level row).
  { unfold counter. destruct (getDate (now env) =? getDate (daily_reset_at row));
      simpl in H3.
    - inversion H3; auto.
    - unfold bind, statement, modify, ret in H3.
      destruct (faults env ResetDaily); inversion H3; auto. }
  clear H3. destruct D as [D K].
  apply bind_returned in H. destruct H as (ul2 & s4 & H4 & H).
  assert (D2 : daily_spent ul2 = counter).
  { destruct (negb _ || negb _); simpl in H4.
    - unfold bind, statement, modify, ret in H4.
      destruct (faults env ResetMonthly); inversion H4; auto.
    - inversion H4; subst; auto. }
  clear H4.
  assert (F : forall s s' l, @formatLimitsResponse DB ul2 s = (s', Returned l) ->
                             spent_daily l = counter).
  { intros s s' l. unfold formatLimitsResponse.
    destruct (KYC_LIMITS (kyc_level ul2)); intros E; inversion E. exact D2. }
  repeat match type of H with
         | (if ?c then _ else _) _ = _ => destruct c
         end;
    apply bind_returned in H; destruct H as (l & s5 & H5 & H);
    apply F in H5; inversion H; subst; exact H5.
Qed.

End LimitsFacts.

(** C6, at the failing input.  The stored daily reset timestamp is 15 January
    and the check comes on 15 February, a strictly later calendar day with
    the same day of the month: the daily counter is not reset, the check is
    made against January's 25,000 rupees and a payment of 100 rupees is
    refused, and the stored counter stays at 25,000. *)
Theorem daily_reset_missed_on_same_day_of_month :
  let stored := Limits.ul_daily_reset_at Sample.limits_row in
  let checked := now Sample.a_month_later in
  (getFullYear stored, getMonth stored, getDate stored) = (2024, 0, 15)
  /\ (getFullYear checked, getMonth checked, getDate checked) = (2024, 1, 15)
  /\ day_before stored checked
  /\ exists st r,
       Limits.checkTransactionLimits Sample.no_initialization Sample.a_month_later
         10 (PKR 100) Sample.limits_db
       = (st, Returned r)
       /\ Limits.allowed r = false
       /\ Limits.reason r = Some (Limits.DailyExceeded 0)
       /\ Limits.spent_daily (Limits.limits r) = PKR 25000
       /\ Limits.spent_monthly (Limits.limits r) = 0
       /\ map Limits.ul_daily_spent (Limits.user_limits st) = [PKR 25000].
Proof.
  cbv zeta. split; [vm_compute; reflexivity |].
  split; [vm_compute; reflexivity |].
  split; [vm_compute; reflexivity |].
  eexists. eexists. split; [vm_compute; reflexivity |].
  repeat split; vm_compute; reflexivity.
Qed.

(** * Facts about transaction monitoring *)

Lemma shouldBlockTransaction_blocking alerts :
  Monitoring.shouldBlockTransaction alerts = true
  <-> exists a, In a alerts /\ MonitoringSpec.blocking a.
Proof.
  unfold Monitoring.shouldBlockTransaction, MonitoringSpec.blocking.
  rewrite existsb_exists. split.
  - intros (a & I & H). exists a. split; [exact I |].
    apply andb_true_iff in H. destruct H as [S T].
    apply String.eqb_eq in S. split; [exact S |].
    simpl in T. rewrite !orb_true_iff in T.
    destruct T as [T | [T | [T | T]]]; try discriminate;
      apply String.eqb_eq in T; auto.
  - intros (a & I & S & T). exists a. split; [exact I |].
    apply andb_true_iff. split; [apply String.eqb_eq; exact S |].
    simpl. rewrite !orb_true_iff.
    destruct T as [T | [T | T]]; rewrite T; rewrite String.eqb_refl; auto.
Qed.

Section MonitoringFacts.

Import Monitoring MonitoringSpec.

Variable env : Env.

(** C10. The amount check yields at most one alert.  At or above the CTR
    threshold it files the CTR and returns the [CTR_REQUIRED] alert of
    severity [HIGH], never a [LARGE_TRANSACTION] alert; it returns the
    [LARGE_TRANSACTION] alert, of severity [MEDIUM], exactly when the
    amount is at or above the account-type threshold and strictly below the
    CTR threshold; below both it returns no alert. *)
Theorem checkTransactionAmount_thresholds transaction riskProfile st :
  let run := checkTransactionAmount env transaction riskProfile st in
  let ctr := ctr_threshold largeTransaction in
  let threshold := large_threshold riskProfile in
  (forall result, snd run = Returned result ->
     (List.length (push [] result) <= 1)%nat)
  /\ (ctr <= amount transaction ->
      (faults env InsertCTR = false ->
         snd run = Returned (Some (ctr_alert transaction))
         /\ currency_transaction_reports (fst run)
            = currency_transaction_reports st
              ++ [mkCTR (transactionRef transaction) (userId transaction)
                    (amount transaction) ctr])
      /\ (forall a, snd run = Returned (Some a) ->
            type a = "CTR_REQUIRED" /\ severity a = "HIGH"))
  /\ (threshold <= amount transaction < ctr ->
      run = (st, Returned (Some (large_alert transaction riskProfile))))
  /\ (amount transaction < threshold -> amount transaction < ctr ->
      run = (st, Returned None))
  /\ (forall a, snd run = Returned (Some a) -> type a = "LARGE_TRANSACTION" ->
        severity a = "MEDIUM" /\ threshold <= amount transaction < ctr).
Proof.
  intros run ctr threshold. subst run.
  unfold checkTransactionAmount. fold (large_threshold riskProfile).
  fold threshold. fold ctr.
  destruct (Z.leb_spec ctr (amount transaction)) as [C | C].
  - unfold generateCTR, bind, statement, modify, ret.
    destruct (faults env InsertCTR); simpl.
    + repeat split; try discriminate; try lia.
    + split; [intros result E; inversion E; simpl; lia |].
      split; [intros _; split; [intros _; split; reflexivity |] |].
      { intros a E. inversion E. split; reflexivity. }
      split; [lia |]. split; [lia |].
      intros a E T. inversion E; subst. discriminate.
  - destruct (Z.leb_spec threshold (amount transaction)) as [T | T].
    + unfold ret. simpl.
      split; [intros result E; inversion E; simpl; lia |].
      split; [lia |]. split; [reflexivity |]. split; [lia |].
      intros a E _. inversion E. split; [reflexivity | lia].
    + unfold ret. simpl.
      split; [intros result E; inversion E; simpl; lia |].
      split; [lia |]. split; [lia |]. split; [reflexivity |].
      intros a E. discriminate.
Qed.

(** ** The pipeline *)

Let evaluate := evaluateRules env.

Let monitor := monitorTransaction env.

Lemma handler_never_blocks transaction e st st' res :
  (logMonitoringError env transaction e ;;; ret (mkResult false [] true)) st
  = (st', Returned res) ->
  res = mkResult false [] true.
Proof.
  unfold logMonitoringError, bind, statement, modify, ret.
  destruct (faults env InsertMonitoringError); intros H; inversion H.
  reflexivity.
Qed.

Lemma handler_run transaction e st :
  (logMonitoringError env transaction e ;;; ret (mkResult false [] true)) st
  = if faults env InsertMonitoringError
    then (st, Thrown (DatabaseError InsertMonitoringError))
    else (logged transaction e st, Returned (mkResult false [] true)).
Proof.
  unfold logMonitoringError, bind, statement, modify, ret.
  destruct (faults env InsertMonitoringError); reflexivity.
Qed.

(** The dormant-account rule throws wherever it is called. *)
Lemma checkDormantAccount_thrown userId transaction st :
  checkDormantAccount userId transaction st
  = (st, Thrown (DatabaseError SelectLastActivity)).
Proof. reflexivity. Qed.

Lemma bind_never_returns {A B} (m : M Store A) (f : A -> M Store B) st :
  (forall a s, exists s' e, f a s = (s', Thrown e)) ->
  exists s' e, bind m f st = (s', Thrown e).
Proof.
  intros F. unfold bind. destruct (m st) as [s1 [a | e]].
  - apply F.
  - exists s1, e. reflexivity.
Qed.

(** So the evaluation of the rules never gets past its fifth rule. *)
Lemma evaluateRules_thrown transaction st :
  exists st1 e, evaluate transaction st = (st1, Thrown e).
Proof.
  unfold evaluate, evaluateRules.
  do 5 (apply bind_never_returns; intros ? ?).
  unfold bind at 1. rewrite checkDormantAccount_thrown.
  eexists. eexists. reflexivity.
Qed.

Lemma monitor_after_failure transaction st st1 e :
  evaluate transaction st = (st1, Thrown e) ->
  monitor transaction st
  = (logMonitoringError env transaction e ;;;
     ret (mkResult false [] true)) st1.
Proof.
  intros E. unfold monitor, monitorTransaction, try_catch. unfold bind at 1.
  fold evaluate. rewrite E. reflexivity.
Qed.

(** C8 (amended). When a rule evaluator throws, the whole evaluation is
    abandoned: [monitorTransaction] logs the error and returns
    [{ blocked: false, alerts: [], error: true }], so the alerts of the
    other evaluators are not returned and nothing is blocked; the only
    other outcome is that logging the error throws in its turn. *)
Theorem monitorTransaction_fails_open transaction st st1 e :
  evaluate transaction st = (st1, Thrown e) ->
  (faults env InsertMonitoringError = false ->
     monitor transaction st
     = (logged transaction e st1, Returned (mkResult false [] true)))
  /\ (faults env InsertMonitoringError = true ->
      monitor transaction st
      = (st1, Thrown (DatabaseError InsertMonitoringError)))
  /\ (forall res,
        snd (monitor transaction st) = Returned res ->
        res = mkResult false [] true).
Proof.
  intros E. rewrite (monitor_after_failure _ _ _ _ E). split; [| split].
  - intros F. unfold logMonitoringError, bind, statement, modify, ret.
    rewrite F. reflexivity.
  - intros F. unfold logMonitoringError, bind, statement, modify, ret.
    rewrite F. reflexivity.
  - intros res H.
    destruct (bind _ _ st1) as [s2 r] eqn:B. simpl in H. subst r.
    apply handler_never_blocks in B. exact B.
Qed.

End MonitoringFacts.

(** ** Runs on the sample data *)

Lemma checkTransactionAmount_thresholds_witness :
  Monitoring.ctr_threshold Monitoring.largeTransaction
  <= Monitoring.amount Sample.large_payment
  /\ faults Sample.env InsertCTR = false
  /\ snd (Monitoring.checkTransactionAmount Sample.env Sample.large_payment
            (Monitoring.mkRiskProfile "personal" "LOW") Sample.store)
     = Returned (Some (MonitoringSpec.ctr_alert Sample.large_payment)).
Proof.
  assert (C : Monitoring.ctr_threshold Monitoring.largeTransaction
              <= Monitoring.amount Sample.large_payment) by discriminate.
  split; [exact C |]. split; [reflexivity |].
  destruct (checkTransactionAmount_thresholds Sample.env Sample.large_payment
              (Monitoring.mkRiskProfile "personal" "LOW") Sample.store)
    as (_ & H & _).
  destruct (H C) as (G & _). destruct (G eq_refl) as (R & _). exact R.
Defined.

Lemma monitorTransaction_fails_open_witness :
  snd (Monitoring.evaluateRules Sample.env Sample.fourth_payment Sample.store)
  = Thrown (DatabaseError SelectLastActivity)
  /\ faults Sample.env InsertMonitoringError = false
  /\ snd (Monitoring.monitorTransaction Sample.env Sample.fourth_payment
            Sample.store)
     = Returned (Monitoring.mkResult false [] true).
Proof.
  assert (E : Monitoring.evaluateRules Sample.env Sample.fourth_payment
                Sample.store
              = (Sample.store, Thrown (DatabaseError SelectLastActivity)))
    by (vm_compute; reflexivity).
  split; [rewrite E; reflexivity |]. split; [reflexivity |].
  destruct (monitorTransaction_fails_open _ _ _ _ _ E) as (H & _).
  rewrite (H eq_refl). reflexivity.
Defined.

(** C3 (defect of the code).  [shouldBlockTransaction] holds exactly of the
    lists with a [CRITICAL] alert of type [SANCTIONS_HIT], [STRUCTURING] or
    [DECEASED], but [monitorTransaction] never gets to apply it: the
    dormant-account rule throws on every call, so whatever the transaction
    and the tables, the evaluation of the rules throws and
    [monitorTransaction] either returns
    [{ blocked: false, alerts: [], error: true }] or throws the error of the
    failed logging.  On the sample data the fourth payment of 495,000 rupees
    makes the structuring rule raise its [CRITICAL] [STRUCTURING] alert, the
    alerts raised up to there are a list [shouldBlockTransaction] blocks, and
    the payment is answered with [blocked = false] and no alert; the payment
    to a listed name, which the sanctions rule taken alone reports, is
    answered likewise. *)
Theorem monitorTransaction_never_blocks :
  (forall alerts,
     Monitoring.shouldBlockTransaction alerts = true
     <-> exists a, In a alerts /\ MonitoringSpec.blocking a)
  /\ (forall env transaction st,
        exists st1 e,
          Monitoring.evaluateRules env transaction st = (st1, Thrown e)
          /\ Monitoring.monitorTransaction env transaction st
             = if faults env InsertMonitoringError
               then (st1, Thrown (DatabaseError InsertMonitoringError))
               else (MonitoringSpec.logged transaction e st1,
                     Returned (Monitoring.mkResult false [] true)))
  /\ (Monitoring.checkVelocity Sample.env 10 Sample.fourth_payment Sample.store
      = (Sample.store, Returned (Some Sample.velocity_alert))
      /\ Monitoring.detectStructuring Sample.env 10 Sample.fourth_payment
           Sample.store
         = (Sample.store, Returned (Some Sample.structuring_alert))
      /\ Monitoring.shouldBlockTransaction
           [Sample.velocity_alert; Sample.structuring_alert] = true
      /\ snd (Monitoring.monitorTransaction Sample.env Sample.fourth_payment
                Sample.store)
         = Returned (Monitoring.mkResult false [] true))
  /\ (Monitoring.checkSanctionsRealTime Sample.env Sample.listed_payment
        Sample.store
      = (Sample.store, Returned (Some Sample.sanctions_alert))
      /\ Monitoring.shouldBlockTransaction [Sample.sanctions_alert] = true
      /\ snd (Monitoring.monitorTransaction Sample.env Sample.listed_payment
                Sample.store)
         = Returned (Monitoring.mkResult false [] true)).
Proof.
  split; [apply shouldBlockTransaction_blocking |]. split.
  - intros env transaction st.
    destruct (evaluateRules_thrown env transaction st) as (st1 & e & E).
    exists st1, e. split; [exact E |].
    rewrite (monitor_after_failure _ _ _ _ _ E). apply handler_run.
  - split; repeat split; vm_compute; reflexivity.
Qed.

(** C8, as stated, fails: on the fourth payment the velocity and structuring
    rules produce their alerts, the dormant-account rule throws, and the
    pipeline returns none of them. *)
Lemma failing_evaluator_discards_other_alerts :
  Monitoring.checkVelocity Sample.env 10 Sample.fourth_payment Sample.store
  = (Sample.store, Returned (Some Sample.velocity_alert))
  /\ Monitoring.detectStructuring Sample.env 10 Sample.fourth_payment
       Sample.store
     = (Sample.store, Returned (Some Sample.structuring_alert))
  /\ Monitoring.checkDormantAccount 10 Sample.fourth_payment
       Sample.store
     = (Sample.store, Thrown (DatabaseError SelectLastActivity))
  /\ Monitoring.monitorTransaction Sample.env Sample.fourth_payment
       Sample.store
     = (MonitoringSpec.logged Sample.fourth_payment
          (DatabaseError SelectLastActivity) Sample.store,
        Returned (Monitoring.mkResult false [] true)).
Proof. repeat split; vm_compute; reflexivity. Qed.

(** * Further facts about transaction monitoring *)

Section RuleFacts.

Import Monitoring MonitoringSpec MonitoringMore.

Variable env : Env.

Ltac run_rule H :=
  repeat
    match type of H with
    | context [faults env ?s] => destruct (faults env s)
    | context [if ?c then _ else _] => destruct c
    | context [match ?c with _ => _ end] => destruct c
    end.

Ltac known_alert :=
  unfold known, produced; simpl; tauto.

Lemma checkTransactionAmount_known transaction riskProfile st st' a :
  checkTransactionAmount env transaction riskProfile st = (st', Returned (Some a)) ->
  known a.
Proof.
  unfold checkTransactionAmount, generateCTR, bind, statement, modify, ret.
  intros H. run_rule H; inversion H; known_alert.
Qed.

Lemma checkVelocity_known userId transaction st st' a :
  checkVelocity env userId transaction st = (st', Returned (Some a)) -> known a.
Proof.
  unfold checkVelocity, bind, statement, get, ret.
  intros H. run_rule H; inversion H; known_alert.
Qed.

Lemma detectStructuring_known userId transaction st st' a :
  detectStructuring env userId transaction st = (st', Returned (Some a)) ->
  known a.
Proof.
  unfold detectStructuring, bind, statement, get, ret.
  intros H. run_rule H; inversion H; known_alert.
Qed.

Lemma detectSuspiciousPatterns_known userId transaction st st' l :
  detectSuspiciousPatterns env userId transaction st = (st', Returned l) ->
  Forall known l.
Proof.
  unfold detectSuspiciousPatterns, bind, statement, get, ret.
  intros H. run_rule H; inversion H; simpl;
    repeat (constructor; [known_alert |]); constructor.
Qed.

Lemma checkDormantAccount_known userId transaction st st' a :
  checkDormantAccount userId transaction st = (st', Returned (Some a)) ->
  known a.
Proof. rewrite checkDormantAccount_thrown. discriminate. Qed.

Lemma checkSanctionsRealTime_known transaction st st' a :
  checkSanctionsRealTime env transaction st = (st', Returned (Some a)) ->
  known a.
Proof.
  unfold checkSanctionsRealTime, bind, statement, get, ret.
  intros H. run_rule H; inversion H; known_alert.
Qed.

Lemma checkGeographicRisk_known transaction st st' a :
  checkGeographicRisk transaction st = (st', Returned (Some a)) -> known a.
Proof.
  unfold checkGeographicRisk, ret.
  intros H. run_rule H; inversion H; known_alert.
Qed.

Lemma checkPEPTransaction_known userId transaction st st' a :
  checkPEPTransaction env userId transaction st = (st', Returned (Some a)) ->
  known a.
Proof.
  unfold checkPEPTransaction, bind, statement, get, ret.
  intros H. run_rule H; inversion H; known_alert.
Qed.

(** X1. Every alert a rule evaluator returns has one of the twelve types the
    rules build, with the severity that goes with it.  None has type
    [DECEASED]: of the alerts [shouldBlockTransaction] looks for, the rules
    can raise those of type [SANCTIONS_HIT] and [STRUCTURING] only. *)
Theorem rules_raise_known_alerts userId transaction st st' a :
  (exists riskProfile,
     checkTransactionAmount env transaction riskProfile st
     = (st', Returned (Some a)))
  \/ checkVelocity env userId transaction st = (st', Returned (Some a))
  \/ detectStructuring env userId transaction st = (st', Returned (Some a))
  \/ (exists l,
        detectSuspiciousPatterns env userId transaction st = (st', Returned l)
        /\ In a l)
  \/ checkDormantAccount userId transaction st = (st', Returned (Some a))
  \/ checkSanctionsRealTime env transaction st = (st', Returned (Some a))
  \/ checkGeographicRisk transaction st = (st', Returned (Some a))
  \/ checkPEPTransaction env userId transaction st = (st', Returned (Some a)) ->
  known a
  /\ type a <> "DECEASED"
  /\ (blocking a -> type a = "SANCTIONS_HIT" \/ type a = "STRUCTURING").
Proof.
  intros H.
  assert (K : known a).
  { destruct H as [(rp & H) | [H | [H | [(l & H & I) | [H | [H | [H | H]]]]]]];
      eauto using checkTransactionAmount_known, checkVelocity_known,
        detectStructuring_known, checkDormantAccount_known,
        checkSanctionsRealTime_known, checkGeographicRisk_known,
        checkPEPTransaction_known.
    apply detectSuspiciousPatterns_known in H.
    rewrite Forall_forall in H. apply H. exact I. }
  assert (D : type a <> "DECEASED").
  { intros E. unfold known, produced in K. rewrite E in K. simpl in K.
    repeat (destruct K as [K | K]; [discriminate |]). exact K. }
  split; [exact K |]. split; [exact D |].
  intros (_ & [T | [T | T]]); auto. contradiction.
Qed.

(** ** What the rules write *)

Lemma readonly_getCustomerRiskProfile userId :
  readonly (getCustomerRiskProfile env userId).
Proof.
  intros st st' r. unfold getCustomerRiskProfile, bind, statement, get, ret.
  intros H. run_rule H; inversion H; reflexivity.
Qed.

Lemma readonly_checkVelocity userId transaction :
  readonly (checkVelocity env userId transaction).
Proof.
  intros st st' r. unfold checkVelocity, bind, statement, get, ret.
  intros H. run_rule H; inversion H; reflexivity.
Qed.

Lemma readonly_detectStructuring userId transaction :
  readonly (detectStructuring env userId transaction).
Proof.
  intros st st' r. unfold detectStructuring, bind, statement, get, ret.
  intros H. run_rule H; inversion H; reflexivity.
Qed.

Lemma readonly_detectSuspiciousPatterns userId transaction :
  readonly (detectSuspiciousPatterns env userId transaction).
Proof.
  intros st st' r. unfold detectSuspiciousPatterns, bind, statement, get, ret.
  intros H. run_rule H; inversion H; reflexivity.
Qed.

Lemma readonly_checkDormantAccount userId transaction :
  readonly (checkDormantAccount userId transaction).
Proof.
  intros st st' r. rewrite checkDormantAccount_thrown.
  intros H. inversion H. reflexivity.
Qed.

Lemma readonly_checkSanctionsRealTime transaction :
  readonly (checkSanctionsRealTime env transaction).
Proof.
  intros st st' r. unfold checkSanctionsRealTime, bind, statement, get, ret.
  intros H. run_rule H; inversion H; reflexivity.
Qed.

Lemma readonly_checkGeographicRisk transaction :
  readonly (checkGeographicRisk transaction).
Proof.
  intros st st' r. unfold checkGeographicRisk, ret.
  intros H. run_rule H; inversion H; reflexivity.
Qed.

Lemma readonly_checkPEPTransaction userId transaction :
  readonly (checkPEPTransaction env userId transaction).
Proof.
  intros st st' r. unfold checkPEPTransaction, bind, statement, get, ret.
  intros H. run_rule H; inversion H; reflexivity.
Qed.

Lemma readonly_ret {A} (a : A) : readonly (ret a).
Proof. intros st st' r H. inversion H. reflexivity. Qed.

Lemma readonly_bind {A B} (m : M Store A) (f : A -> M Store B) :
  readonly m -> (forall a, readonly (f a)) -> readonly (bind m f).
Proof.
  intros Rm Rf st st' r H. unfold bind in H.
  destruct (m st) as [s1 [a | e]] eqn:E.
  - rewrite (Rf _ _ _ _ H). apply (Rm _ _ _ E).
  - inversion H; subst. apply (Rm _ _ _ E).
Qed.

(** The rules after the amount check. *)
Lemma readonly_later_rules transaction (k : list Alert -> list Alert) :
  readonly
    (velocityAlert <- checkVelocity env (userId transaction) transaction ;;
     structuringAlert <- detectStructuring env (userId transaction) transaction ;;
     patternAlerts <-
       detectSuspiciousPatterns env (userId transaction) transaction ;;
     dormancyAlert <- checkDormantAccount (userId transaction) transaction ;;
     sanctionsAlert <- checkSanctionsRealTime env transaction ;;
     geoAlert <- checkGeographicRisk transaction ;;
     pepAlert <- checkPEPTransaction env (userId transaction) transaction ;;
     ret (push (push (push (push
                (push (push (k []) velocityAlert) structuringAlert
                 ++ patternAlerts) dormancyAlert) sanctionsAlert) geoAlert)
            pepAlert)).
Proof.
  repeat first
    [ apply readonly_checkVelocity | apply readonly_detectStructuring
    | apply readonly_detectSuspiciousPatterns
    | apply readonly_checkDormantAccount
    | apply readonly_checkSanctionsRealTime
    | apply readonly_checkGeographicRisk
    | apply readonly_checkPEPTransaction
    | apply readonly_ret
    | apply readonly_bind; [| intros ?] ].
Qed.

Lemma evaluateRules_store transaction st st' r :
  evaluateRules env transaction st = (st', r) ->
  (st' = st
   /\ (ctr_threshold largeTransaction <= amount transaction ->
       faults env SelectRiskProfile = true \/ faults env InsertCTR = true))
  \/ (st' = insert_ctr (ctr_row transaction) st
      /\ ctr_threshold largeTransaction <= amount transaction
      /\ forall found, r = Returned found ->
                       hd_error found = Some (ctr_alert transaction)).
Proof.
  unfold evaluateRules. intros H.
  apply bind_cases in H. destruct H as [(e & H) | (rp & s0 & G & H)].
  { left. split; [apply (readonly_getCustomerRiskProfile _ _ _ _ H) |].
    intros _. left.
    unfold getCustomerRiskProfile, bind, statement, get, ret in H.
    destruct (faults env SelectRiskProfile); [reflexivity |].
    destruct (filter _ _); discriminate. }
  apply readonly_getCustomerRiskProfile in G. subst s0.
  apply bind_cases in H. destruct H as [(e & H) | (o1 & s1 & A & H)].
  { left. unfold checkTransactionAmount, generateCTR, bind, statement,
      modify, ret in H.
    destruct (_ <=? amount transaction);
      [| destruct (_ <=? amount transaction); discriminate].
    destruct (faults env InsertCTR); [| discriminate].
    inversion H. split; [reflexivity | intros _; right; reflexivity]. }
  pose proof (readonly_later_rules transaction (fun l => push l o1) _ _ _ H)
    as E.
  subst st'.
  unfold checkTransactionAmount, generateCTR, bind, statement, modify, ret in A.
  destruct (Z.leb_spec (ctr_threshold largeTransaction) (amount transaction))
    as [C | C].
  - destruct (faults env InsertCTR); [discriminate |].
    inversion A; subst s1 o1. right.
    split; [reflexivity |]. split; [exact C |].
    intros found R. subst r. clear - H.
    repeat (apply bind_returned in H; destruct H as (? & ? & _ & H)).
    inversion H. clear.
    repeat match goal with
           | |- context [push ?l ?o] => destruct o; simpl
           end; reflexivity.
  - left. split; [| intros X; lia].
    destruct (_ <=? amount transaction); inversion A; reflexivity.
Qed.


(** X3. A structuring alert is raised only for amounts from 490,000 up to,
    but not including, 500,000 rupees, and then only with at least three
    ledger entries of the user between 490,000 and 500,000 (both included)
    in the last 24 hours; outside that band the rule returns nothing without
    reading the database.  A transaction that raises it never raises a
    large-transaction or CTR alert. *)
Theorem structuring_band userId transaction st :
  ((amount transaction < threshold structuring
    \/ personal largeTransaction <= amount transaction) ->
   detectStructuring env userId transaction st = (st, Returned None))
  /\ (forall st' a,
        detectStructuring env userId transaction st = (st', Returned (Some a)) ->
        threshold structuring <= amount transaction < personal largeTransaction
        /\ type a = "STRUCTURING" /\ severity a = "CRITICAL"
        /\ minTransactions structuring <= sql_count (similar (now env) userId st)
        /\ forall riskProfile s,
             checkTransactionAmount env transaction riskProfile s
             = (s, Returned None)).
Proof.
  unfold detectStructuring. split.
  - intros O.
    replace ((threshold structuring <=? amount transaction)
             && (amount transaction <? personal largeTransaction))
      with false; [reflexivity |].
    symmetry. apply andb_false_iff.
    destruct O as [O | O]; [left; apply Z.leb_gt | right; apply Z.ltb_ge];
      exact O.
  - intros st' a H.
    destruct ((threshold structuring <=? amount transaction)
              && (amount transaction <? personal largeTransaction)) eqn:B;
      [| discriminate].
    apply andb_true_iff in B. destruct B as [B1 B2].
    apply Z.leb_le in B1. apply Z.ltb_lt in B2.
    unfold bind, statement, get, ret in H.
    destruct (faults env SelectSimilarTransactions); [discriminate |].
    fold (similar (now env) userId st) in H.
    destruct (Z.leb_spec (minTransactions structuring)
                (sql_count (similar (now env) userId st))) as [N | N];
      [| discriminate].
    inversion H; subst. split; [lia |]. split; [reflexivity |].
    split; [reflexivity |]. split; [exact N |].
    intros rp s. unfold checkTransactionAmount.
    assert (P : personal largeTransaction <= ctr_threshold largeTransaction)
      by discriminate.
    assert (Q : personal largeTransaction <= business largeTransaction)
      by discriminate.
    replace (ctr_threshold largeTransaction <=? amount transaction) with false
      by (symmetry; apply Z.leb_gt; lia).
    destruct (profile_type rp =? "business")%string;
      match goal with
      | |- context [?t <=? amount transaction] =>
          replace (t <=? amount transaction) with false
            by (symmetry; apply Z.leb_gt; lia)
      end; reflexivity.
Qed.

(** ** What the processing of the alerts records *)

Lemma append_history_nil st : append_history [] st = st.
Proof. unfold append_history. destruct st; simpl. rewrite app_nil_r. reflexivity. Qed.

Lemma append_history_app l1 l2 st :
  append_history l2 (append_history l1 st) = append_history (l1 ++ l2) st.
Proof. unfold append_history. simpl. rewrite app_assoc. reflexivity. Qed.

Lemma notified_append_history to title l st :
  notified env to title (append_history l st) = notified env to title st.
Proof. reflexivity. Qed.

Lemma no_tokens (p : DeviceToken -> bool) l :
  (Z.of_nat (List.length (map dt_token (filter p l))) =? 0)
  = negb (existsb p l).
Proof.
  induction l as [| d l IH]; [reflexivity |].
  simpl. destruct (p d); [reflexivity | exact IH].
Qed.

Lemma sendNotification_run to title st :
  faults env SelectDeviceTokens = false ->
  sendNotification env to title st
  = (append_history (notified env to title st) st, Returned tt).
Proof.
  intros F. unfold sendNotification, try_catch. unfold bind at 1.
  unfold statement at 1. rewrite F. unfold bind at 1, get.
  rewrite no_tokens. unfold notified. fold (reachable to st).
  destruct (reachable to st); simpl.
  - unfold saveNotificationHistory, try_catch, bind, statement, modify, ret.
    destruct (faults env InsertNotificationHistory); simpl.
    + rewrite append_history_nil. reflexivity.
    + reflexivity.
  - unfold ret. rewrite append_history_nil. reflexivity.
Qed.

Section Processing.

Hypothesis tokens_read : faults env SelectDeviceTokens = false.

Lemma forEach_notify (team : list AdminUser) st :
  forEach team
    (fun member =>
       sendNotification env (Some (admin_user_id member))
         "Transaction Alert") st
  = (append_history
       (flat_map (fun m => notified env (Some (admin_user_id m))
                             "Transaction Alert" st) team) st,
     Returned tt).
Proof.
  assert (G : forall l s,
             forEach team
               (fun member =>
                  sendNotification env (Some (admin_user_id member))
                    "Transaction Alert") (append_history l s)
             = (append_history
                  (l ++ flat_map (fun m => notified env (Some (admin_user_id m))
                                             "Transaction Alert" s) team) s,
                Returned tt)).
  { induction team as [| a t IH]; intros l s.
    - simpl. rewrite app_nil_r. reflexivity.
    - cbn [forEach flat_map]. unfold bind at 1.
      rewrite (sendNotification_run _ _ _ tokens_read).
      rewrite notified_append_history, append_history_app, IH.
      rewrite <- app_assoc. reflexivity. }
  rewrite <- (append_history_nil st) at 1. rewrite G. reflexivity.
Qed.

Lemma generateSTR_run transaction found st :
  faults env InsertSTR = false ->
  generateSTR env transaction found st
  = (append_history
       (notified env (COMPLIANCE_OFFICER_ID st)
          "Critical Alert: STR Generated" st)
       (insert_str (mkSTR (transactionRef transaction) (userId transaction)
                      (amount transaction) found) st),
     Returned tt).
Proof.
  intros F. unfold generateSTR. unfold bind at 1. unfold statement at 1.
  rewrite F. unfold bind at 1, modify. unfold bind at 1, get.
  rewrite (sendNotification_run _ _ _ tokens_read). reflexivity.
Qed.

Lemma notifyComplianceTeam_run transaction found st :
  faults env SelectComplianceTeam = false ->
  notifyComplianceTeam env transaction found st
  = (append_history (team_notifications env st) st, Returned tt).
Proof.
  intros F. unfold notifyComplianceTeam, bind, statement, get. rewrite F.
  apply forEach_notify.
Qed.

Lemma forEach_saveAlert transaction found st :
  faults env InsertAlert = false ->
  forEach found (saveAlert env transaction) st
  = (mkStore (ledger st) (sanctions_lists st) (customer_risk_profiles st)
       (admin_users st) (COMPLIANCE_OFFICER_ID st) (device_tokens st)
       (currency_transaction_reports st)
       (suspicious_transaction_reports st)
       (monitoring_alerts st ++ map (saved_alert transaction) found)
       (blocked_transactions st) (transaction_monitoring_logs st)
       (monitoring_errors st) (notification_history st),
     Returned tt).
Proof.
  intros F. revert st. induction found as [| a l IH]; intros st.
  - simpl. unfold ret. destruct st; simpl. rewrite app_nil_r. reflexivity.
  - cbn [forEach]. unfold bind at 1.
    unfold saveAlert at 1. unfold bind, statement, modify. rewrite F.
    rewrite IH. unfold insert_alert. cbn [ledger sanctions_lists
      customer_risk_profiles admin_users device_tokens
      currency_transaction_reports
      suspicious_transaction_reports monitoring_alerts blocked_transactions
      transaction_monitoring_logs monitoring_errors notification_history map].
    fold (saved_alert transaction a). rewrite <- app_assoc. reflexivity.
Qed.

Lemma processAlerts_run transaction found st :
  faults env InsertSTR = false ->
  faults env SelectComplianceTeam = false ->
  faults env InsertAlert = false ->
  processAlerts env transaction found st
  = (processed env transaction found st, Returned tt).
Proof.
  intros F1 F2 F3. unfold processAlerts, processed.
  fold (any_of_severity "CRITICAL" found). fold (any_of_severity "HIGH" found).
  destruct (any_of_severity "CRITICAL" found);
    destruct (any_of_severity "HIGH" found).
  - rewrite (bind_value _ _ _ _ _ (generateSTR_run _ _ _ F1)).
    rewrite (bind_value _ _ _ _ _ (notifyComplianceTeam_run _ _ _ F2)).
    rewrite (forEach_saveAlert _ _ _ F3). destruct st; simpl.
    rewrite ?app_nil_r, <- ?app_assoc. reflexivity.
  - rewrite (bind_value _ _ _ _ _ (generateSTR_run _ _ _ F1)).
    rewrite bind_ret.
    rewrite (forEach_saveAlert _ _ _ F3). destruct st; simpl.
    rewrite ?app_nil_r, <- ?app_assoc. reflexivity.
  - rewrite bind_ret.
    rewrite (bind_value _ _ _ _ _ (notifyComplianceTeam_run _ _ _ F2)).
    rewrite (forEach_saveAlert _ _ _ F3). destruct st; simpl.
    rewrite ?app_nil_r, <- ?app_assoc. reflexivity.
  - rewrite bind_ret.
    rewrite bind_ret.
    rewrite (forEach_saveAlert _ _ _ F3). destruct st; simpl.
    rewrite ?app_nil_r, <- ?app_assoc. reflexivity.
Qed.

End Processing.

(** X4. Once the device tokens, the compliance team and the three tables it
    writes can be reached, [processAlerts] saves every alert, in order, and
    files one STR carrying all the alerts exactly when one of them is
    [CRITICAL].  It then notifies the compliance officer, and when an alert
    is [HIGH] each [COMPLIANCE] administrator; a notification is recorded
    only for a recipient with an active device token, and a failing insert
    into [notification_history] loses the record without stopping the
    processing.  It never records a block or a monitoring log. *)
Theorem processAlerts_effect transaction found st :
  faults env InsertSTR = false ->
  faults env SelectDeviceTokens = false ->
  faults env SelectComplianceTeam = false ->
  faults env InsertAlert = false ->
  exists st',
    processAlerts env transaction found st = (st', Returned tt)
    /\ monitoring_alerts st'
       = monitoring_alerts st ++ map (saved_alert transaction) found
    /\ suspicious_transaction_reports st'
       = suspicious_transaction_reports st
         ++ (if any_of_severity "CRITICAL" found
             then [mkSTR (transactionRef transaction) (userId transaction)
                     (amount transaction) found]
             else [])
    /\ notification_history st'
       = notification_history st
         ++ (if any_of_severity "CRITICAL" found
             then if reachable (COMPLIANCE_OFFICER_ID st) st
                     && negb (faults env InsertNotificationHistory)
                  then [mkNotification (COMPLIANCE_OFFICER_ID st)
                          "Critical Alert: STR Generated"]
                  else []
             else [])
         ++ (if any_of_severity "HIGH" found
             then flat_map
                    (fun m =>
                       if reachable (Some (admin_user_id m)) st
                          && negb (faults env InsertNotificationHistory)
                       then [mkNotification (Some (admin_user_id m))
                               "Transaction Alert"]
                       else [])
                    (filter (fun m => (role m =? "COMPLIANCE")%string)
                       (admin_users st))
             else [])
    /\ blocked_transactions st' = blocked_transactions st
    /\ transaction_monitoring_logs st' = transaction_monitoring_logs st.
Proof.
  intros F1 F2 F3 F4. exists (processed env transaction found st).
  split; [apply processAlerts_run; assumption |].
  repeat split; reflexivity.
Qed.

(** X5. Whatever the transaction and the tables, [monitorTransaction] files
    no STR, saves no alert, records no block, writes no monitoring log and
    no notification: the dormant-account rule stops every evaluation before
    the alerts are processed.  What it leaves is one row in
    [monitoring_errors] with the error of the evaluation, unless that insert
    fails, and the CTR row when the amount check filed one. *)
Theorem monitorTransaction_records transaction st :
  let st' := fst (monitorTransaction env transaction st) in
  suspicious_transaction_reports st' = suspicious_transaction_reports st
  /\ monitoring_alerts st' = monitoring_alerts st
  /\ blocked_transactions st' = blocked_transactions st
  /\ transaction_monitoring_logs st' = transaction_monitoring_logs st
  /\ notification_history st' = notification_history st
  /\ (currency_transaction_reports st' = currency_transaction_reports st
      \/ currency_transaction_reports st'
         = currency_transaction_reports st ++ [ctr_row transaction])
  /\ exists e,
       snd (evaluateRules env transaction st) = Thrown e
       /\ monitoring_errors st'
          = monitoring_errors st
            ++ (if faults env InsertMonitoringError
                then []
                else [mkMonitoringError (transactionRef transaction) e]).
Proof.
  destruct (evaluateRules_thrown env transaction st) as (st1 & e & E).
  rewrite (monitor_after_failure _ _ _ _ _ E), handler_run.
  pose proof (evaluateRules_store _ _ _ _ E) as W. rewrite E.
  assert (R : fst (if faults env InsertMonitoringError
                   then (st1, Thrown (DatabaseError InsertMonitoringError))
                   else (logged transaction e st1,
                         Returned (mkResult false [] true)))
              = if faults env InsertMonitoringError
                then st1 else logged transaction e st1)
    by (destruct (faults env InsertMonitoringError); reflexivity).
  cbv zeta. rewrite R. clear R. cbn [snd].
  destruct W as [(-> & _) | (-> & _)];
    destruct (faults env InsertMonitoringError); simpl;
      rewrite ?app_nil_r;
      repeat split; auto; exists e; split; reflexivity.
Qed.

(** ** The sanctions lookup *)

Lemma LIKE_percent_step q s :
  LIKE (String "%" q) s
  = LIKE q s
    || match s with
       | EmptyString => false
       | String _ s' => LIKE (String "%" q) s'
       end.
Proof. destruct s; reflexivity. Qed.

Lemma LIKE_literal_step c q s :
  wildcard c = false ->
  LIKE (String c q) s
  = match s with
    | EmptyString => false
    | String d s' => Ascii.eqb c d && LIKE q s'
    end.
Proof.
  intros W.
  destruct c as [b0 b1 b2 b3 b4 b5 b6 b7];
    destruct b0, b1, b2, b3, b4, b5, b6, b7;
    try discriminate W; destruct s; reflexivity.
Qed.

Lemma LIKE_empty s : LIKE EmptyString s = true <-> s = EmptyString.
Proof. destruct s; simpl; split; intros H; congruence. Qed.

Lemma LIKE_percent_all s : LIKE "%" s = true.
Proof.
  induction s as [| c s IH].
  - reflexivity.
  - rewrite LIKE_percent_step. rewrite IH. apply orb_true_r.
Qed.

Lemma LIKE_percents n s : LIKE (percents (S n)) s = true.
Proof.
  revert s. induction n as [| n IH]; intros s.
  - apply LIKE_percent_all.
  - change (percents (S (S n))) with (String "%" (percents (S n))).
    rewrite LIKE_percent_step. rewrite IH. reflexivity.
Qed.

Lemma LIKE_percent_iff q s :
  LIKE (String "%" q) s = true
  <-> exists a b, s = (a ++ b)%string /\ LIKE q b = true.
Proof.
  induction s as [| c s IH].
  - rewrite LIKE_percent_step, orb_false_r. split.
    + intros H. exists EmptyString, EmptyString. auto.
    + intros (a & b & E & H). destruct a; [| discriminate].
      simpl in E. subst b. exact H.
  - rewrite LIKE_percent_step, orb_true_iff, IH. split.
    + intros [H | (a & b & E & H)].
      * exists EmptyString, (String c s). auto.
      * exists (String c a), b. simpl. rewrite E. auto.
    + intros (a & b & E & H). destruct a as [| d a]; simpl in E.
      * left. subst b. exact H.
      * inversion E; subst. right. exists a, b. auto.
Qed.

Lemma LIKE_literal_prefix p q s :
  literal p = true ->
  LIKE (p ++ q) s = true
  <-> exists r, s = (p ++ r)%string /\ LIKE q r = true.
Proof.
  revert s. induction p as [| c p IH]; intros s L.
  - change (("" ++ q)%string) with q.
    split; [intros H; exists s; auto | intros (r & -> & H); exact H].
  - simpl in L. apply andb_true_iff in L. destruct L as [W L].
    apply negb_true_iff in W.
    change ((String c p ++ q)%string) with (String c (p ++ q)).
    rewrite (LIKE_literal_step _ _ _ W).
    destruct s as [| d s].
    + split; [discriminate | intros (r & E & _); discriminate].
    + rewrite andb_true_iff, (IH s L). split.
      * intros (E & r & -> & H). apply Ascii.eqb_eq in E. subst d.
        exists r. auto.
      * intros (r & E & H). inversion E; subst.
        split; [apply Ascii.eqb_refl | exists r; auto].
Qed.

Lemma LIKE_contains p s :
  literal p = true ->
  LIKE ("%" ++ p ++ "%") s = true <-> contains s p.
Proof.
  intros L. change ("%" ++ p ++ "%")%string with (String "%" (p ++ "%")).
  rewrite LIKE_percent_iff. unfold contains. split.
  - intros (a & b & -> & H). apply (LIKE_literal_prefix _ _ _ L) in H.
    destruct H as (r & -> & _). exists a, r. reflexivity.
  - intros (pre & post & ->). exists pre, (p ++ post)%string.
    split; [reflexivity |]. apply (LIKE_literal_prefix _ _ _ L).
    exists post. split; [reflexivity | apply LIKE_percent_all].
Qed.

Lemma LOWER_app a b : LOWER (a ++ b) = (LOWER a ++ LOWER b)%string.
Proof. induction a as [| c a IH]; simpl; [reflexivity | rewrite IH; reflexivity]. Qed.

Lemma LOWER_pattern name :
  LOWER ("%" ++ name ++ "%") = ("%" ++ LOWER name ++ "%")%string.
Proof.
  change ("%" ++ name ++ "%")%string with (String "%" (name ++ "%")).
  simpl. rewrite LOWER_app. reflexivity.
Qed.

Lemma LOWER_percents n : LOWER (percents n) = percents n.
Proof. induction n as [| n IH]; simpl; [reflexivity | rewrite IH; reflexivity]. Qed.

(** X6. [checkSanctionsRealTime] asks the database only for a receiver name
    that is present and not empty.  For a name without [LIKE] wildcards and
    a readable list, it raises [SANCTIONS_HIT] exactly when the name occurs,
    letter case aside, inside the name of some entry of the sanctions list,
    and the alert names such an entry. *)
Theorem sanctions_hit_iff_listed transaction st :
  ((receiver_name transaction = None \/ receiver_name transaction = Some "") ->
   checkSanctionsRealTime env transaction st = (st, Returned None))
  /\ (forall name,
        receiver_name transaction = Some name ->
        name <> "" ->
        literal (LOWER name) = true ->
        faults env SelectSanctions = false ->
        exists o,
          checkSanctionsRealTime env transaction st = (st, Returned o)
          /\ ((exists a, o = Some a)
              <-> exists r, In r (sanctions_lists st)
                            /\ contains (LOWER (sl_name r)) (LOWER name))
          /\ forall a, o = Some a ->
               type a = "SANCTIONS_HIT" /\ severity a = "CRITICAL"
               /\ exists r, In r (sanctions_lists st)
                            /\ contains (LOWER (sl_name r)) (LOWER name)
                            /\ details a = [("entity", Str (sl_name r));
                                            ("list", Str (list_type r))]).
Proof.
  unfold checkSanctionsRealTime. split.
  - intros [-> | ->]; reflexivity.
  - intros name -> NE L F.
    destruct (String.eqb_spec name "") as [E | _]; [contradiction |].
    unfold bind, statement, get, ret. rewrite F.
    rewrite LOWER_pattern.
    assert (M : forall r,
               LIKE ("%" ++ LOWER name ++ "%") (LOWER (sl_name r)) = true
               <-> contains (LOWER (sl_name r)) (LOWER name))
      by (intros r; apply LIKE_contains; exact L).
    destruct (filter _ (sanctions_lists st)) as [| r rest] eqn:Q.
    + eexists. split; [reflexivity |]. split.
      * split; [intros (a & X); discriminate |].
        intros (r & I & C). exfalso.
        assert (J : In r (filter
                            (fun r => LIKE ("%" ++ LOWER name ++ "%")
                                        (LOWER (sl_name r)))
                            (sanctions_lists st)))
          by (apply filter_In; split; [exact I | apply M; exact C]).
        rewrite Q in J. exact J.
      * intros a X. discriminate.
    + assert (J : In r (sanctions_lists st)
                  /\ contains (LOWER (sl_name r)) (LOWER name)).
      { assert (J : In r (filter
                            (fun r => LIKE ("%" ++ LOWER name ++ "%")
                                        (LOWER (sl_name r)))
                            (sanctions_lists st)))
          by (rewrite Q; left; reflexivity).
        apply filter_In in J. destruct J as [I C].
        split; [exact I | apply M; exact C]. }
      destruct J as [I C].
      eexists. split; [reflexivity |]. split.
      * split; [intros _; exists r; auto | intros _; eexists; reflexivity].
      * intros a X. inversion X; subst a. simpl.
        split; [reflexivity |]. split; [reflexivity |].
        exists r. auto.
Qed.

(** X7. The receiver name goes into the [LIKE] pattern as it is: a name made
    of percent signs only matches every entry, so with a readable, non-empty
    sanctions list such a payment raises [SANCTIONS_HIT] against the first
    entry of the list. *)
Theorem percent_name_matches_every_entry transaction st n r rest :
  receiver_name transaction = Some (percents (S n)) ->
  faults env SelectSanctions = false ->
  sanctions_lists st = r :: rest ->
  checkSanctionsRealTime env transaction st
  = (st, Returned (Some (mkAlert "SANCTIONS_HIT" "CRITICAL"
                           "Transaction involves sanctioned entity"
                           [("entity", Str (sl_name r));
                            ("list", Str (list_type r))]))).
Proof.
  intros N F Q. unfold checkSanctionsRealTime. rewrite N.
  change (percents (S n) =? "")%string with false. cbv iota.
  unfold bind, statement, get, ret. rewrite F, Q.
  change ("%" ++ percents (S n) ++ "%")%string
    with (String "%" (percents (S n) ++ "%")).
  assert (P : forall k, (percents k ++ "%")%string = percents (S k)).
  { induction k as [| k IH]; simpl; [reflexivity |].
    simpl in IH. rewrite IH. reflexivity. }
  rewrite P. change (String "%" (percents (S (S n))))
    with (percents (S (S (S n)))).
  rewrite LOWER_percents. cbn [filter]. rewrite LIKE_percents. reflexivity.
Qed.

End RuleFacts.

(** ** Runs on the sample data *)

Lemma rules_raise_known_alerts_witness :
  Monitoring.detectStructuring Sample.env 10 Sample.fourth_payment Sample.store
  = (Sample.store, Returned (Some Sample.structuring_alert))
  /\ MonitoringMore.known Sample.structuring_alert
  /\ Monitoring.type Sample.structuring_alert <> "DECEASED".
Proof.
  assert (E : Monitoring.detectStructuring Sample.env 10 Sample.fourth_payment
                Sample.store
              = (Sample.store, Returned (Some Sample.structuring_alert)))
    by (vm_compute; reflexivity).
  split; [exact E |].
  destruct (rules_raise_known_alerts Sample.env 10 Sample.fourth_payment
              Sample.store Sample.store Sample.structuring_alert
              (or_intror (or_intror (or_introl E))))
    as (K & D & _).
  split; [exact K | exact D].
Defined.


Lemma structuring_band_witness :
  Monitoring.detectStructuring Sample.env 10 Sample.fourth_payment Sample.store
  = (Sample.store, Returned (Some Sample.structuring_alert))
  /\ Monitoring.threshold Monitoring.structuring
     <= Monitoring.amount Sample.fourth_payment
     < Monitoring.personal Monitoring.largeTransaction
  /\ Monitoring.minTransactions Monitoring.structuring
     <= Monitoring.sql_count
          (MonitoringMore.similar (now Sample.env) 10 Sample.store).
Proof.
  assert (E : Monitoring.detectStructuring Sample.env 10 Sample.fourth_payment
                Sample.store
              = (Sample.store, Returned (Some Sample.structuring_alert)))
    by (vm_compute; reflexivity).
  split; [exact E |].
  destruct (structuring_band Sample.env 10 Sample.fourth_payment Sample.store)
    as (_ & H).
  destruct (H _ _ E) as (B & _ & _ & N & _).
  split; [exact B | exact N].
Defined.

Lemma processAlerts_effect_witness :
  faults Sample.env InsertSTR = false
  /\ faults Sample.env SelectDeviceTokens = false
  /\ faults Sample.env SelectComplianceTeam = false
  /\ faults Sample.env InsertAlert = false
  /\ exists st',
       Monitoring.processAlerts Sample.env Sample.fourth_payment
         [MonitoringSpec.ctr_alert Sample.fourth_payment;
          Sample.structuring_alert] SampleMore.staffed
       = (st', Returned tt)
       /\ Monitoring.suspicious_transaction_reports st'
          = [Monitoring.mkSTR "TXN1705312800000K3J9X2M1Q" 10 (PKR 495000)
               [MonitoringSpec.ctr_alert Sample.fourth_payment;
                Sample.structuring_alert]]
       /\ Monitoring.notification_history st'
          = [Monitoring.mkNotification (Some 31)
               "Transaction Alert"].
Proof.
  split; [reflexivity |]. split; [reflexivity |].
  split; [reflexivity |]. split; [reflexivity |].
  destruct (processAlerts_effect Sample.env Sample.fourth_payment
              [MonitoringSpec.ctr_alert Sample.fourth_payment;
               Sample.structuring_alert] SampleMore.staffed
              eq_refl eq_refl eq_refl eq_refl)
    as (st' & R & _ & S & N & _).
  exists st'. split; [exact R |]. split; [exact S | exact N].
Defined.

Lemma sanctions_hit_iff_listed_witness :
  Monitoring.receiver_name Sample.listed_payment = Some "ahmed khan"
  /\ "ahmed khan" <> ""
  /\ MonitoringMore.literal (Monitoring.LOWER "ahmed khan") = true
  /\ faults Sample.env SelectSanctions = false
  /\ exists o,
       Monitoring.checkSanctionsRealTime Sample.env Sample.listed_payment
         Sample.store
       = (Sample.store, Returned o)
       /\ ((exists a, o = Some a)
           <-> exists r, In r (Monitoring.sanctions_lists Sample.store)
                         /\ MonitoringMore.contains
                              (Monitoring.LOWER (Monitoring.sl_name r))
                              (Monitoring.LOWER "ahmed khan")).
Proof.
  assert (N : "ahmed khan" <> "") by discriminate.
  split; [reflexivity |]. split; [exact N |].
  split; [reflexivity |]. split; [reflexivity |].
  destruct (sanctions_hit_iff_listed Sample.env Sample.listed_payment
              Sample.store) as (_ & H).
  destruct (H "ahmed khan" eq_refl N eq_refl eq_refl) as (o & R & I & _).
  exists o. split; [exact R | exact I].
Defined.

Lemma percent_name_matches_every_entry_witness :
  Monitoring.receiver_name SampleMore.percent_payment
  = Some (MonitoringMore.percents 1)
  /\ faults Sample.env SelectSanctions = false
  /\ Monitoring.checkSanctionsRealTime Sample.env SampleMore.percent_payment
       Sample.store
     = (Sample.store, Returned (Some Sample.sanctions_alert)).
Proof.
  split; [reflexivity |]. split; [reflexivity |].
  exact (percent_name_matches_every_entry Sample.env
           SampleMore.percent_payment Sample.store 0
           (Monitoring.mkSanctionsEntry "Ahmed Khan Trading" "NACTA") []
           eq_refl eq_refl eq_refl).
Defined.

(** * Further facts about the ledger *)

Section LedgerMoreFacts.
Import Ledger LedgerSpec LedgerMore.


Lemma opened_found t u db :
  find (wallet_of u) (accounts (snd (opened t u db)))
  = Some (fst (opened t u db)).
Proof.
  unfold opened.
  change (fun r => (acc_user_id r =? u)
                   && account_type_eqb (account_type r) customer_wallet)
    with (wallet_of u).
  destruct (find (wallet_of u) (accounts db)) as [a |] eqn:F; simpl.
  - exact F.
  - rewrite find_app, F. simpl. unfold wallet_of. simpl.
    rewrite Z.eqb_refl. reflexivity.
Qed.



Lemma find_map {A} (p : A -> bool) (f : A -> A) (l : list A) :
  (forall x, p (f x) = p x) ->
  find p (map f l) = option_map f (find p l).
Proof.
  intros H. induction l as [| a l IH]; simpl; [reflexivity |].
  rewrite H. destruct (p a); [reflexivity | exact IH].
Qed.

Lemma wallet_of_set_balance u id b t r :
  wallet_of u (set_balance id b t r) = wallet_of u r.
Proof. unfold wallet_of, set_balance. destruct (acc_id r =? id); reflexivity. Qed.











(** ** Deposits *)

(** What a returning deposit has committed. *)
Lemma deposit_committed env userId amt md db db' res :
  deposit env userId amt md db = (db', Returned res) ->
  let account := fst (opened (now env) userId db) in
  let db1 := snd (opened (now env) userId db) in
  exists lockedAccount,
    row (acc_id account) db1 = Some lockedAccount
    /\ res = mkDepositResult (trn env) (balance lockedAccount + amt) (now env)
    /\ db'
       = mkDB
           (map (set_balance (acc_id account) (balance lockedAccount + amt)
                   (now env))
              (accounts db1))
           (transactions db1
            ++ [mkTransaction (fresh_id (map tx_id (transactions db1)))
                  (trn env) deposit_type None (Some (acc_id account)) amt
                  completed (md ++ [("source", MString "manual_deposit")])
                  (now env) (now env)])
           (ledger_entries db1
            ++ [mkLedgerEntry (trn env) (acc_id account) credit amt
                  (balance lockedAccount + amt)
                  (("description", MString "Deposit to wallet") :: md)
                  (now env)]).
Proof.
  unfold deposit. intros H.
  apply knex_transaction_returned in H. destruct H as (st & C & ->).
  unfold deposit_callback in C.
  apply bind_returned in C. destruct C as (a & s1 & H1 & C).
  apply knex_account_returned in H1. simpl in H1. destruct H1 as [-> ->].
  apply bind_returned in C. destruct C as (rows & s2 & H2 & C).
  apply forUpdate_returned in H2. simpl in H2. destruct H2 as [-> ->].
  unfold view in C. simpl in C.
  set (db1 := snd (opened (now env) userId db)) in *.
  set (account := fst (opened (now env) userId db)) in *.
  destruct (hd_error (filter (fun r => acc_id r =? acc_id account) (accounts db1)))
    as [la |] eqn:LA; [| discriminate].
  apply bind_returned in C. destruct C as (s3 & s3' & H3 & C).
  unfold get in H3. inversion H3; subst s3 s3'; clear H3.
  repeat (apply bind_returned in C;
          let u := fresh "u" in let s := fresh "s" in let W := fresh "W" in
          destruct C as (u & s & W & C);
          apply trx_write_returned in W; simpl in W; subst s).
  unfold ret in C. inversion C; subst.
  exists la. unfold row. rewrite LA. repeat split.
Qed.


(** ** Opening accounts *)

Lemma account_type_eqb_eq a b : account_type_eqb a b = true <-> a = b.
Proof. destruct a, b; simpl; split; intros H; congruence. Qed.

(** X11. [getOrCreateAccount] finds what it opened.  When it returns a row,
    the row belongs to the user, has the requested type and is in the table;
    the table is as before if the user had such an account, and otherwise
    has exactly this row more, empty and active; and any later call for the
    same user and type returns the same row without touching the table, so
    the method never opens a second account of a type for a user. *)
Theorem getOrCreateAccount_round_trip env sel ins u ty db db1 a :
  getOrCreateAccount env sel ins u ty db = (db1, Returned a) ->
  acc_user_id a = u /\ account_type a = ty /\ In a (accounts db1)
  /\ (db1 = db
      \/ (db1 = mkDB (accounts db ++ [a]) (transactions db) (ledger_entries db)
          /\ blank a
          /\ forall r, In r (accounts db) ->
                       ~ (acc_user_id r = u /\ account_type r = ty)))
  /\ forall env' sel' ins',
       faults env' sel' = false ->
       getOrCreateAccount env' sel' ins' u ty db1 = (db1, Returned a).
Proof.
  unfold getOrCreateAccount, bind, statement, get, modify, ret.
  destruct (faults env sel); [discriminate |].
  destruct (find _ (accounts db)) as [x |] eqn:F.
  - intros H. inversion H; subst. clear H.
    assert (I := find_some _ _ F). destruct I as [I W].
    apply andb_true_iff in W. destruct W as [W1 W2].
    apply Z.eqb_eq in W1. apply account_type_eqb_eq in W2.
    repeat split; auto.
    intros env' sel' ins' S. rewrite S, F. reflexivity.
  - destruct (faults env ins); [discriminate |].
    intros H. inversion H; subst. clear H.
    split; [reflexivity |]. split; [reflexivity |].
    split; [cbn [accounts]; apply in_or_app; right; left; reflexivity |].
    split.
    + right. split; [reflexivity |]. split; [split; reflexivity |].
      intros r I [U T].
      apply (find_none _ _ F) in I. rewrite U, T, Z.eqb_refl in I.
      simpl in I. destruct ty; discriminate.
    + intros env' sel' ins' S. rewrite S. cbn [accounts].
      rewrite find_app, F. cbn [find acc_user_id account_type].
      rewrite Z.eqb_refl.
      replace (account_type_eqb ty ty) with true
        by (destruct ty; reflexivity).
      reflexivity.
Qed.

(** ** Reports after a movement *)

Lemma whereBetween_day date t :
  whereBetween (startOfDay date) (endOfDay date) t
  = (dayNumber t =? dayNumber date).
Proof.
  unfold whereBetween, startOfDay, endOfDay, msOfDay, dayNumber, msPerDay.
  pose proof (Z.div_mod date 86400000 ltac:(lia)) as D.
  pose proof (Z.mod_pos_bound date 86400000 ltac:(lia)) as Db.
  pose proof (Z.div_mod t 86400000 ltac:(lia)) as T.
  pose proof (Z.mod_pos_bound t 86400000 ltac:(lia)) as Tb.
  destruct (Z.eqb_spec (t / 86400000) (date / 86400000)) as [E | NE].
  - apply andb_true_iff. split; apply Z.leb_le; lia.
  - apply andb_false_iff.
    destruct (Z.lt_ge_cases (t / 86400000) (date / 86400000)).
    + left. apply Z.leb_gt. lia.
    + right. apply Z.leb_gt. lia.
Qed.

(** A report that is returned on one store is returned on any other. *)
Lemma generateDailyReport_run env date db db' r :
  snd (generateDailyReport env date db) = Returned r ->
  generateDailyReport env date db' = (db', Returned (report (now env) date db')).
Proof.
  unfold generateDailyReport, bind, statement, get, ret.
  destruct (faults env SelectDayTransactions); [discriminate |].
  destruct (faults env SelectDayTotals); [discriminate |].
  intros _. unfold report, day_transactions. fold (window date db').
  destruct (window date db') as [| e es] eqn:W.
  - reflexivity.
  - unfold sql_sum. rewrite !sum_case_type. reflexivity.
Qed.

Lemma sum_type_app ty l l' :
  sum_type ty (l ++ l') = sum_type ty l + sum_type ty l'.
Proof.
  unfold sum_type. rewrite filter_app, map_app.
  induction (map amount (filter _ l)) as [| x xs IH]; simpl; lia.
Qed.

Lemma sum_type_debit_credit ty (d c : LedgerEntry) :
  entry_type d = debit -> entry_type c = credit ->
  sum_type ty [d; c] = match ty with debit => amount d | credit => amount c end.
Proof.
  intros D C. unfold sum_type. simpl. rewrite D, C.
  destruct ty; simpl; lia.
Qed.

(** X12. The daily report after a transfer.  For a date on the calendar day
    of a transfer that has returned, the report counts one completed
    transaction and two entries more than before and has both totals raised
    by [amt], so their difference is unchanged: for an amount and totals
    within [precise], the report is balanced when the totals before differed
    by less than 0.01 and unbalanced when they differed by more (the first
    transfer of a day turns the flag of an empty day, [false], into
    [true]). *)
Theorem report_after_transfer env env' date fromUserId toUserId amt md db db'
    res before :
  recordTransfer env fromUserId toUserId amt md db = (db', Returned res) ->
  dayNumber date = dayNumber (now env) ->
  snd (generateDailyReport env' date db) = Returned before ->
  precise amt ->
  precise (totalDebits before) ->
  precise (totalCredits before) ->
  exists after,
    generateDailyReport env' date db' = (db', Returned after)
    /\ transactionCount after = transactionCount before + 1
    /\ totalDebits after = totalDebits before + amt
    /\ totalCredits after = totalCredits before + amt
    /\ totalEntries after = totalEntries before + 2
    /\ (Z.abs (totalDebits before - totalCredits before) < 100 ->
        isBalanced after = true)
    /\ (100 < Z.abs (totalDebits before - totalCredits before) ->
        isBalanced after = false).
Proof.
  intros H D B _ _ _.
  pose proof (generateDailyReport_run _ _ _ db' _ B) as B'.
  pose proof (generateDailyReport_run _ _ _ db _ B) as R.
  rewrite R in B. simpl in B. inversion B; subst before. clear B R.
  exists (report (now env') date db'). split; [exact B' |]. clear B'.
  apply recordTransfer_returned in H.
  destruct H as (lf & lt & _ & _ & _ & _ & _ & _ & ->).
  rewrite view_transfer.
  set (db1 := snd (opened (now env) fromUserId db)) in *.
  set (db2 := snd (opened (now env) toUserId db1)) in *.
  set (fa := fst (opened (now env) fromUserId db)) in *.
  set (ta := fst (opened (now env) toUserId db1)) in *.
  assert (E : extends db db2).
  { eapply extends_trans; apply opened_extends. }
  destruct E as (T & L & _).
  assert (Dd : (dayNumber (now env) =? dayNumber date) = true)
    by (apply Z.eqb_eq; symmetry; exact D).
  assert (W : forall l ts d c,
             created_at d = now env -> created_at c = now env ->
             window date (mkDB l ts (ledger_entries db2 ++ [d; c]))
             = window date db ++ [d; c]).
  { intros l ts d c Cd Cc. unfold window. simpl. rewrite L, filter_app.
    simpl. rewrite !whereBetween_day, Cd, Cc, Dd. reflexivity. }
  assert (C : forall l es tx,
             tx_created_at tx = now env -> tx_status tx = completed ->
             day_transactions date (mkDB l (transactions db2 ++ [tx]) es)
             = day_transactions date db ++ [tx]).
  { intros l es tx Ct Cs. unfold day_transactions. simpl.
    rewrite T, filter_app. simpl.
    rewrite whereBetween_day, Ct, Cs, Dd. reflexivity. }
  unfold report. rewrite W by reflexivity. rewrite C by reflexivity.
  cbn [transactionCount totalDebits totalCredits totalEntries isBalanced].
  rewrite !sum_type_app, !length_app.
  rewrite !sum_type_debit_credit by reflexivity.
  cbn [List.length amount].
  split; [lia |]. split; [lia |]. split; [lia |]. split; [lia |].
  match goal with
  | |- (_ -> ?b = true) /\ _ =>
      assert (F : b = (Z.abs (sum_type debit (window date db)
                              - sum_type credit (window date db)) <? 100))
        by (destruct (window date db) as [| e es]; cbn [app];
            f_equal; f_equal; lia);
      rewrite F
  end.
  split; intros Q; [apply Z.ltb_lt | apply Z.ltb_ge]; lia.
Qed.

(** X13. The daily report after a deposit.  A deposit writes a credit and
    no debit: for a date on the calendar day of a deposit that has returned,
    the report counts one completed transaction and one entry more, the same
    debits and [amt] more credits; for an amount and totals within
    [precise] it is balanced when the old difference of debits and credits
    is less than 0.01 away from [amt] and unbalanced when it is more than
    0.01 away, so a deposit of more than 0.01 into books whose totals agree
    leaves the day unbalanced. *)
Theorem report_after_deposit env env' date userId amt md db db' res before :
  deposit env userId amt md db = (db', Returned res) ->
  dayNumber date = dayNumber (now env) ->
  snd (generateDailyReport env' date db) = Returned before ->
  precise amt ->
  precise (totalDebits before) ->
  precise (totalCredits before) ->
  exists after,
    generateDailyReport env' date db' = (db', Returned after)
    /\ transactionCount after = transactionCount before + 1
    /\ totalDebits after = totalDebits before
    /\ totalCredits after = totalCredits before + amt
    /\ totalEntries after = totalEntries before + 1
    /\ (Z.abs (totalDebits before - totalCredits before - amt) < 100 ->
        isBalanced after = true)
    /\ (100 < Z.abs (totalDebits before - totalCredits before - amt) ->
        isBalanced after = false)
    /\ (totalDebits before = totalCredits before -> 100 < amt ->
        isBalanced after = false).
Proof.
  intros H D B _ _ _.
  pose proof (generateDailyReport_run _ _ _ db' _ B) as B'.
  pose proof (generateDailyReport_run _ _ _ db _ B) as R.
  rewrite R in B. simpl in B. inversion B; subst before. clear B R.
  exists (report (now env') date db'). split; [exact B' |]. clear B'.
  apply deposit_committed in H. destruct H as (la & _ & _ & ->).
  set (db1 := snd (opened (now env) userId db)) in *.
  assert (E : extends db db1) by apply opened_extends.
  destruct E as (T & L & _).
  assert (Dd : (dayNumber (now env) =? dayNumber date) = true)
    by (apply Z.eqb_eq; symmetry; exact D).
  assert (W : forall l ts c,
             created_at c = now env ->
             window date (mkDB l ts (ledger_entries db1 ++ [c]))
             = window date db ++ [c]).
  { intros l ts c Cc. unfold window. simpl. rewrite L, filter_app.
    simpl. rewrite !whereBetween_day, Cc, Dd. reflexivity. }
  assert (C : forall l es tx,
             tx_created_at tx = now env -> tx_status tx = completed ->
             day_transactions date (mkDB l (transactions db1 ++ [tx]) es)
             = day_transactions date db ++ [tx]).
  { intros l es tx Ct Cs. unfold day_transactions. simpl.
    rewrite T, filter_app. simpl.
    rewrite whereBetween_day, Ct, Cs, Dd. reflexivity. }
  unfold report. rewrite W by reflexivity. rewrite C by reflexivity.
  cbn [transactionCount totalDebits totalCredits totalEntries isBalanced].
  rewrite !sum_type_app, !length_app.
  change (sum_type debit [?c]) with 0.
  match goal with
  | |- context [sum_type credit [?c]] =>
      change (sum_type credit [c]) with (amt + 0)
  end.
  cbn [List.length].
  assert (F : (match window date db ++
                     [mkLedgerEntry (trn env)
                        (acc_id (fst (opened (now env) userId db))) credit amt
                        (balance la + amt)
                        (("description", MString "Deposit to wallet") :: md)
                        (now env)]
               with
               | [] => false
               | _ :: _ =>
                   Z.abs (sum_type debit (window date db) + 0
                          - (sum_type credit (window date db) + (amt + 0)))
                   <? 100
               end)
              = (Z.abs (sum_type debit (window date db)
                        - sum_type credit (window date db) - amt) <? 100)).
  { destruct (window date db) as [| e es]; cbn [app];
      f_equal; f_equal; lia. }
  rewrite F.
  split; [lia |]. split; [lia |]. split; [lia |]. split; [lia |].
  split; [intros Q; apply Z.ltb_lt; lia |].
  split; [intros Q; apply Z.ltb_ge; lia |].
  intros Q A. apply Z.ltb_ge. lia.
Qed.

End LedgerMoreFacts.

(** ** Runs on the sample data *)




Lemma getOrCreateAccount_round_trip_witness :
  exists db1 a,
    Ledger.getOrCreateAccount Sample.env SelectFromAccount InsertFromAccount
      30 Ledger.customer_wallet Sample.db
    = (db1, Returned a)
    /\ Ledger.acc_id a = 3
    /\ faults Sample.env SelectToAccount = false
    /\ Ledger.getOrCreateAccount Sample.env SelectToAccount InsertToAccount
         30 Ledger.customer_wallet db1
       = (db1, Returned a).
Proof.
  assert (E : Ledger.getOrCreateAccount Sample.env SelectFromAccount
                InsertFromAccount 30 Ledger.customer_wallet Sample.db
              = (Ledger.mkDB
                   [Sample.alice; Sample.bob;
                    Ledger.mkAccount 3 30 Ledger.customer_wallet 0
                      Ledger.active Sample.noon] [] [],
                 Returned (Ledger.mkAccount 3 30 Ledger.customer_wallet 0
                             Ledger.active Sample.noon)))
    by (vm_compute; reflexivity).
  do 2 eexists. split; [exact E |]. split; [reflexivity |].
  split; [reflexivity |].
  destruct (getOrCreateAccount_round_trip _ _ _ _ _ _ _ _ E)
    as (_ & _ & _ & _ & R).
  exact (R Sample.env SelectToAccount InsertToAccount eq_refl).
Defined.

Lemma report_after_transfer_witness :
  dayNumber Sample.noon = dayNumber (now Sample.env)
  /\ precise (PKR 3000)
  /\ precise 0
  /\ exists db' before after,
       Ledger.recordTransfer Sample.env 10 20 (PKR 3000) [] Sample.db
       = (db', Returned (Ledger.mkTransferResult (trn Sample.env) (PKR 7000)
                           (PKR 3500) Sample.noon))
       /\ snd (Ledger.generateDailyReport Sample.env Sample.noon Sample.db)
          = Returned before
       /\ Ledger.isBalanced before = false
       /\ Ledger.generateDailyReport Sample.env Sample.noon db'
          = (db', Returned after)
       /\ Ledger.isBalanced after = true.
Proof.
  assert (D : dayNumber Sample.noon = dayNumber (now Sample.env))
    by reflexivity.
  assert (E : Ledger.recordTransfer Sample.env 10 20 (PKR 3000) [] Sample.db
              = (fst (Ledger.recordTransfer Sample.env 10 20 (PKR 3000) []
                        Sample.db),
                 Returned (Ledger.mkTransferResult (trn Sample.env) (PKR 7000)
                             (PKR 3500) Sample.noon)))
    by (vm_compute; reflexivity).
  assert (B : snd (Ledger.generateDailyReport Sample.env Sample.noon Sample.db)
              = Returned (Ledger.mkDailyReport Sample.noon 0 0 0 0 false
                            Sample.noon))
    by (vm_compute; reflexivity).
  assert (P1 : precise (PKR 3000)) by (vm_compute; discriminate).
  assert (P0 : precise 0) by (vm_compute; discriminate).
  split; [exact D |]. split; [exact P1 |]. split; [exact P0 |].
  destruct (report_after_transfer _ Sample.env _ _ _ _ _ _ _ _ _ E D B
              P1 P0 P0)
    as (after & R & _ & _ & _ & _ & F & _).
  do 3 eexists. split; [exact E |]. split; [exact B |].
  split; [reflexivity |]. split; [exact R |]. apply F. reflexivity.
Defined.

Lemma report_after_deposit_witness :
  dayNumber Sample.noon = dayNumber (now Sample.env)
  /\ precise (PKR 3000)
  /\ precise 0
  /\ exists db' before after,
       Ledger.deposit Sample.env 20 (PKR 3000) [] Sample.db
       = (db', Returned (Ledger.mkDepositResult (trn Sample.env) (PKR 3500)
                           Sample.noon))
       /\ snd (Ledger.generateDailyReport Sample.env Sample.noon Sample.db)
          = Returned before
       /\ Ledger.generateDailyReport Sample.env Sample.noon db'
          = (db', Returned after)
       /\ Ledger.totalCredits after = Ledger.totalCredits before + PKR 3000
       /\ Ledger.isBalanced after = false.
Proof.
  assert (D : dayNumber Sample.noon = dayNumber (now Sample.env))
    by reflexivity.
  assert (E : Ledger.deposit Sample.env 20 (PKR 3000) [] Sample.db
              = (fst (Ledger.deposit Sample.env 20 (PKR 3000) [] Sample.db),
                 Returned (Ledger.mkDepositResult (trn Sample.env) (PKR 3500)
                             Sample.noon)))
    by (vm_compute; reflexivity).
  assert (B : snd (Ledger.generateDailyReport Sample.env Sample.noon Sample.db)
              = Returned (Ledger.mkDailyReport Sample.noon 0 0 0 0 false
                            Sample.noon))
    by (vm_compute; reflexivity).
  assert (P1 : precise (PKR 3000)) by (vm_compute; discriminate).
  assert (P0 : precise 0) by (vm_compute; discriminate).
  split; [exact D |]. split; [exact P1 |]. split; [exact P0 |].
  destruct (report_after_deposit _ Sample.env _ _ _ _ _ _ _ _ E D B P1 P0 P0)
    as (after & R & _ & _ & C & _ & _ & _ & F).
  do 3 eexists. split; [exact E |]. split; [exact B |].
  split; [exact R |]. split; [exact C |].
  apply F; reflexivity.
Defined.

(** * Further facts about the limit tracker *)

Section LimitsMoreFacts.
Import Limits Pg LimitsMore.

Variable initialize_user_limits : UserId -> DB -> DB.

Let check := checkTransactionLimits initialize_user_limits.

(** The limits object after the two resets. *)
Let reset_row (t : JSDate) (row : UserLimits) : UserLimits :=
  mkUserLimits (kyc_level row) (daily_limit row) (monthly_limit row)
    (per_transaction_limit row) (daily_counter t row) (monthly_counter t row)
    (daily_reset_at row) (monthly_reset_at row).

(** The checks on the limits object. *)
Let checks (amt : Money) (ul : UserLimits) : M DB LimitCheck :=
  if kyc_level ul =? 0
  then
    limits <- formatLimitsResponse ul ;;
    ret (mkLimitCheck false (Some KycRequired) limits None None)
  else if per_transaction_limit ul <? amt
  then
    limits <- formatLimitsResponse ul ;;
    ret (mkLimitCheck false
           (Some (PerTransactionExceeded (per_transaction_limit ul)))
           limits None None)
  else if daily_limit ul <? daily_spent ul + amt
  then
    limits <- formatLimitsResponse ul ;;
    ret (mkLimitCheck false
           (Some (DailyExceeded (daily_limit ul - daily_spent ul))) limits
           None None)
  else if monthly_limit ul <? monthly_spent ul + amt
  then
    limits <- formatLimitsResponse ul ;;
    ret (mkLimitCheck false
           (Some (MonthlyExceeded (monthly_limit ul - monthly_spent ul)))
           limits None None)
  else
    limits <- formatLimitsResponse ul ;;
    ret (mkLimitCheck true None limits
           (Some (daily_spent ul + amt)) (Some (monthly_spent ul + amt))).

(** A run over an existing row: the resets that are due, then the checks. *)
Lemma check_returned env userId amt db row rest st r :
  limitsQuery userId db = row :: rest ->
  check env userId amt db = (st, Returned r) ->
  faults env SelectLimits = false
  /\ st = after_resets (now env) userId row db
  /\ checks amt (reset_row (now env) row) st = (st, Returned r).
Proof.
  intros Q H. unfold check, checkTransactionLimits in H.
  apply bind_returned in H. destruct H as (? & s1 & H1 & H).
  apply statement_returned in H1. destruct H1 as [-> F].
  apply bind_returned in H. destruct H as (d & s2 & H2 & H).
  unfold get in H2. inversion H2; subst d s2; clear H2.
  rewrite Q in H.
  apply bind_returned in H. destruct H as (rows & s2 & H2 & H).
  unfold ret in H2. inversion H2; subst rows s2; clear H2.
  simpl hd_error in H. cbv beta iota zeta in H.
  apply bind_returned in H. destruct H as (ul1 & s3 & H3 & H).
  apply bind_returned in H. destruct H as (ul2 & s4 & H4 & H).
  fold (daily_due (now env) row) in H3.
  assert (E3 : s3 = (if daily_due (now env) row
                     then reset_daily userId (now env) db else db)
               /\ ul1 = mkUserLimits (kyc_level row) (daily_limit row)
                          (monthly_limit row) (per_transaction_limit row)
                          (daily_counter (now env) row) (monthly_spent row)
                          (daily_reset_at row) (monthly_reset_at row)).
  { unfold daily_counter. destruct (daily_due (now env) row).
    - unfold bind, statement, modify, ret in H3.
      destruct (faults env ResetDaily); inversion H3; auto.
    - inversion H3; subst. destruct ul1; auto. }
  clear H3. destruct E3 as [-> ->]. cbn [monthly_reset_at] in H4.
  fold (monthly_due (now env) row) in H4.
  assert (E4 : s4 = after_resets (now env) userId row db
               /\ ul2 = reset_row (now env) row).
  { unfold after_resets, reset_row, monthly_counter.
    destruct (monthly_due (now env) row).
    - unfold bind, statement, modify, ret in H4.
      destruct (faults env ResetMonthly); inversion H4; auto.
    - inversion H4; subst. auto. }
  clear H4. destruct E4 as [-> ->].
  split; [exact F |].
  assert (S : st = after_resets (now env) userId row db).
  { unfold formatLimitsResponse in H.
    repeat match type of H with
           | (if ?c then _ else _) _ = _ => destruct c
           end;
      unfold bind, ret, throw in H;
      destruct (KYC_LIMITS _); inversion H; reflexivity. }
  split; [exact S |]. subst st. exact H.
Qed.

Lemma check_run env userId amt db row rest :
  limitsQuery userId db = row :: rest ->
  faults env SelectLimits = false ->
  (daily_due (now env) row = true -> faults env ResetDaily = false) ->
  (monthly_due (now env) row = true -> faults env ResetMonthly = false) ->
  check env userId amt db
  = checks amt (reset_row (now env) row) (after_resets (now env) userId row db).
Proof.
  intros Q F FD FM.
  unfold check, checkTransactionLimits, after_resets, reset_row,
    daily_counter, monthly_counter.
  unfold bind at 1. unfold statement at 1. rewrite F.
  unfold bind at 1. unfold get at 1. rewrite Q.
  unfold bind at 1. unfold ret at 1. cbn [hd_error]. cbv beta iota zeta.
  fold (daily_due (now env) row).
  destruct (daily_due (now env) row) eqn:D.
  - specialize (FD eq_refl).
    rewrite (bind_value _ _ db (reset_daily userId (now env) db)
               (mkUserLimits (kyc_level row) (daily_limit row)
                  (monthly_limit row) (per_transaction_limit row)
                  0 (monthly_spent row)
                  (daily_reset_at row) (monthly_reset_at row)))
      by (unfold bind, statement, modify, ret; rewrite FD; reflexivity).
    cbn [monthly_reset_at]. fold (monthly_due (now env) row).
    destruct (monthly_due (now env) row) eqn:Mo.
    + specialize (FM eq_refl).
      rewrite (bind_value _ _ _
                 (reset_monthly userId (now env)
                    (reset_daily userId (now env) db))
                 (mkUserLimits (kyc_level row) (daily_limit row)
                    (monthly_limit row) (per_transaction_limit row)
                    0 0 (daily_reset_at row) (monthly_reset_at row)))
        by (unfold bind, statement, modify, ret; rewrite FM; reflexivity).
      reflexivity.
    + rewrite bind_ret. reflexivity.
  - rewrite bind_ret.
    fold (monthly_due (now env) row).
    destruct (monthly_due (now env) row) eqn:Mo.
    + specialize (FM eq_refl).
      rewrite (bind_value _ _ _ (reset_monthly userId (now env) db)
                 (mkUserLimits (kyc_level row) (daily_limit row)
                    (monthly_limit row) (per_transaction_limit row)
                    (daily_spent row) 0
                    (daily_reset_at row) (monthly_reset_at row)))
        by (unfold bind, statement, modify, ret; rewrite FM; reflexivity).
      reflexivity.
    + rewrite bind_ret. destruct row; reflexivity.
Qed.

(** The answer of the checks, and the limits reported with it. *)
Let verdict (amt : Money) (ul : UserLimits)
  : bool * option Reason * option Money * option Money :=
  if kyc_level ul =? 0 then (false, Some KycRequired, None, None)
  else if per_transaction_limit ul <? amt
  then (false, Some (PerTransactionExceeded (per_transaction_limit ul)),
        None, None)
  else if daily_limit ul <? daily_spent ul + amt
  then (false, Some (DailyExceeded (daily_limit ul - daily_spent ul)),
        None, None)
  else if monthly_limit ul <? monthly_spent ul + amt
  then (false, Some (MonthlyExceeded (monthly_limit ul - monthly_spent ul)),
        None, None)
  else (true, None, Some (daily_spent ul + amt),
        Some (monthly_spent ul + amt)).

Let response (ul : UserLimits) (tier : KycTier) : LimitsResponse :=
  mkLimitsResponse (kyc_level ul) (name tier)
    (daily_limit ul) (monthly_limit ul) (per_transaction_limit ul)
    (daily_spent ul) (monthly_spent ul)
    (daily_limit ul - daily_spent ul)
    (monthly_limit ul - monthly_spent ul)
    (daily_reset_at ul) (monthly_reset_at ul).

Lemma checks_run amt ul tier st :
  KYC_LIMITS (kyc_level ul) = Some tier ->
  checks amt ul st
  = (st, Returned (let '(a, why, d, m) := verdict amt ul in
                   mkLimitCheck a why (response ul tier) d m)).
Proof.
  intros T. unfold checks, verdict, formatLimitsResponse. rewrite T.
  repeat match goal with
         | |- context [if ?c then _ else _] => destruct c
         end;
    reflexivity.
Qed.

Lemma checks_returned amt ul st st' r :
  checks amt ul st = (st', Returned r) ->
  exists tier,
    KYC_LIMITS (kyc_level ul) = Some tier
    /\ limits r = response ul tier
    /\ (allowed r, reason r, newDailyTotal r, newMonthlyTotal r)
       = verdict amt ul.
Proof.
  intros H. destruct (KYC_LIMITS (kyc_level ul)) as [tier |] eqn:T.
  - exists tier. split; [reflexivity |].
    rewrite (checks_run _ _ _ _ T) in H. inversion H; subst.
    destruct (verdict amt ul) as [[[a why] d] m]. split; reflexivity.
  - exfalso. unfold checks, formatLimitsResponse in H. rewrite T in H.
    repeat match type of H with
           | (if ?c then _ else _) _ = _ => destruct c
           end;
      unfold bind, throw in H; discriminate.
Qed.

(** X14. The decision of [checkTransactionLimits] on an existing limits row,
    for an amount and a row within [precise].  A call that returns has
    written the resets that were due and nothing else.  It allows the
    payment only when the user is verified (KYC level other than 0), the
    amount is within the stored per-transaction limit and, added to the
    daily and monthly counters (zero when reset), within the stored daily
    and monthly limits; and it does allow it when, besides, the two sums are
    strictly below their limits (where a sum equals its limit the rounding
    of the doubles decides).  The sign of the amount is not looked at.  A
    refusal names the first check that failed, in the order KYC, per
    transaction, daily, monthly; the limits reported are those of the row
    and the counters after the resets. *)
Theorem checkTransactionLimits_decision env userId amt db row rest st r :
  limitsQuery userId db = row :: rest ->
  checkTransactionLimits initialize_user_limits env userId amt db
  = (st, Returned r) ->
  let t := now env in
  precise_row amt t row ->
  st = after_resets t userId row db
  /\ (allowed r = true -> within_limits amt t row)
  /\ (strictly_within_limits amt t row -> allowed r = true)
  /\ (allowed r = true -> reason r = None)
  /\ (allowed r = false ->
      newDailyTotal r = None /\ newMonthlyTotal r = None
      /\ exists why, reason r = Some why)
  /\ (reason r = Some KycRequired <-> kyc_level row = 0)
  /\ (reason r = Some (PerTransactionExceeded (per_transaction_limit row))
      <-> kyc_level row <> 0 /\ per_transaction_limit row < amt)
  /\ (forall remainingDaily,
        reason r = Some (DailyExceeded remainingDaily) ->
        kyc_level row <> 0 /\ amt <= per_transaction_limit row
        /\ daily_limit row <= daily_counter t row + amt)
  /\ (kyc_level row <> 0 -> amt <= per_transaction_limit row ->
      daily_limit row < daily_counter t row + amt ->
      exists remainingDaily, reason r = Some (DailyExceeded remainingDaily))
  /\ (forall remainingMonthly,
        reason r = Some (MonthlyExceeded remainingMonthly) ->
        kyc_level row <> 0 /\ amt <= per_transaction_limit row
        /\ daily_counter t row + amt <= daily_limit row
        /\ monthly_limit row <= monthly_counter t row + amt)
  /\ (kyc_level row <> 0 -> amt <= per_transaction_limit row ->
      daily_counter t row + amt < daily_limit row ->
      monthly_limit row < monthly_counter t row + amt ->
      exists remainingMonthly,
        reason r = Some (MonthlyExceeded remainingMonthly))
  /\ kycLevel (limits r) = kyc_level row
  /\ limit_perTransaction (limits r) = per_transaction_limit row
  /\ limit_daily (limits r) = daily_limit row
  /\ limit_monthly (limits r) = monthly_limit row
  /\ spent_daily (limits r) = daily_counter t row
  /\ spent_monthly (limits r) = monthly_counter t row.
Proof.
  intros Q H t _.
  destruct (check_returned _ _ _ _ _ _ _ _ Q H) as (_ & S & C).
  split; [exact S |].
  apply checks_returned in C. destruct C as (tier & _ & L & V).
  fold t in L, V. rewrite L. unfold verdict, response in *. cbn in V |- *.
  unfold within_limits, strictly_within_limits.
  destruct (Z.eqb_spec (kyc_level row) 0) as [K0 | K0];
    [| destruct (Z.ltb_spec (per_transaction_limit row) amt) as [P | P];
       [| destruct (Z.ltb_spec (daily_limit row) (daily_counter t row + amt))
            as [Dl | Dl];
          [| destruct (Z.ltb_spec (monthly_limit row)
                         (monthly_counter t row + amt)) as [Ml | Ml]]]];
    injection V as A R D Mo; rewrite A, R, D, Mo;
    repeat split; intros;
    solve [ congruence | lia | tauto | intuition lia | intuition congruence
          | eexists; reflexivity ].
Qed.

(** ** Checking again *)

Lemma limitsQuery_reset_daily userId t db :
  limitsQuery userId (reset_daily userId t db)
  = map (fun r => mkUserLimits (kyc_level r) (daily_limit r) (monthly_limit r)
                    (per_transaction_limit r) 0 (monthly_spent r)
                    t (monthly_reset_at r))
        (limitsQuery userId db).
Proof.
  unfold limitsQuery, reset_daily. cbn [users user_limits].
  induction (user_limits db) as [| ul l IH]; [reflexivity |].
  cbn [map flat_map]. rewrite map_app, <- IH.
  destruct (ul_user_id ul =? userId) eqn:E.
  - cbn [ul_user_id]. rewrite E. cbn. rewrite map_map. reflexivity.
  - rewrite E. reflexivity.
Qed.

Lemma limitsQuery_reset_monthly userId t db :
  limitsQuery userId (reset_monthly userId t db)
  = map (fun r => mkUserLimits (kyc_level r) (daily_limit r) (monthly_limit r)
                    (per_transaction_limit r) (daily_spent r) 0
                    (daily_reset_at r) t)
        (limitsQuery userId db).
Proof.
  unfold limitsQuery, reset_monthly. cbn [users user_limits].
  induction (user_limits db) as [| ul l IH]; [reflexivity |].
  cbn [map flat_map]. rewrite map_app, <- IH.
  destruct (ul_user_id ul =? userId) eqn:E.
  - cbn [ul_user_id]. rewrite E. cbn. rewrite map_map. reflexivity.
  - rewrite E. reflexivity.
Qed.

(** The row a second query finds once the resets are written. *)
Lemma limitsQuery_after_resets userId t db row rest :
  limitsQuery userId db = row :: rest ->
  exists rest',
    limitsQuery userId (after_resets t userId row db)
    = mkUserLimits (kyc_level row) (daily_limit row) (monthly_limit row)
        (per_transaction_limit row)
        (daily_counter t row) (monthly_counter t row)
        (if daily_due t row then t else daily_reset_at row)
        (if monthly_due t row then t else monthly_reset_at row)
      :: rest'.
Proof.
  intros Q. unfold after_resets, daily_counter, monthly_counter.
  destruct (daily_due t row), (monthly_due t row);
    rewrite ?limitsQuery_reset_monthly, ?limitsQuery_reset_daily, Q;
    cbn [map]; eexists; try reflexivity.
  destruct row; reflexivity.
Qed.

(** X15. Checking consumes nothing.  After a check over an existing limits
    row has returned, the same check at the same time returns again, changes
    nothing in the store, and gives the same decision, reason, totals,
    limits, counters and remaining amounts: a payment that was allowed
    stays allowed however often it is checked, until [updateSpentAmounts]
    records it. *)
Theorem checkTransactionLimits_repeatable env userId amt db row rest st r :
  limitsQuery userId db = row :: rest ->
  checkTransactionLimits initialize_user_limits env userId amt db
  = (st, Returned r) ->
  exists r',
    checkTransactionLimits initialize_user_limits env userId amt st
    = (st, Returned r')
    /\ allowed r' = allowed r /\ reason r' = reason r
    /\ newDailyTotal r' = newDailyTotal r
    /\ newMonthlyTotal r' = newMonthlyTotal r
    /\ kycLevel (limits r') = kycLevel (limits r)
    /\ kycName (limits r') = kycName (limits r)
    /\ limit_perTransaction (limits r') = limit_perTransaction (limits r)
    /\ limit_daily (limits r') = limit_daily (limits r)
    /\ limit_monthly (limits r') = limit_monthly (limits r)
    /\ spent_daily (limits r') = spent_daily (limits r)
    /\ spent_monthly (limits r') = spent_monthly (limits r)
    /\ remaining_daily (limits r') = remaining_daily (limits r)
    /\ remaining_monthly (limits r') = remaining_monthly (limits r).
Proof.
  intros Q H.
  destruct (check_returned _ _ _ _ _ _ _ _ Q H) as (F & S & C).
  destruct (limitsQuery_after_resets userId (now env) db row rest Q)
    as (rest' & Q').
  rewrite <- S in Q'.
  set (row' := mkUserLimits (kyc_level row) (daily_limit row)
                 (monthly_limit row) (per_transaction_limit row)
                 (daily_counter (now env) row) (monthly_counter (now env) row)
                 (if daily_due (now env) row then now env
                  else daily_reset_at row)
                 (if monthly_due (now env) row then now env
                  else monthly_reset_at row)) in *.
  assert (D : daily_due (now env) row' = false).
  { unfold daily_due, row'. cbn [daily_reset_at].
    destruct (daily_due (now env) row) eqn:E.
    - rewrite Z.eqb_refl. reflexivity.
    - exact E. }
  assert (Mo : monthly_due (now env) row' = false).
  { unfold monthly_due, row'. cbn [monthly_reset_at].
    destruct (monthly_due (now env) row) eqn:E.
    - rewrite !Z.eqb_refl. reflexivity.
    - exact E. }
  assert (R : check env userId amt st = checks amt row' st).
  { rewrite (check_run env userId amt st row' rest' Q' F)
      by (rewrite ?D, ?Mo; discriminate).
    unfold after_resets, reset_row, daily_counter, monthly_counter.
    rewrite D, Mo. reflexivity. }
  apply checks_returned in C. destruct C as (tier & T & L & V).
  assert (T' : KYC_LIMITS (kyc_level row') = Some tier) by exact T.
  fold check. rewrite R, (checks_run amt row' tier st T').
  eexists. split; [reflexivity |].
  assert (V' : verdict amt row' = verdict amt (reset_row (now env) row))
    by reflexivity.
  rewrite V', <- V, L. cbn. repeat split; reflexivity.
Qed.

(** ** The middleware *)


(** ** Recording what was spent *)

Lemma limitsQuery_add_spent u userId amount t :
  limitsQuery u (core (add_spent userId amount t))
  = if u =? userId then map (spend amount) (limitsQuery u (core t))
    else limitsQuery u (core t).
Proof.
  unfold limitsQuery, add_spent. cbn [core users user_limits].
  induction (user_limits (core t)) as [| ul l IH]; cbn [map flat_map].
  - destruct (u =? userId); reflexivity.
  - rewrite IH. clear IH.
    destruct (Z.eqb_spec (ul_user_id ul) userId) as [E | NE].
    + cbn [ul_user_id]. destruct (Z.eqb_spec u userId) as [-> | NU].
      * rewrite E, Z.eqb_refl. rewrite map_app, map_map. reflexivity.
      * destruct (Z.eqb_spec (ul_user_id ul) u) as [C | _]; [| reflexivity].
        exfalso. apply NU. rewrite <- C. exact E.
    + destruct (Z.eqb_spec u userId) as [-> | NU].
      * destruct (Z.eqb_spec (ul_user_id ul) userId) as [C | _];
          [contradiction | reflexivity].
      * reflexivity.
Qed.

(** A call that returns has committed its two writes. *)
Lemma updateSpentAmounts_run conn userId amount ref ty tables c' b :
  updateSpentAmounts conn userId amount ref ty (mkClient tables None)
  = (c', Returned b) ->
  c' = mkClient
         (insert_limit_transaction
            (mkLimitTransaction userId ref amount ty
               (dayNumber (now (base conn))))
            (add_spent userId amount tables))
         None
  /\ limitsQuery userId (core (committed c'))
     = map (spend amount) (limitsQuery userId (core tables))
  /\ b = true.
Proof.
  unfold updateSpentAmounts, try_catch, bind, query, modify, throw, ret.
  intros H.
  destruct (rejects conn Begin); [destruct (rejects conn Rollback);
                                  discriminate |].
  destruct (rejects conn UpdateSpent);
    [destruct (rejects conn Rollback); discriminate |].
  destruct (rejects conn InsertLimitTransaction);
    [destruct (rejects conn Rollback); discriminate |].
  destruct (rejects conn CommitWork);
    [destruct (rejects conn Rollback); discriminate |].
  cbn in H. inversion H; subst. split; [reflexivity |].
  split; [| reflexivity]. cbn [committed].
  unfold insert_limit_transaction. cbn [core].
  rewrite limitsQuery_add_spent, Z.eqb_refl. reflexivity.
Qed.

(** X17. [updateSpentAmounts] is all or nothing and checks nothing.  From a
    client without an open transaction, a call that throws has committed
    nothing (and has closed its transaction unless the [ROLLBACK] itself is
    rejected); a call that returns has added [amount], whatever its sign and
    whatever the limits, to the daily and the monthly counter of every
    limits row of the user, has left the rows of the other users as they
    were, and has recorded the payment in [limit_transactions]. *)
Theorem updateSpentAmounts_effect conn userId amount ref ty tables c' r :
  updateSpentAmounts conn userId amount ref ty (mkClient tables None) = (c', r) ->
  (thrown r ->
     committed c' = tables
     /\ (rejects conn Rollback = None -> working c' = None))
  /\ (forall b, r = Returned b ->
        b = true /\ working c' = None
        /\ limitsQuery userId (core (committed c'))
           = map (spend amount) (limitsQuery userId (core tables))
        /\ (forall u, u <> userId ->
              limitsQuery u (core (committed c'))
              = limitsQuery u (core tables))
        /\ users (core (committed c')) = users (core tables)
        /\ limit_transactions (committed c')
           = limit_transactions tables
             ++ [mkLimitTransaction userId ref amount ty
                   (dayNumber (now (base conn)))]).
Proof.
  intros H. split.
  - unfold updateSpentAmounts, try_catch, bind, query, modify, throw, ret in H.
    destruct r as [b | e]; [intros [] | intros _].
    destruct (rejects conn Begin), (rejects conn UpdateSpent),
      (rejects conn InsertLimitTransaction), (rejects conn CommitWork),
      (rejects conn Rollback);
      cbn in H; inversion H; subst; split; try reflexivity;
      intros C; discriminate.
  - intros b ->.
    destruct (updateSpentAmounts_run _ _ _ _ _ _ _ _ H) as (-> & Q & ->).
    split; [reflexivity |]. split; [reflexivity |].
    split; [exact Q |]. cbn [committed].
    unfold insert_limit_transaction. cbn [core limit_transactions].
    split; [| split; reflexivity].
    intros u NE. rewrite limitsQuery_add_spent.
    apply Z.eqb_neq in NE. rewrite NE. reflexivity.
Qed.

(** X18. Check, then record.  When [checkTransactionLimits] has allowed a
    payment over an existing limits row, amount and row within [precise],
    and [updateSpentAmounts] has then recorded it, the stored counters of
    the row are the counters of the check (zero when reset) plus [amount],
    both within the stored limits, and a check made afterwards at the same
    time reports [amount] more spent, the remaining amounts still not
    negative. *)
Theorem spent_within_limits_after_check env conn userId amt ref ty db row rest
    st r lts c' b :
  limitsQuery userId db = row :: rest ->
  checkTransactionLimits initialize_user_limits env userId amt db
  = (st, Returned r) ->
  allowed r = true ->
  updateSpentAmounts conn userId amt ref ty (mkClient (mkTables st lts) None)
  = (c', Returned b) ->
  precise_row amt (now env) row ->
  (exists row' rest',
     limitsQuery userId (core (committed c')) = row' :: rest'
     /\ daily_spent row' = daily_counter (now env) row + amt
     /\ monthly_spent row' = monthly_counter (now env) row + amt
     /\ daily_limit row' = daily_limit row
     /\ monthly_limit row' = monthly_limit row
     /\ daily_spent row' <= daily_limit row'
     /\ monthly_spent row' <= monthly_limit row')
  /\ forall amt' st' r',
       checkTransactionLimits initialize_user_limits env userId amt'
         (core (committed c'))
       = (st', Returned r') ->
       spent_daily (limits r') = spent_daily (limits r) + amt
       /\ spent_monthly (limits r') = spent_monthly (limits r) + amt
       /\ 0 <= remaining_daily (limits r')
       /\ 0 <= remaining_monthly (limits r').
Proof.
  intros Q H A U _.
  destruct (check_returned _ _ _ _ _ _ _ _ Q H) as (F & S & C).
  destruct (limitsQuery_after_resets userId (now env) db row rest Q)
    as (rest1 & Q1).
  rewrite <- S in Q1.
  apply checks_returned in C. destruct C as (tier & T & L & V).
  unfold verdict in V. cbn in V.
  destruct (kyc_level row =? 0); [rewrite A in V; discriminate |].
  destruct (per_transaction_limit row <? amt);
    [rewrite A in V; discriminate |].
  destruct (Z.ltb_spec (daily_limit row) (daily_counter (now env) row + amt))
    as [| Dl]; [rewrite A in V; discriminate |].
  destruct (Z.ltb_spec (monthly_limit row)
              (monthly_counter (now env) row + amt))
    as [| Ml]; [rewrite A in V; discriminate |].
  inversion V as [[A' R' D' M']]. clear V.
  destruct (updateSpentAmounts_run _ _ _ _ _ _ _ _ U) as (_ & Q2 & _).
  cbn [core] in Q2. rewrite Q1 in Q2. cbn [map] in Q2.
  split.
  - do 2 eexists. split; [exact Q2 |]. cbn.
    repeat split; solve [assumption | reflexivity].
  - intros amt' st' r' H'.
    destruct (check_returned _ _ _ _ _ _ _ _ Q2 H') as (_ & _ & C').
    apply checks_returned in C'. destruct C' as (tier' & _ & L' & _).
    rewrite L', L. unfold response, reset_row.
    cbn [spent_daily spent_monthly remaining_daily remaining_monthly
         daily_spent monthly_spent daily_limit monthly_limit].
    assert (Dd : daily_counter (now env)
                   (spend amt
                      (mkUserLimits (kyc_level row) (daily_limit row)
                         (monthly_limit row) (per_transaction_limit row)
                         (daily_counter (now env) row)
                         (monthly_counter (now env) row)
                         (if daily_due (now env) row then now env
                          else daily_reset_at row)
                         (if monthly_due (now env) row then now env
                          else monthly_reset_at row)))
                 = daily_counter (now env) row + amt).
    { unfold daily_counter at 1. unfold daily_due at 1, spend.
      cbn [daily_reset_at daily_spent].
      destruct (daily_due (now env) row) eqn:E.
      - rewrite Z.eqb_refl. reflexivity.
      - unfold daily_due in E. rewrite E. reflexivity. }
    assert (Dm : monthly_counter (now env)
                   (spend amt
                      (mkUserLimits (kyc_level row) (daily_limit row)
                         (monthly_limit row) (per_transaction_limit row)
                         (daily_counter (now env) row)
                         (monthly_counter (now env) row)
                         (if daily_due (now env) row then now env
                          else daily_reset_at row)
                         (if monthly_due (now env) row then now env
                          else monthly_reset_at row)))
                 = monthly_counter (now env) row + amt).
    { unfold monthly_counter at 1. unfold monthly_due at 1, spend.
      cbn [monthly_reset_at monthly_spent].
      destruct (monthly_due (now env) row) eqn:E.
      - rewrite !Z.eqb_refl. reflexivity.
      - unfold monthly_due in E. rewrite E. reflexivity. }
    rewrite Dd, Dm. unfold spend. cbn [daily_limit monthly_limit].
    repeat split; lia.
Qed.

(** ** Changing the KYC level *)

Lemma joined_users_set_kyc_level userId newLevel k (f : Z -> UserLimits) us :
  map (fun u => f (u_kyc_level u))
    (filter (fun u => u_id u =? k)
       (map (fun u => if u_id u =? userId then mkUser (u_id u) newLevel else u)
          us))
  = map (fun u => f (if k =? userId then newLevel else u_kyc_level u))
      (filter (fun u => u_id u =? k) us).
Proof.
  induction us as [| u us IH]; [reflexivity |]. cbn [map filter].
  destruct (Z.eqb_spec (u_id u) userId) as [E | NE]; cbn [u_id].
  - destruct (Z.eqb_spec (u_id u) k) as [K | NK].
    + cbn [map u_kyc_level]. rewrite IH, <- K, E, Z.eqb_refl. reflexivity.
    + exact IH.
  - destruct (Z.eqb_spec (u_id u) k) as [K | NK].
    + cbn [map]. rewrite IH. f_equal.
      destruct (Z.eqb_spec k userId) as [C | _]; [| reflexivity].
      exfalso. apply NE. rewrite K. exact C.
    + exact IH.
Qed.

Lemma limitsQuery_upgraded u userId newLevel tier t :
  limitsQuery u (core (set_limits userId tier (set_kyc_level userId newLevel t)))
  = if u =? userId
    then map (upgraded newLevel tier) (limitsQuery u (core t))
    else limitsQuery u (core t).
Proof.
  unfold limitsQuery, set_limits, set_kyc_level.
  cbn [core users user_limits].
  induction (user_limits (core t)) as [| ul l IH]; cbn [map flat_map].
  - destruct (u =? userId); reflexivity.
  - rewrite IH. clear IH.
    destruct (Z.eqb_spec (ul_user_id ul) userId) as [E | NE].
    + cbn [ul_user_id ul_daily_limit ul_monthly_limit
           ul_per_transaction_limit ul_daily_spent ul_monthly_spent
           ul_daily_reset_at ul_monthly_reset_at].
      destruct (Z.eqb_spec u userId) as [-> | NU].
      * rewrite E, Z.eqb_refl. rewrite map_app. f_equal.
        rewrite (joined_users_set_kyc_level userId newLevel userId
                   (fun k => mkUserLimits k (daily tier) (monthly tier)
                               (perTransaction tier) (ul_daily_spent ul)
                               (ul_monthly_spent ul) (ul_daily_reset_at ul)
                               (ul_monthly_reset_at ul))).
        rewrite Z.eqb_refl, map_map. reflexivity.
      * destruct (Z.eqb_spec (ul_user_id ul) u) as [C | _]; [| reflexivity].
        exfalso. apply NU. rewrite <- C. exact E.
    + destruct (Z.eqb_spec u userId) as [-> | NU].
      * destruct (Z.eqb_spec (ul_user_id ul) userId) as [C | _];
          [contradiction | reflexivity].
      * f_equal. destruct (Z.eqb_spec (ul_user_id ul) u) as [C | _];
          [| reflexivity].
        rewrite (joined_users_set_kyc_level userId newLevel (ul_user_id ul)
                   (fun k => mkUserLimits k (ul_daily_limit ul)
                               (ul_monthly_limit ul)
                               (ul_per_transaction_limit ul)
                               (ul_daily_spent ul) (ul_monthly_spent ul)
                               (ul_daily_reset_at ul)
                               (ul_monthly_reset_at ul))).
        destruct (Z.eqb_spec (ul_user_id ul) userId) as [C' | _];
          [contradiction | reflexivity].
Qed.

(** A call that returns has committed its two writes. *)
Lemma upgradeKYCLevel_run conn userId newLevel tables c' b :
  upgradeKYCLevel conn userId newLevel (mkClient tables None)
  = (c', Returned b) ->
  exists tier,
    KYC_LIMITS newLevel = Some tier
    /\ c' = mkClient (set_limits userId tier
                        (set_kyc_level userId newLevel tables)) None
    /\ b = true.
Proof.
  unfold upgradeKYCLevel, try_catch, bind, query, modify, throw, ret.
  intros H.
  destruct (rejects conn Begin); [destruct (rejects conn Rollback);
                                  discriminate |].
  destruct (rejects conn UpdateKycLevel);
    [destruct (rejects conn Rollback); discriminate |].
  destruct (KYC_LIMITS newLevel) as [tier |];
    [| destruct (rejects conn Rollback); discriminate].
  destruct (rejects conn UpdateLimits);
    [destruct (rejects conn Rollback); discriminate |].
  destruct (rejects conn CommitWork);
    [destruct (rejects conn Rollback); discriminate |].
  cbn in H. inversion H; subst. exists tier. repeat split.
Qed.

(** X19. [upgradeKYCLevel] is all or nothing.  From a client without an open
    transaction, a call that throws has committed nothing; a level without
    an entry in [KYC_LIMITS] always makes it throw (a [TypeError], after the
    level was written to [users] inside the transaction, when the statements
    before and the [ROLLBACK] go through).  A call that returns has set the
    user's level and replaced the three limits of every limits row of the
    user by those of the new tier, whether the tier is higher or lower than
    before; the counters, the reset times and the rows of the other users
    are as they were. *)
Theorem upgradeKYCLevel_effect conn userId newLevel tables c' r :
  upgradeKYCLevel conn userId newLevel (mkClient tables None) = (c', r) ->
  (thrown r ->
     committed c' = tables
     /\ (rejects conn Rollback = None -> working c' = None))
  /\ (KYC_LIMITS newLevel = None ->
      thrown r
      /\ (rejects conn Begin = None -> rejects conn UpdateKycLevel = None ->
          rejects conn Rollback = None -> r = Thrown TypeError))
  /\ (forall b, r = Returned b ->
        b = true /\ working c' = None
        /\ exists tier,
             KYC_LIMITS newLevel = Some tier
             /\ limitsQuery userId (core (committed c'))
                = map (upgraded newLevel tier)
                    (limitsQuery userId (core tables))
             /\ (forall u, u <> userId ->
                   limitsQuery u (core (committed c'))
                   = limitsQuery u (core tables))
             /\ limit_transactions (committed c')
                = limit_transactions tables).
Proof.
  intros H. split; [| split].
  - unfold upgradeKYCLevel, try_catch, bind, query, modify, throw, ret in H.
    destruct r as [b | e]; [intros [] | intros _].
    destruct (rejects conn Begin), (rejects conn UpdateKycLevel),
      (KYC_LIMITS newLevel), (rejects conn UpdateLimits),
      (rejects conn CommitWork), (rejects conn Rollback);
      cbn in H; inversion H; subst; split; try reflexivity;
      intros C; discriminate.
  - intros N. split.
    + destruct r as [b | e]; [| exact I].
      apply upgradeKYCLevel_run in H. destruct H as (tier & T & _).
      congruence.
    + intros B U R.
      unfold upgradeKYCLevel, try_catch, bind, query, modify, throw, ret in H.
      rewrite B, U, N, R in H. cbn in H. inversion H. reflexivity.
  - intros b ->. apply upgradeKYCLevel_run in H.
    destruct H as (tier & T & -> & ->).
    split; [reflexivity |]. split; [reflexivity |].
    exists tier. split; [exact T |]. cbn [committed].
    split; [rewrite limitsQuery_upgraded, Z.eqb_refl; reflexivity |].
    split; [| reflexivity].
    intros u NE. rewrite limitsQuery_upgraded.
    apply Z.eqb_neq in NE. rewrite NE. reflexivity.
Qed.

(** ** Reading the limits *)




End LimitsMoreFacts.

(** ** Runs on the sample data *)

Lemma precise_row_sample :
  LimitsMore.precise_row (PKR 100) (now Sample.a_month_later)
    SampleLimits.spending.
Proof. repeat split; vm_compute; discriminate. Defined.

Lemma checkTransactionLimits_decision_witness :
  Limits.limitsQuery 10 SampleLimits.spending_db = [SampleLimits.spending]
  /\ LimitsMore.precise_row (PKR 100) (now Sample.a_month_later)
       SampleLimits.spending
  /\ exists st r,
       Limits.checkTransactionLimits Sample.no_initialization
         Sample.a_month_later 10 (PKR 100) SampleLimits.spending_db
       = (st, Returned r)
       /\ Limits.allowed r = true
       /\ LimitsMore.within_limits (PKR 100) (now Sample.a_month_later)
            SampleLimits.spending
       /\ Limits.reason r = None.
Proof.
  assert (Q : Limits.limitsQuery 10 SampleLimits.spending_db
              = [SampleLimits.spending]) by reflexivity.
  assert (E : exists st r,
             Limits.checkTransactionLimits Sample.no_initialization
               Sample.a_month_later 10 (PKR 100) SampleLimits.spending_db
             = (st, Returned r) /\ Limits.allowed r = true)
    by (do 2 eexists; split; vm_compute; reflexivity).
  destruct E as (st & r & E & A).
  split; [exact Q |]. split; [exact precise_row_sample |].
  exists st, r. split; [exact E |].
  destruct (checkTransactionLimits_decision Sample.no_initialization _ _ _ _
              _ _ _ _ Q E precise_row_sample) as (_ & W & _ & T & _).
  split; [exact A |]. split; [apply W; exact A | apply T; exact A].
Defined.

Lemma checkTransactionLimits_repeatable_witness :
  Limits.limitsQuery 10 SampleLimits.spending_db = [SampleLimits.spending]
  /\ exists st r r',
       Limits.checkTransactionLimits Sample.no_initialization
         Sample.a_month_later 10 (PKR 100) SampleLimits.spending_db
       = (st, Returned r)
       /\ Limits.checkTransactionLimits Sample.no_initialization
            Sample.a_month_later 10 (PKR 100) st
          = (st, Returned r')
       /\ Limits.allowed r' = Limits.allowed r.
Proof.
  assert (Q : Limits.limitsQuery 10 SampleLimits.spending_db
              = [SampleLimits.spending]) by reflexivity.
  assert (E : exists st r,
             Limits.checkTransactionLimits Sample.no_initialization
               Sample.a_month_later 10 (PKR 100) SampleLimits.spending_db
             = (st, Returned r))
    by (do 2 eexists; vm_compute; reflexivity).
  destruct E as (st & r & E).
  split; [exact Q |].
  destruct (checkTransactionLimits_repeatable Sample.no_initialization _ _ _
              _ _ _ _ _ Q E) as (r' & E' & A & _).
  exists st, r, r'. split; [exact E |]. split; [exact E' | exact A].
Defined.


Lemma updateSpentAmounts_effect_witness :
  exists c',
    LimitsMore.updateSpentAmounts (LimitsMore.unbroken Sample.env) 10
      (PKR 100) "PK240115120000A1B2C3" "transfer"
      (Pg.mkClient SampleLimits.spending_tables None)
    = (c', Returned true)
    /\ Limits.limitsQuery 10 (LimitsMore.core (Pg.committed c'))
       = map (LimitsMore.spend (PKR 100))
           (Limits.limitsQuery 10 (LimitsMore.core SampleLimits.spending_tables)).
Proof.
  assert (E : exists c',
             LimitsMore.updateSpentAmounts (LimitsMore.unbroken Sample.env) 10
               (PKR 100) "PK240115120000A1B2C3" "transfer"
               (Pg.mkClient SampleLimits.spending_tables None)
             = (c', Returned true))
    by (eexists; vm_compute; reflexivity).
  destruct E as (c' & E). exists c'. split; [exact E |].
  destruct (updateSpentAmounts_effect _ _ _ _ _ _ _ _ E) as (_ & R).
  destruct (R true eq_refl) as (_ & _ & Q & _). exact Q.
Defined.

Lemma spent_within_limits_after_check_witness :
  Limits.limitsQuery 10 SampleLimits.spending_db = [SampleLimits.spending]
  /\ exists st r c',
       Limits.checkTransactionLimits Sample.no_initialization
         Sample.a_month_later 10 (PKR 100) SampleLimits.spending_db
       = (st, Returned r)
       /\ Limits.allowed r = true
       /\ LimitsMore.updateSpentAmounts
            (LimitsMore.unbroken Sample.a_month_later) 10 (PKR 100)
            "PK240215090000D4E5F6" "transfer"
            (Pg.mkClient (LimitsMore.mkTables st []) None)
          = (c', Returned true)
       /\ LimitsMore.precise_row (PKR 100) (now Sample.a_month_later)
            SampleLimits.spending
       /\ exists row' rest',
            Limits.limitsQuery 10 (LimitsMore.core (Pg.committed c'))
            = row' :: rest'
            /\ Limits.daily_spent row'
               = LimitsMore.daily_counter (now Sample.a_month_later)
                   SampleLimits.spending + PKR 100
            /\ Limits.daily_spent row' <= Limits.daily_limit row'.
Proof.
  assert (Q : Limits.limitsQuery 10 SampleLimits.spending_db
              = [SampleLimits.spending]) by reflexivity.
  assert (E : exists st r,
             Limits.checkTransactionLimits Sample.no_initialization
               Sample.a_month_later 10 (PKR 100) SampleLimits.spending_db
             = (st, Returned r) /\ Limits.allowed r = true)
    by (do 2 eexists; split; vm_compute; reflexivity).
  destruct E as (st & r & E & A).
  assert (U : exists c',
             LimitsMore.updateSpentAmounts
               (LimitsMore.unbroken Sample.a_month_later) 10 (PKR 100)
               "PK240215090000D4E5F6" "transfer"
               (Pg.mkClient (LimitsMore.mkTables st []) None)
             = (c', Returned true))
    by (eexists; reflexivity).
  destruct U as (c' & U).
  split; [exact Q |]. exists st, r, c'.
  split; [exact E |]. split; [exact A |]. split; [exact U |].
  split; [exact precise_row_sample |].
  destruct (spent_within_limits_after_check Sample.no_initialization _ _ _ _
              _ _ _ _ _ _ _ _ _ _ Q E A U precise_row_sample)
    as ((row' & rest' & Q' & D & _ & _ & _ & L & _) & _).
  exists row', rest'. split; [exact Q' |]. split; [exact D | exact L].
Defined.

Lemma upgradeKYCLevel_effect_witness :
  exists c',
    LimitsMore.upgradeKYCLevel (LimitsMore.unbroken Sample.env) 10 4
      (Pg.mkClient SampleLimits.spending_tables None)
    = (c', Thrown TypeError)
    /\ Pg.committed c' = SampleLimits.spending_tables.
Proof.
  assert (E : exists c',
             LimitsMore.upgradeKYCLevel (LimitsMore.unbroken Sample.env) 10 4
               (Pg.mkClient SampleLimits.spending_tables None)
             = (c', Thrown TypeError))
    by (eexists; vm_compute; reflexivity).
  destruct E as (c' & E). exists c'. split; [exact E |].
  destruct (upgradeKYCLevel_effect _ _ _ _ _ _ E) as (T & _).
  destruct (T I) as (C & _). exact C.
Defined.



(** * Facts about the transaction history *)

Section HistoryFacts.
Import Ledger LedgerSpec LedgerMore History.






(** [ORDER BY created_at DESC] returns the rows it was given, the newest
    first, whatever the choice between equal timestamps. *)
Lemma place_permutation conn x l : Permutation (x :: l) (place conn x l).
Proof.
  induction l as [| y l IH]; simpl; [apply Permutation_refl |].
  destruct (precedes conn x y); [apply Permutation_refl |].
  eapply Permutation_trans; [apply perm_swap |].
  apply perm_skip. exact IH.
Qed.

Lemma place_sorted conn x l :
  StronglySorted (fun a b => created_at b <= created_at a) l ->
  StronglySorted (fun a b => created_at b <= created_at a) (place conn x l).
Proof.
  induction 1 as [| y l S IH F]; simpl.
  - constructor; constructor.
  - unfold precedes.
    destruct (Z.ltb_spec (created_at y) (created_at x)) as [Lt | Ge]; simpl.
    + constructor; [constructor; assumption |].
      constructor; [lia |].
      rewrite Forall_forall in *. intros z I. specialize (F z I). lia.
    + destruct (Z.eqb_spec (created_at y) (created_at x)) as [Eq | Ne]; simpl.
      * destruct (ties conn x y).
        -- constructor; [constructor; assumption |].
           constructor; [lia |].
           rewrite Forall_forall in *. intros z I. specialize (F z I). lia.
        -- constructor; [exact IH |].
           rewrite Forall_forall in *. intros z I.
           apply (Permutation_in _ (Permutation_sym (place_permutation conn x l)))
             in I.
           destruct I as [<- | I]; [lia | apply F; exact I].
      * constructor; [exact IH |].
        rewrite Forall_forall in *. intros z I.
        apply (Permutation_in _ (Permutation_sym (place_permutation conn x l)))
          in I.
        destruct I as [<- | I]; [lia | apply F; exact I].
Qed.

Lemma orderBy_newest_first conn l :
  newest_first l (orderBy_created_at_desc conn l).
Proof.
  unfold newest_first, orderBy_created_at_desc.
  induction l as [| x l [P S]]; simpl.
  - split; [apply perm_nil | constructor].
  - split; [| apply place_sorted; exact S].
    eapply Permutation_trans; [apply perm_skip; exact P |].
    apply place_permutation.
Qed.

(** What a returning call has read. *)
Lemma getTransactionHistory_returned conn userId limit offset db db' items :
  getTransactionHistory conn userId limit offset db = (db', Returned items) ->
  db' = snd (opened (now (base conn)) userId db)
  /\ items
     = map item
         (firstn limit
            (skipn offset
               (orderBy_created_at_desc conn (entries_of userId db')))).
Proof.
  unfold getTransactionHistory. intros H.
  apply bind_returned in H. destruct H as (a & s & G & H).
  apply getOrCreateAccount_returned in G. destruct G as [-> ->].
  destruct (rejected conn); [discriminate |].
  unfold bind, get, ret in H. inversion H; subst. split; [reflexivity |].
  unfold entries_of. rewrite opened_found. reflexivity.
Qed.


Lemma newest_head (l sorted : list LedgerEntry) c :
  newest_first (l ++ [c]) sorted ->
  (forall e, In e l -> created_at e < created_at c) ->
  hd_error sorted = Some c.
Proof.
  intros [P S] O. destruct sorted as [| h t].
  - apply Permutation_sym, Permutation_nil in P.
    destruct l; discriminate.
  - simpl. f_equal.
    assert (Ih : In h (l ++ [c]))
      by (apply (Permutation_in _ (Permutation_sym P)); left; reflexivity).
    apply in_app_or in Ih. destruct Ih as [Ih | [-> | []]]; [| reflexivity].
    assert (Ic : In c (h :: t))
      by (apply (Permutation_in _ P), in_or_app; right; left; reflexivity).
    destruct Ic as [-> | Ic]; [reflexivity |].
    inversion S as [| ? ? _ F]; subst. rewrite Forall_forall in F.
    specialize (F c Ic). specialize (O h Ih). lia.
Qed.

(** X25. A deposit heads the history.  When a deposit has returned and
    every earlier entry of the ledger is older than it, the first page of
    the history of the user (any limit above zero, offset zero) starts with
    the entry the deposit wrote: its reference, type credit, its amount, the
    balance stored with the entry, its timestamp, and as description the one
    given in the metadata of the call if there is one, else
    [Deposit to wallet]. *)
Theorem deposit_heads_history env conn userId amt md db db1 res limit db2 items :
  deposit env userId amt md db = (db1, Returned res) ->
  (forall e, In e (ledger_entries db) -> created_at e < now env) ->
  getTransactionHistory conn userId (S limit) 0 db1 = (db2, Returned items) ->
  db2 = db1
  /\ exists c,
       ledger_entries db1 = ledger_entries db ++ [c]
       /\ hd_error items
          = Some (mkHistoryItem (dep_transactionRef res) credit amt
                    (balance_after c) (now env)
                    (or_empty
                       (property "description"
                          (("description", MString "Deposit to wallet")
                           :: md)))).
Proof.
  intros D O H.
  apply deposit_committed in D. destruct D as (la & _ & -> & ->).
  set (a := fst (opened (now env) userId db)) in *.
  set (d1 := snd (opened (now env) userId db)) in *.
  set (c := mkLedgerEntry (trn env) (acc_id a) credit amt (balance la + amt)
              (("description", MString "Deposit to wallet") :: md) (now env))
    in *.
  set (db1 := mkDB _ _ _) in *.
  assert (F : find (wallet_of userId) (accounts db1)
              = Some (set_balance (acc_id a) (balance la + amt) (now env) a)).
  { unfold db1. cbn [accounts].
    rewrite find_map by (intros x; apply wallet_of_set_balance).
    unfold d1, a. rewrite opened_found. reflexivity. }
  apply getTransactionHistory_returned in H. destruct H as [E ->].
  assert (E2 : db2 = db1).
  { rewrite E. unfold opened.
    change (fun r => (acc_user_id r =? userId)
                     && account_type_eqb (account_type r) customer_wallet)
      with (wallet_of userId).
    rewrite F. reflexivity. }
  clear E. subst db2. split; [reflexivity |].
  assert (X : extends db d1) by apply opened_extends.
  destruct X as (_ & L & _).
  exists c. split; [unfold db1; cbn [ledger_entries]; rewrite L; reflexivity |].
  pose proof (orderBy_newest_first conn (entries_of userId db1)) as N.
  assert (En : entries_of userId db1
               = filter (fun e => account_id e =? acc_id a) (ledger_entries db)
                 ++ [c]).
  { unfold entries_of. rewrite F, set_balance_id. unfold db1.
    cbn [ledger_entries]. rewrite L, filter_app. cbn [filter].
    unfold c at 1. cbn [account_id]. rewrite Z.eqb_refl. reflexivity. }
  rewrite En in N |- *.
  apply newest_head in N.
  - cbn [skipn]. destruct (orderBy_created_at_desc conn _) as [| h t];
      [discriminate |].
    cbn in N |- *. inversion N; subst h. reflexivity.
  - intros e I. apply filter_In in I. destruct I as [I _].
    apply O. exact I.
Qed.

End HistoryFacts.

(** ** Runs on the sample data *)


Lemma deposit_heads_history_witness :
  (forall e, In e (Ledger.ledger_entries SampleHistory.db) ->
             Ledger.created_at e < now Sample.env)
  /\ exists db1 items,
       Ledger.deposit Sample.env 10 (PKR 3000) [] SampleHistory.db
       = (db1, Returned (Ledger.mkDepositResult (trn Sample.env) (PKR 13000)
                           Sample.noon))
       /\ History.getTransactionHistory SampleHistory.conn 10 1 0 db1
          = (db1, Returned items)
       /\ hd_error items
          = Some (History.mkHistoryItem (trn Sample.env) Ledger.credit
                    (PKR 3000) (PKR 13000) Sample.noon
                    (Ledger.MString "Deposit to wallet")).
Proof.
  assert (O : forall e, In e (Ledger.ledger_entries SampleHistory.db) ->
                        Ledger.created_at e < now Sample.env).
  { intros e I.
    change (In e [Sample.structured "TXN1705305600000A7C2E9G4H" 4;
                  Sample.structured "TXN1705309200000B8D3F1J5K" 3;
                  Sample.structured "TXN1705312800000C9E4G2L6M" 2]) in I.
    destruct I as [<- | [<- | [<- | []]]]; reflexivity. }
  set (db1 := Ledger.mkDB
                [Ledger.mkAccount 1 10 Ledger.customer_wallet (PKR 13000)
                   Ledger.active Sample.noon; Sample.bob]
                [Ledger.mkTransaction 1 (trn Sample.env) Ledger.deposit_type
                   None (Some 1) (PKR 3000) Ledger.completed
                   [("source", Ledger.MString "manual_deposit")]
                   Sample.noon Sample.noon]
                [Sample.structured "TXN1705305600000A7C2E9G4H" 4;
                 Sample.structured "TXN1705309200000B8D3F1J5K" 3;
                 Sample.structured "TXN1705312800000C9E4G2L6M" 2;
                 SampleHistory.deposited]).
  assert (D : Ledger.deposit Sample.env 10 (PKR 3000) [] SampleHistory.db
              = (db1, Returned (Ledger.mkDepositResult (trn Sample.env)
                                  (PKR 13000) Sample.noon)))
    by (vm_compute; reflexivity).
  assert (H : exists items,
             History.getTransactionHistory SampleHistory.conn 10 1 0 db1
             = (db1, Returned items))
    by (eexists; vm_compute; reflexivity).
  destruct H as (items & H).
  split; [exact O |].
  destruct (deposit_heads_history _ _ _ _ _ _ _ _ _ _ _ D O H)
    as (_ & c & L & R).
  exists db1, items. split; [exact D |]. split; [exact H |].
  assert (C : c = SampleHistory.deposited).
  { unfold db1 in L. cbn [Ledger.ledger_entries] in L.
    change (Ledger.ledger_entries SampleHistory.db)
      with [Sample.structured "TXN1705305600000A7C2E9G4H" 4;
            Sample.structured "TXN1705309200000B8D3F1J5K" 3;
            Sample.structured "TXN1705312800000C9E4G2L6M" 2] in L.
    cbn [app] in L. inversion L. reflexivity. }
  rewrite R, C. reflexivity.
Defined.

(** * Facts about bill payments *)

Section BillsFacts.
Import Pg Bills.

Lemma getBalance_extends_store env userId db db' r :
  Ledger.getBalance env userId db = (db', r) -> LedgerSpec.extends db db'.
Proof.
  unfold Ledger.getBalance. intros H.
  destruct (bind_cases _ _ _ _ _ H) as [(e & G) | (a & s & G & K)].
  - apply getOrCreateAccount_thrown in G. subst. apply extends_refl.
  - unfold ret in K. inversion K; subst.
    apply getOrCreateAccount_returned in G. rewrite (proj2 G).
    apply opened_extends.
Qed.

(** X22. [payBill] never succeeds.  It ends by calling
    [ledgerService.withdraw], which [LedgerService] does not have, so every
    call throws, whatever the biller, the amount and the state of the
    database.  From a client without an open transaction no bill payment is
    committed (the inserted row is rolled back, or left in an open
    transaction when the [ROLLBACK] is rejected), and the ledger is as it
    was but for the blank wallet [getBalance] may have opened.  When no
    statement is rejected, the error is "Invalid biller" for a code
    [this.billers] has no property for, "Insufficient balance" when the
    balance [getBalance] reports is below the amount, and the [TypeError] of
    the missing method in every other case. *)
Theorem payBill_never_returns conn userId billerCode consumerNumber amount
    billDetails st :
  working (bill_payments st) = None ->
  exists st' e,
    payBill conn userId billerCode consumerNumber amount billDetails st
    = (st', Thrown e)
    /\ committed (bill_payments st') = committed (bill_payments st)
    /\ (rejects conn Rollback = None -> working (bill_payments st') = None)
    /\ LedgerSpec.extends (ledger st) (ledger st')
    /\ ((forall q, rejects conn q = None) ->
        (forall s, faults (base conn) s = false) ->
        e = match lookup billerCode with
            | Undefined => Error "Invalid biller"
            | _ =>
                if Ledger.bv_balance (LedgerMore.reported userId (ledger st))
                   <? amount
                then Error "Insufficient balance"
                else TypeError
            end).
Proof.
  intros W. destruct st as [db [rows w]]. cbn in W. subst w.
  unfold payBill, try_catch.
  match goal with
  | |- context [bind ?m ?f ?s] => destruct (bind m f s) as [st1 [res | e]] eqn:H
  end.
  - exfalso. unfold bind, query, modify, withdraw, throw, ret in H.
    destruct (rejects conn Begin); [discriminate |].
    destruct (lookup billerCode); try discriminate;
      unfold ledgerService in H; cbn [ledger] in H;
      destruct (Ledger.getBalance (base conn) userId db) as [db' [bv | e']];
      try discriminate;
      destruct (Ledger.bv_balance bv <? amount); try discriminate;
      destruct (rejects conn InsertBillPayment); discriminate.
  - assert (S : committed (bill_payments st1) = rows
                /\ LedgerSpec.extends db (ledger st1)
                /\ ((forall q, rejects conn q = None) ->
                    (forall s, faults (base conn) s = false) ->
                    e = match lookup billerCode with
                        | Undefined => Error "Invalid biller"
                        | _ =>
                            if Ledger.bv_balance (LedgerMore.reported userId db)
                               <? amount
                            then Error "Insufficient balance"
                            else TypeError
                        end)).
    { unfold bind, query, modify, withdraw, throw, ret in H.
      destruct (rejects conn Begin) eqn:B.
      { inversion H; subst. split; [reflexivity |].
        split; [apply extends_refl |]. intros Q. rewrite Q in B. discriminate. }
      cbn in H.
      assert (G : forall env (F : forall s, faults env s = false),
                 Ledger.getBalance env userId db
                 = (snd (LedgerSpec.opened (now env) userId db),
                    Returned (LedgerMore.reported userId db))).
      { intros env F. unfold Ledger.getBalance, bind, ret.
        rewrite getOrCreateAccount_healthy by apply F.
        unfold LedgerMore.reported, LedgerSpec.opened.
        change (fun r => (Ledger.acc_user_id r =? userId)
                         && Ledger.account_type_eqb (Ledger.account_type r)
                              Ledger.customer_wallet)
          with (LedgerMore.wallet_of userId).
        destruct (find (LedgerMore.wallet_of userId) (Ledger.accounts db));
          reflexivity. }
      destruct (lookup billerCode) eqn:L.
      - unfold ledgerService in H. cbn [ledger bill_payments] in H.
        destruct (Ledger.getBalance (base conn) userId db)
          as [db' [bv | e']] eqn:GB.
        + pose proof (getBalance_extends_store _ _ _ _ _ GB) as X.
          destruct (Ledger.bv_balance bv <? amount) eqn:C.
          * inversion H; subst. split; [reflexivity |]. split; [exact X |].
            intros _ F. rewrite (G _ F) in GB. inversion GB; subst.
            rewrite C. reflexivity.
          * destruct (rejects conn InsertBillPayment) eqn:Ins;
              inversion H; subst; (split; [reflexivity |]);
              (split; [exact X |]).
            -- intros Q. rewrite Q in Ins. discriminate.
            -- intros _ F. rewrite (G _ F) in GB. inversion GB; subst.
               rewrite C. reflexivity.
        + pose proof (getBalance_extends_store _ _ _ _ _ GB) as X.
          inversion H; subst. split; [reflexivity |]. split; [exact X |].
          intros _ F. rewrite (G _ F) in GB. discriminate.
      - unfold ledgerService in H. cbn [ledger bill_payments] in H.
        destruct (Ledger.getBalance (base conn) userId db)
          as [db' [bv | e']] eqn:GB.
        + pose proof (getBalance_extends_store _ _ _ _ _ GB) as X.
          destruct (Ledger.bv_balance bv <? amount) eqn:C.
          * inversion H; subst. split; [reflexivity |]. split; [exact X |].
            intros _ F. rewrite (G _ F) in GB. inversion GB; subst.
            rewrite C. reflexivity.
          * destruct (rejects conn InsertBillPayment) eqn:Ins;
              inversion H; subst; (split; [reflexivity |]);
              (split; [exact X |]).
            -- intros Q. rewrite Q in Ins. discriminate.
            -- intros _ F. rewrite (G _ F) in GB. inversion GB; subst.
               rewrite C. reflexivity.
        + pose proof (getBalance_extends_store _ _ _ _ _ GB) as X.
          inversion H; subst. split; [reflexivity |]. split; [exact X |].
          intros _ F. rewrite (G _ F) in GB. discriminate.
      - inversion H; subst. split; [reflexivity |].
        split; [apply extends_refl |]. intros _ _. reflexivity. }
    destruct S as (C & X & E).
    unfold bind, query, modify, throw.
    destruct (rejects conn Rollback) as [e' |] eqn:R.
    + exists st1, e'. split; [reflexivity |]. split; [exact C |].
      split; [discriminate |]. split; [exact X |].
      intros Q. rewrite Q in R. discriminate.
    + eexists. exists e. split; [reflexivity |]. cbn.
      split; [exact C |]. split; [reflexivity |]. split; [exact X |].
      exact E.
Qed.

(** X23. [topupMobile] never succeeds either.  For an operator other than
    JAZZ, ZONG, TELENOR and UFONE it throws "Invalid mobile operator" and
    touches nothing; for these four it is a call of [payBill], which always
    throws; in both cases no bill payment is committed. *)
Theorem topupMobile_never_returns conn userId mobileNumber operator amount st :
  working (bill_payments st) = None ->
  exists st' e,
    topupMobile conn userId mobileNumber operator amount st = (st', Thrown e)
    /\ committed (bill_payments st') = committed (bill_payments st)
    /\ (~ In operator ["JAZZ"; "ZONG"; "TELENOR"; "UFONE"] ->
        st' = st /\ e = Error "Invalid mobile operator")
    /\ (In operator ["JAZZ"; "ZONG"; "TELENOR"; "UFONE"] ->
        topupMobile conn userId mobileNumber operator amount st
        = payBill conn userId operator mobileNumber amount
            [("type", Some "mobile_topup");
             ("mobileNumber", Some mobileNumber)] st).
Proof.
  intros W.
  destruct (payBill_never_returns conn userId operator mobileNumber amount
              [("type", Some "mobile_topup");
               ("mobileNumber", Some mobileNumber)] st W)
    as (st1 & e1 & P & C & _).
  assert (M : (In operator ["JAZZ"; "ZONG"; "TELENOR"; "UFONE"]
               /\ topupMobile conn userId mobileNumber operator amount st
                  = payBill conn userId operator mobileNumber amount
                      [("type", Some "mobile_topup");
                       ("mobileNumber", Some mobileNumber)] st)
              \/ (~ In operator ["JAZZ"; "ZONG"; "TELENOR"; "UFONE"]
                  /\ topupMobile conn userId mobileNumber operator amount st
                     = (st, Thrown (Error "Invalid mobile operator")))).
  { unfold topupMobile, lookup, billers. cbn [find fst].
    repeat match goal with
           | |- context [(?a =? operator)%string] =>
               destruct (String.eqb_spec a operator) as [<- | ?]
           end;
      try (left; split; [cbn; tauto | reflexivity]);
      right; (split; [cbn; intuition congruence |]);
      try reflexivity.
    destruct (existsb (String.eqb operator) inherited); reflexivity. }
  destruct M as [[I E] | [N E]].
  - exists st1, e1. split; [rewrite E; exact P |]. split; [exact C |].
    split; [intros X; contradiction | intros _; exact E].
  - exists st, (Error "Invalid mobile operator").
    split; [exact E |]. split; [reflexivity |].
    split; [intros _; split; reflexivity | intros X; contradiction].
Qed.

End BillsFacts.

(** ** Runs on the sample data *)

Lemma payBill_never_returns_witness :
  Pg.working (Bills.bill_payments SampleBills.store) = None
  /\ exists st',
       Bills.payBill SampleBills.conn 10 "KE" "0400012345678" (PKR 3000) []
         SampleBills.store
       = (st', Thrown TypeError)
       /\ Pg.committed (Bills.bill_payments st') = [].
Proof.
  split; [reflexivity |].
  destruct (payBill_never_returns SampleBills.conn 10 "KE" "0400012345678"
              (PKR 3000) [] SampleBills.store eq_refl)
    as (st' & e & P & C & _ & _ & E).
  assert (T : e = TypeError)
    by (rewrite E; [reflexivity | intros q; reflexivity
                    | intros s; reflexivity]).
  subst e. exists st'. split; [exact P | exact C].
Defined.

Lemma topupMobile_never_returns_witness :
  Pg.working (Bills.bill_payments SampleBills.store) = None
  /\ exists st' e,
       Bills.topupMobile SampleBills.conn 10 "03001234567" "JAZZ" (PKR 500)
         SampleBills.store
       = (st', Thrown e)
       /\ Pg.committed (Bills.bill_payments st') = [].
Proof.
  split; [reflexivity |].
  destruct (topupMobile_never_returns SampleBills.conn 10 "03001234567" "JAZZ"
              (PKR 500) SampleBills.store eq_refl)
    as (st' & e & P & C & _).
  exists st', e. split; [exact P | exact C].
Defined.

